(** * OVN network driver: a shallow embedding of the address-allocation,
      validation, NIC-port, forward / load-balancer and BGP-export logic.

    The Go code threads errors through early [return]s; here fallible code
    returns a [result].  Go's [net.IP] is a byte slice: it is modelled as a
    list of bytes, the nil slice being the empty list.  Configuration maps
    ([map[string]string]) are finite maps whose missing keys read as the
    empty string, as a Go map lookup does.  Error messages keep their
    fixed text; most operands formatted into them are left out.

    Functions of Go's standard library and of packages outside the driver
    that only parse or print text are section variables of the modules
    that use them; [net.IP], [net.IPMask] and [math/big] are embedded. *)

From Stdlib Require Import NArith ZArith List Bool Lia.
From Stdlib Require Import Strings.String Strings.Ascii Strings.Byte.
From Stdlib Require Import Numbers.DecimalString Numbers.DecimalZ.
From stdpp Require Import base option list gmap strings.

Local Open Scope string_scope.
Local Open Scope N_scope.
Local Open Scope list_scope.

(** ** Errors *)

Inductive result (A : Type) : Type :=
| Ok (a : A)
| Err (msg : string).
Arguments Ok {A} a.
Arguments Err {A} msg.

Definition rbind {A B} (r : result A) (k : A -> result B) : result B :=
  match r with
  | Ok a => k a
  | Err e => Err e
  end.

Definition isErr {A} (r : result A) : bool :=
  match r with Ok _ => false | Err _ => true end.

(** [wrap pfx r] is [fmt.Errorf("pfx: %w", err)]. *)
Definition wrap {A} (pfx : string) (r : result A) : result A :=
  match r with
  | Ok a => Ok a
  | Err e => Err (pfx ++ ": " ++ e)
  end.

Notation "'let*' x ':=' c1 'in' c2" := (rbind c1 (fun x => c2))
  (at level 10, x name, c1 at level 100, c2 at level 200).
Notation "'check' c1 'in' c2" := (rbind c1 (fun _ => c2))
  (at level 10, c1 at level 100, c2 at level 200).

(** Configuration maps: a missing key reads as the empty string. *)
Definition cfg (config : gmap string string) (key : string) : string :=
  default "" (config !! key).

(** ** Go's [net] and [math/big], as far as the driver uses them *)

Module GoNet.

Definition IP := list byte.

Definition IPv4len : nat := 4.
Definition IPv6len : nat := 16.

(** A byte from its numeric value (values above 255 do not occur). *)
Definition byte_of_N (n : N) : byte :=
  match Byte.of_N n with
  | Some b => b
  | None => x00
  end.

Definition v4InV6Prefix : list byte :=
  [x00; x00; x00; x00; x00; x00; x00; x00; x00; x00; xff; xff].

Definition bytes_eqb (a b : list byte) : bool :=
  bool_decide (map Byte.to_N a = map Byte.to_N b).

Definition isZeros (p : list byte) : bool :=
  forallb (fun b => Byte.to_N b =? 0) p.

(** [ip.To4()]: the 4-byte form of an IPv4 address, nil otherwise. *)
Definition To4 (ip : IP) : IP :=
  if Nat.eqb (length ip) IPv4len then ip
  else if Nat.eqb (length ip) IPv6len
          && isZeros (firstn 10 ip)
          && bytes_eqb (firstn 2 (skipn 10 ip)) [xff; xff]
       then skipn 12 ip
       else [].

(** [ip.To16()]: the 16-byte form, nil if the length is neither 4 nor 16. *)
Definition To16 (ip : IP) : IP :=
  if Nat.eqb (length ip) IPv4len then v4InV6Prefix ++ ip
  else if Nat.eqb (length ip) IPv6len then ip
       else [].

(** [ip.Equal(x)]: an IPv4 address and its 16-byte form are equal. *)
Definition Equal (ip x : IP) : bool :=
  if Nat.eqb (length ip) (length x) then bytes_eqb ip x
  else if Nat.eqb (length ip) IPv4len && Nat.eqb (length x) IPv6len
       then bytes_eqb (firstn 12 x) v4InV6Prefix && bytes_eqb ip (skipn 12 x)
       else if Nat.eqb (length ip) IPv6len && Nat.eqb (length x) IPv4len
            then bytes_eqb (firstn 12 ip) v4InV6Prefix && bytes_eqb (skipn 12 ip) x
            else false.

(** [big.Int.SetBytes]: the bytes read as a big-endian unsigned integer. *)
Definition SetBytes (buf : list byte) : N :=
  fold_left (fun acc b => acc * 256 + Byte.to_N b) buf 0.

(** [big.Int.Bytes]: the big-endian bytes of the absolute value, WITHOUT
    leading zero bytes (zero gives the empty slice). *)
Fixpoint Bytes_go (fuel : nat) (x : N) (acc : list byte) : list byte :=
  match fuel with
  | O => acc
  | S fuel' =>
      if x =? 0 then acc
      else Bytes_go fuel' (x / 256) (byte_of_N (x mod 256) :: acc)
  end.

Definition Bytes (x : N) : list byte :=
  Bytes_go (N.to_nat (N.size x)) x [].

(** The fixed-width big-endian encoding on [len] bytes: what an address
    of that width with numeric value [x] is. *)
Fixpoint encode (len : nat) (x : N) : list byte :=
  match len with
  | O => []
  | S len' => encode len' (x / 256) ++ [byte_of_N (x mod 256)]
  end.

(** Address literals for examples. *)
Definition ipv4 (a b c d : N) : IP :=
  [byte_of_N a; byte_of_N b; byte_of_N c; byte_of_N d].

(** [net.ParseIP] of a dotted quad gives the 16-byte form. *)
Definition ipv4_16 (a b c d : N) : IP := v4InV6Prefix ++ ipv4 a b c d.


(** [net.IPMask], [net.CIDRMask] and [IPMask.Size]. *)
Definition IPMask := list byte.

Record IPNet := mkIPNet { netIP : IP; Mask : IPMask }.

(** [^byte(0xff >> n)]. *)
Definition maskByte (n : N) : byte :=
  byte_of_N (N.lxor (N.shiftr 255 n) 255).

Fixpoint cidrBytes (l : nat) (n : N) : list byte :=
  match l with
  | O => []
  | S l' =>
      if 8 <=? n then xff :: cidrBytes l' (n - 8)
      else maskByte n :: cidrBytes l' 0
  end.

Definition CIDRMask (ones bits : N) : IPMask :=
  if negb ((bits =? 32) || (bits =? 128)) then []
  else if bits <? ones then []
  else cidrBytes (N.to_nat (bits / 8)) ones.

(** The inner loop of [simpleMaskLength]: count the leading one bits of
    a byte, shifting it left (within eight bits) as they are counted. *)
Fixpoint leadingOnes (fuel : nat) (v : N) : N * N :=
  match fuel with
  | O => (0, v)
  | S fuel' =>
      if N.land v 128 =? 0 then (0, v)
      else let '(n, v') := leadingOnes fuel' (N.shiftl v 1 mod 256) in
           (n + 1, v')
  end.

(** [simpleMaskLength]; [None] is Go's [-1]. *)
Fixpoint simpleMaskLength (mask : IPMask) : option N :=
  match mask with
  | [] => Some 0
  | b :: rest =>
      if Byte.to_N b =? 255
      then option_map (N.add 8) (simpleMaskLength rest)
      else let '(n, v) := leadingOnes 8 (Byte.to_N b) in
           if negb (v =? 0) then None
           else if isZeros rest then Some n
                else None
  end.

(** [mask.Size()]: the ones and the bits, [(0, 0)] for a mask that is
    not in canonical form. *)
Definition Size (mask : IPMask) : N * N :=
  match simpleMaskLength mask with
  | Some ones => (ones, 8 * N.of_nat (length mask))
  | None => (0, 0)
  end.

Definition allFF (m : list byte) : bool :=
  forallb (fun b => Byte.to_N b =? 255) m.

Definition andBytes (a b : list byte) : list byte :=
  map (fun p => byte_of_N (N.land (Byte.to_N (fst p)) (Byte.to_N (snd p))))
      (combine a b).

(** [ip.Mask(mask)]. *)
Definition maskIP (ip : IP) (mask : IPMask) : IP :=
  let mask :=
    if Nat.eqb (length mask) IPv6len && Nat.eqb (length ip) IPv4len
       && allFF (firstn 12 mask)
    then skipn 12 mask else mask in
  let ip :=
    if Nat.eqb (length mask) IPv4len && Nat.eqb (length ip) IPv6len
       && bytes_eqb (firstn 12 ip) v4InV6Prefix
    then skipn 12 ip else ip in
  if Nat.eqb (length ip) (length mask) then andBytes ip mask else [].

(** [networkNumberAndMask(n)]; the pair of nil slices when the network
    is not a 4- or 16-byte one. *)
Definition networkNumberAndMask (n : IPNet) : IP * IPMask :=
  let withMask (ip : IP) : IP * IPMask :=
    let m := Mask n in
    if Nat.eqb (length m) IPv4len
    then (if Nat.eqb (length ip) IPv4len then (ip, m) else ([], []))
    else if Nat.eqb (length m) IPv6len
         then (if Nat.eqb (length ip) IPv4len then (ip, skipn 12 m) else (ip, m))
         else ([], []) in
  match To4 (netIP n) with
  | [] => if Nat.eqb (length (netIP n)) IPv6len then withMask (netIP n)
          else ([], [])
  | v4 => withMask v4
  end.

(** [n.Contains(ip)]. *)
Definition Contains (n : IPNet) (ip : IP) : bool :=
  let '(nn, m) := networkNumberAndMask n in
  let ip := match To4 ip with [] => ip | v4 => v4 end in
  if Nat.eqb (length ip) (length nn)
  then bytes_eqb (andBytes nn m) (andBytes ip m)
  else false.

(** [net.ParseCIDR], given the reading of the text: [parseCIDRText]
    stands for the lexical part (the address as its 4 or 16 bytes and
    the prefix length, at most the address's bit length). *)
Definition ParseCIDR (parseCIDRText : string -> option (list byte * N))
    (s : string) : option (IP * IPNet) :=
  match parseCIDRText s with
  | None => None
  | Some (addr, n) =>
      let m := CIDRMask n (8 * N.of_nat (length addr)) in
      let addr16 := To16 addr in
      Some (addr16, mkIPNet (maskIP addr16 m) m)
  end.

(** Decimal and dotted-quad printing ([strconv.Itoa], [IP.String] of an
    IPv4 address). *)
Definition itoa (n : N) : string := NilZero.string_of_uint (N.to_uint n).

Definition dotted (b : list byte) : string :=
  String.concat "." (map (fun x => itoa (Byte.to_N x)) b).

(** [netip.Addr], as obtained by [netip.ParseAddr(ip.String())]: an
    address that prints as IPv4 reads back as a 4-byte address, a 16-byte
    one as itself, anything else does not parse. *)
Inductive Addr :=
| Addr4 (b : list byte)
| Addr6 (b : list byte).

Definition addrOfIP (ip : IP) : result Addr :=
  match To4 ip with
  | [] => if Nat.eqb (length ip) IPv6len then Ok (Addr6 ip)
          else Err "ParseAddr: unable to parse IP"
  | v4 => Ok (Addr4 v4)
  end.

(** [a.Compare(b) == 0]. *)
Definition Addr_eqb (a b : Addr) : bool :=
  match a, b with
  | Addr4 x, Addr4 y => bytes_eqb x y
  | Addr6 x, Addr6 y => bytes_eqb x y
  | _, _ => false
  end.

(** *** Facts about bytes and big-endian integers *)

Lemma to_N_lt (b : byte) : Byte.to_N b < 256.
Proof. pose proof (Byte.to_N_bounded b). lia. Qed.

Lemma to_N_inj (a b : byte) : Byte.to_N a = Byte.to_N b -> a = b.
Proof.
  intros H. pose proof (Byte.of_to_N a) as Ha.
  rewrite H, Byte.of_to_N in Ha. congruence.
Qed.

Lemma to_N_byte_of_N (n : N) : n < 256 -> Byte.to_N (byte_of_N n) = n.
Proof.
  unfold byte_of_N. intros Hn. destruct (Byte.of_N n) eqn:E.
  - now apply Byte.to_of_N.
  - apply Byte.of_N_None_iff in E. lia.
Qed.

Lemma byte_of_N_to_N (b : byte) : byte_of_N (Byte.to_N b) = b.
Proof. unfold byte_of_N. now rewrite Byte.of_to_N. Qed.

Lemma map_to_N_inj (a b : list byte) :
  map Byte.to_N a = map Byte.to_N b -> a = b.
Proof.
  revert b. induction a as [|x a IH]; intros [|y b] H; simpl in H;
    try discriminate; [reflexivity|].
  injection H as Hx Hl. f_equal; [now apply to_N_inj | now apply IH].
Qed.

Lemma bytes_eqb_true (a b : list byte) : bytes_eqb a b = true <-> a = b.
Proof.
  unfold bytes_eqb. rewrite bool_decide_eq_true. split.
  - apply map_to_N_inj.
  - now intros ->.
Qed.

Lemma bytes_eqb_refl (a : list byte) : bytes_eqb a a = true.
Proof. now apply bytes_eqb_true. Qed.

Lemma bytes_eqb_sym (a b : list byte) : bytes_eqb a b = bytes_eqb b a.
Proof.
  destruct (bytes_eqb a b) eqn:E1, (bytes_eqb b a) eqn:E2; try reflexivity.
  - apply bytes_eqb_true in E1. subst. now rewrite bytes_eqb_refl in E2.
  - apply bytes_eqb_true in E2. subst. now rewrite bytes_eqb_refl in E1.
Qed.

Lemma Equal_sym (a b : IP) : Equal a b = Equal b a.
Proof.
  unfold Equal.
  destruct (Nat.eqb_spec (length a) (length b)) as [E|NE].
  - rewrite E, Nat.eqb_refl. apply bytes_eqb_sym.
  - destruct (Nat.eqb_spec (length b) (length a)) as [E'|_]; [congruence|].
    destruct (Nat.eqb_spec (length a) IPv4len) as [A4|A4],
             (Nat.eqb_spec (length b) IPv6len) as [B6|B6],
             (Nat.eqb_spec (length a) IPv6len) as [A6|A6],
             (Nat.eqb_spec (length b) IPv4len) as [B4|B4];
      simpl; try reflexivity;
      try (unfold IPv4len, IPv6len in *; congruence);
      f_equal; apply bytes_eqb_sym.
Qed.

Lemma SetBytes_fold (l : list byte) (acc : N) :
  fold_left (fun acc b => acc * 256 + Byte.to_N b) l acc
  = acc * 256 ^ N.of_nat (length l) + SetBytes l.
Proof.
  revert acc. induction l as [|b l IH]; intros acc.
  - unfold SetBytes. simpl. lia.
  - unfold SetBytes. cbn [fold_left length]. rewrite IH, (IH (0 * 256 + _)).
    rewrite Nat2N.inj_succ, N.pow_succ_r'. lia.
Qed.

Lemma SetBytes_cons (b : byte) (l : list byte) :
  SetBytes (b :: l) = Byte.to_N b * 256 ^ N.of_nat (length l) + SetBytes l.
Proof. unfold SetBytes at 1. cbn [fold_left]. rewrite SetBytes_fold. lia. Qed.

Lemma SetBytes_snoc (l : list byte) (b : byte) :
  SetBytes (l ++ [b]) = SetBytes l * 256 + Byte.to_N b.
Proof. unfold SetBytes. now rewrite fold_left_app. Qed.

Lemma SetBytes_lt (l : list byte) : SetBytes l < 256 ^ N.of_nat (length l).
Proof.
  induction l as [|b l IH].
  - unfold SetBytes. simpl. lia.
  - rewrite SetBytes_cons. cbn [length].
    rewrite Nat2N.inj_succ, N.pow_succ_r'.
    pose proof (to_N_lt b). nia.
Qed.

Lemma SetBytes_lower (b : byte) (l : list byte) :
  Byte.to_N b <> 0 -> 256 ^ N.of_nat (length l) <= SetBytes (b :: l).
Proof. intros Hb. rewrite SetBytes_cons. nia. Qed.

Lemma length_encode (len : nat) (x : N) : length (encode len x) = len.
Proof.
  revert x. induction len as [|len IH]; intros x; simpl; [reflexivity|].
  rewrite length_app, IH. simpl. lia.
Qed.

Lemma SetBytes_encode (len : nat) (x : N) :
  x < 256 ^ N.of_nat len -> SetBytes (encode len x) = x.
Proof.
  revert x. induction len as [|len IH]; intros x Hx.
  - simpl in *. unfold SetBytes. simpl. lia.
  - cbn [encode]. rewrite SetBytes_snoc.
    rewrite Nat2N.inj_succ, N.pow_succ_r' in Hx.
    rewrite IH.
    + rewrite to_N_byte_of_N by (apply N.mod_lt; lia).
      pose proof (N.div_mod x 256). lia.
    + apply N.Div0.div_lt_upper_bound. lia.
Qed.

Lemma encode_SetBytes (l : list byte) : encode (length l) (SetBytes l) = l.
Proof.
  induction l as [|b l IH] using rev_ind; [reflexivity|].
  rewrite length_app. cbn [length]. rewrite Nat.add_1_r. cbn [encode].
  rewrite SetBytes_snoc. pose proof (to_N_lt b).
  replace ((SetBytes l * 256 + Byte.to_N b) / 256) with (SetBytes l).
  2:{ apply N.div_unique with (r := Byte.to_N b); lia. }
  replace ((SetBytes l * 256 + Byte.to_N b) mod 256) with (Byte.to_N b).
  2:{ apply N.mod_unique with (q := SetBytes l); lia. }
  now rewrite IH, byte_of_N_to_N.
Qed.

(** With enough fuel, [Bytes_go] yields the shortest big-endian form. *)
Lemma Bytes_go_encode (n : nat) :
  forall (fuel : nat) (x : N) (acc : list byte),
    256 ^ N.of_nat n <= x < 256 ^ N.of_nat (S n) ->
    (S n <= fuel)%nat ->
    Bytes_go fuel x acc = encode (S n) x ++ acc.
Proof.
  induction n as [|n IH]; intros fuel x acc Hx Hfuel.
  - destruct fuel as [|fuel]; [lia|]. simpl in Hx.
    cbn [Bytes_go encode]. destruct (N.eqb_spec x 0) as [->|_]; [lia|].
    assert (Hq : x / 256 = 0) by (apply N.div_small; lia).
    rewrite Hq. simpl. destruct fuel; reflexivity.
  - destruct fuel as [|fuel]; [lia|].
    rewrite !Nat2N.inj_succ, !N.pow_succ_r' in Hx.
    cbn [Bytes_go]. destruct (N.eqb_spec x 0) as [->|_]; [nia|].
    rewrite IH.
    + cbn [encode]. now rewrite <- !app_assoc.
    + rewrite Nat2N.inj_succ, N.pow_succ_r'. split.
      * apply N.div_le_lower_bound; lia.
      * apply N.Div0.div_lt_upper_bound. lia.
    + lia.
Qed.

Lemma size_ge_bytes (n : nat) (x : N) :
  256 ^ N.of_nat n <= x -> (S n <= N.to_nat (N.size x))%nat.
Proof.
  intros Hx.
  assert (Hpos : 0 < x) by (pose proof (N.pow_nonzero 256 (N.of_nat n)); lia).
  rewrite N.size_log2 by lia.
  assert (N.of_nat n <= N.log2 x).
  { apply N.log2_le_pow2; [lia|].
    eapply N.le_trans; [|exact Hx].
    apply N.pow_le_mono_l. lia. }
  lia.
Qed.

(** [Bytes] keeps the width of an address exactly when its leading byte
    is non-zero. *)
Lemma Bytes_encode (n : nat) (x : N) :
  256 ^ N.of_nat n <= x < 256 ^ N.of_nat (S n) ->
  Bytes x = encode (S n) x.
Proof.
  intros Hx. unfold Bytes.
  rewrite (Bytes_go_encode n) by (try apply size_ge_bytes; lia).
  apply app_nil_r.
Qed.


(** *** Facts about masks *)

Lemma length_cidrBytes (l : nat) (n : N) : length (cidrBytes l n) = l.
Proof.
  revert n. induction l as [|l IH]; intros n; simpl; [reflexivity|].
  destruct (8 <=? n); simpl; now rewrite IH.
Qed.

Lemma length_andBytes (a b : list byte) :
  length (andBytes a b) = Nat.min (length a) (length b).
Proof. unfold andBytes. now rewrite length_map, length_combine. Qed.

Definition sizeOfCIDRMask_ok (bits : N) (k : nat) : bool :=
  let '(ones, b) := Size (CIDRMask (N.of_nat k) bits) in
  (ones =? N.of_nat k) && (b =? bits).

Lemma Size_CIDRMask_table :
  forallb (sizeOfCIDRMask_ok 32) (seq 0 33) = true
  /\ forallb (sizeOfCIDRMask_ok 128) (seq 0 129) = true.
Proof. split; vm_compute; reflexivity. Qed.

(** A mask built by [CIDRMask] has the size it was built with. *)
Lemma Size_CIDRMask (ones bits : N) :
  bits = 32 \/ bits = 128 -> ones <= bits ->
  Size (CIDRMask ones bits) = (ones, bits).
Proof.
  intros Hbits Hle. destruct Size_CIDRMask_table as [H32 H128].
  rewrite forallb_forall in H32, H128.
  assert (Hk : sizeOfCIDRMask_ok bits (N.to_nat ones) = true).
  { destruct Hbits; subst bits; [apply H32 | apply H128];
      apply in_seq; lia. }
  unfold sizeOfCIDRMask_ok in Hk. rewrite N2Nat.id in Hk.
  destruct (Size (CIDRMask ones bits)) as [o b].
  apply andb_true_iff in Hk as [Ho Hb].
  apply N.eqb_eq in Ho, Hb. now subst.
Qed.

Lemma length_CIDRMask_32 (n : N) : n <= 32 -> length (CIDRMask n 32) = 4%nat.
Proof.
  intros Hn. unfold CIDRMask. cbn [N.eqb Pos.eqb orb negb].
  destruct (N.ltb_spec 32 n); [lia|]. apply length_cidrBytes.
Qed.

Lemma maskIP_To16_v4 (a b c d : byte) (m : IPMask) :
  length m = 4%nat -> maskIP (To16 [a; b; c; d]) m = andBytes [a; b; c; d] m.
Proof.
  intros Hm. destruct m as [|m1 [|m2 [|m3 [|m4 [|? ?]]]]]; try discriminate.
  reflexivity.
Qed.

Lemma To4_To16_v4 (a b c d : byte) :
  To4 (To16 [a; b; c; d]) = [a; b; c; d].
Proof. reflexivity. Qed.

End GoNet.

(** ** Uplink address allocation *)

Module Uplink.
Import GoNet.

(** [iprange.Range]. *)
Record Range := mkRange { Start : IP; End : IP }.

(** "Convert IPs in range to native representations":
    [x := ip.To4(); if x == nil { x = ip.To16() }]. *)
Definition native (ip : IP) : IP :=
  match To4 ip with
  | [] => To16 ip
  | v => v
  end.

(** [slices.ContainsFunc(allAllocated, ip.Equal)]. *)
Definition isAllocated (allAllocated : list IP) (ip : IP) : bool :=
  existsb (Equal ip) allAllocated.

(** The inner [for] loop.  Each iteration either returns or increments
    [startBig]; [fuel] bounds the iterations and [scanRange] supplies
    the size of the range, which the loop cannot exceed. *)
Fixpoint scan (fuel : nat) (allAllocated : list IP) (startBig endBig : N)
  : option IP :=
  match fuel with
  | O => None
  | S fuel' =>
      if endBig <? startBig then None
      else
        let ip := Bytes startBig in
        if isAllocated allAllocated ip
        then scan fuel' allAllocated (startBig + 1) endBig
        else Some ip
  end.

Definition scanRange (allAllocated : list IP) (ipRange : Range) : option IP :=
  let startBig := SetBytes (native (Start ipRange)) in
  let endBig := SetBytes (native (End ipRange)) in
  scan (N.to_nat (endBig + 1 - startBig)) allAllocated startBig endBig.

Definition errNoFreeIPs : string := "No free IPs available".

Fixpoint uplinkAllocateIP (ipRanges : list Range) (allAllocated : list IP)
  : result IP :=
  match ipRanges with
  | [] => Err errNoFreeIPs
  | ipRange :: rest =>
      match scanRange allAllocated ipRange with
      | Some ip => Ok ip
      | None => uplinkAllocateIP rest allAllocated
      end
  end.

(** *** The specification's reading of the search

    The addresses of a range are the addresses of the range's width
    whose values run from the start to the end; the search returns the
    first of them, in declaration order, that is not in the exclusion
    set. *)
Definition rangeAddrs (r : Range) : list IP :=
  let s := native (Start r) in
  let e := native (End r) in
  map (fun k => encode (length s) (SetBytes s + N.of_nat k))
      (seq 0 (N.to_nat (SetBytes e + 1 - SetBytes s))).

Definition first_free_spec (ipRanges : list Range) (allAllocated : list IP)
  : option IP :=
  List.find (fun ip => negb (isAllocated allAllocated ip))
            (flat_map rangeAddrs ipRanges).


(** A range is well formed when both ends have the same width and the
    start address does not begin with a zero byte. *)
Definition leadingNonZero (ip : IP) : bool :=
  match ip with
  | b :: _ => negb (Byte.to_N b =? 0)
  | [] => false
  end.

Definition wellFormed (r : Range) : bool :=
  Nat.eqb (length (native (Start r))) (length (native (End r)))
  && leadingNonZero (native (Start r)).

Definition free (allAllocated : list IP) (ip : IP) : bool :=
  negb (isAllocated allAllocated ip).

(** *** The loop is a linear search *)

Lemma find_app_first {A} (P : A -> bool) (l1 l2 : list A) :
  List.find P (l1 ++ l2)
  = match List.find P l1 with
    | Some x => Some x
    | None => List.find P l2
    end.
Proof.
  induction l1 as [|a l1 IH]; simpl; [reflexivity|].
  destruct (P a); [reflexivity | exact IH].
Qed.

(** The fuel [scanRange] supplies is never what ends the loop: more
    fuel gives the same outcome. *)
Lemma scan_fuel_suffices (allAllocated : list IP) (endBig : N) :
  forall (fuel : nat) (startBig : N),
    (N.to_nat (endBig + 1 - startBig) <= fuel)%nat ->
    scan fuel allAllocated startBig endBig
    = scan (N.to_nat (endBig + 1 - startBig)) allAllocated startBig endBig.
Proof.
  induction fuel as [|fuel IH]; intros startBig Hfuel.
  - replace (N.to_nat (endBig + 1 - startBig)) with 0%nat by lia. reflexivity.
  - destruct (N.ltb_spec endBig startBig) as [Hlt|Hle].
    + replace (N.to_nat (endBig + 1 - startBig)) with 0%nat by lia.
      cbn [scan]. destruct (N.ltb_spec endBig startBig); [reflexivity | lia].
    + replace (N.to_nat (endBig + 1 - startBig))
        with (S (N.to_nat (endBig + 1 - (startBig + 1)))) by lia.
      cbn [scan]. destruct (N.ltb_spec endBig startBig); [lia|].
      destruct (isAllocated allAllocated (Bytes startBig)); [|reflexivity].
      apply IH. lia.
Qed.

Lemma scan_is_find (allAllocated : list IP) (endBig : N) :
  forall (fuel : nat) (startBig : N),
    fuel = N.to_nat (endBig + 1 - startBig) ->
    scan fuel allAllocated startBig endBig
    = List.find (free allAllocated)
        (map (fun k => Bytes (startBig + N.of_nat k)) (seq 0 fuel)).
Proof.
  induction fuel as [|fuel IH]; intros startBig Hfuel; [reflexivity|].
  cbn [scan seq map List.find].
  destruct (N.ltb_spec endBig startBig) as [Hlt|Hle]; [lia|].
  rewrite N.add_0_r. unfold free at 1.
  destruct (isAllocated allAllocated (Bytes startBig)); [|reflexivity].
  cbn [negb]. rewrite IH by lia.
  rewrite <- seq_shift, map_map. f_equal.
  apply map_ext. intros k. f_equal. lia.
Qed.

Lemma wellFormed_bounds (r : Range) :
  wellFormed r = true ->
  exists n : nat,
    length (native (Start r)) = S n /\
    256 ^ N.of_nat n <= SetBytes (native (Start r)) /\
    SetBytes (native (End r)) < 256 ^ N.of_nat (S n).
Proof.
  unfold wellFormed. intros H. apply andb_true_iff in H as [Hlen Hnz].
  apply Nat.eqb_eq in Hlen.
  destruct (native (Start r)) as [|b l] eqn:Es; [discriminate|].
  exists (length l). split; [reflexivity|]. split.
  - apply SetBytes_lower. simpl in Hnz.
    destruct (N.eqb_spec (Byte.to_N b) 0); [discriminate | assumption].
  - pose proof (SetBytes_lt (native (End r))) as Hlt.
    rewrite <- Hlen in Hlt. exact Hlt.
Qed.

Lemma scanRange_is_find (allAllocated : list IP) (r : Range) :
  wellFormed r = true ->
  scanRange allAllocated r = List.find (free allAllocated) (rangeAddrs r).
Proof.
  intros Hwf. destruct (wellFormed_bounds r Hwf) as (n & Hlen & Hlo & Hhi).
  unfold scanRange, rangeAddrs. rewrite scan_is_find by reflexivity.
  f_equal. apply map_ext_in. intros k Hk. apply in_seq in Hk.
  rewrite Hlen. apply Bytes_encode. lia.
Qed.

Lemma uplinkAllocateIP_is_find (ipRanges : list Range) (allAllocated : list IP) :
  Forall (fun r => wellFormed r = true) ipRanges ->
  uplinkAllocateIP ipRanges allAllocated
  = match first_free_spec ipRanges allAllocated with
    | Some ip => Ok ip
    | None => Err errNoFreeIPs
    end.
Proof.
  unfold first_free_spec. fold (free allAllocated).
  induction 1 as [|r rs Hr _ IH]; [reflexivity|].
  cbn [uplinkAllocateIP flat_map]. rewrite find_app_first.
  rewrite scanRange_is_find by assumption.
  destruct (List.find (free allAllocated) (rangeAddrs r)); [reflexivity|].
  exact IH.
Qed.

(** For well-formed ranges the allocator returns the first free address
    of the ranges in declaration order, and fails with "No free IPs
    available" exactly when every address of every range is allocated. *)
Theorem uplinkAllocateIP_first_free (ipRanges : list Range) (allAllocated : list IP) :
  Forall (fun r => wellFormed r = true) ipRanges ->
  uplinkAllocateIP ipRanges allAllocated
  = match first_free_spec ipRanges allAllocated with
    | Some ip => Ok ip
    | None => Err errNoFreeIPs
    end
  /\ (uplinkAllocateIP ipRanges allAllocated = Err errNoFreeIPs
      <-> Forall (fun ip => isAllocated allAllocated ip = true)
            (flat_map rangeAddrs ipRanges)).
Proof.
  intros Hwf. pose proof (uplinkAllocateIP_is_find _ allAllocated Hwf) as Heq.
  split; [exact Heq|]. rewrite Heq. unfold first_free_spec.
  destruct (List.find _ _) as [ip|] eqn:Efind; split.
  - discriminate.
  - intros Hall. apply find_some in Efind as [Hin Hfree].
    rewrite List.Forall_forall in Hall. rewrite (Hall _ Hin) in Hfree.
    discriminate.
  - intros _. apply List.Forall_forall. intros ip Hin.
    pose proof (find_none _ _ Efind ip Hin) as Hn.
    now apply negb_false_iff in Hn.
  - reflexivity.
Qed.

End Uplink.

Module UplinkExamples.
Import GoNet Uplink.

Definition r1 : Range := mkRange (ipv4_16 10 0 0 2) (ipv4_16 10 0 0 4).
Definition r2 : Range := mkRange (ipv4_16 10 0 1 7) (ipv4_16 10 0 1 7).

Example alloc_first :
  uplinkAllocateIP [r1; r2] [] = Ok (ipv4 10 0 0 2).
Proof. vm_compute. reflexivity. Qed.

Example alloc_skips_taken :
  uplinkAllocateIP [r1; r2] [ipv4_16 10 0 0 2; ipv4_16 10 0 0 3]
  = Ok (ipv4 10 0 0 4).
Proof. vm_compute. reflexivity. Qed.

Example alloc_next_range :
  uplinkAllocateIP [r1; r2]
    [ipv4_16 10 0 0 2; ipv4_16 10 0 0 3; ipv4_16 10 0 0 4]
  = Ok (ipv4 10 0 1 7).
Proof. vm_compute. reflexivity. Qed.

Example alloc_exhausted :
  uplinkAllocateIP [r1; r2]
    [ipv4_16 10 0 0 2; ipv4_16 10 0 0 3; ipv4_16 10 0 0 4; ipv4_16 10 0 1 7]
  = Err errNoFreeIPs.
Proof. vm_compute. reflexivity. Qed.


(** A well-formed input for [uplinkAllocateIP_first_free]. *)
Lemma uplinkAllocateIP_first_free_witness :
  uplinkAllocateIP [r1; r2] [ipv4_16 10 0 0 2]
  = match first_free_spec [r1; r2] [ipv4_16 10 0 0 2] with
    | Some ip => Ok ip
    | None => Err errNoFreeIPs
    end
  /\ (uplinkAllocateIP [r1; r2] [ipv4_16 10 0 0 2] = Err errNoFreeIPs
      <-> Forall (fun ip => isAllocated [ipv4_16 10 0 0 2] ip = true)
            (flat_map rangeAddrs [r1; r2])).
Proof.
  apply (uplinkAllocateIP_first_free [r1; r2] [ipv4_16 10 0 0 2]).
  repeat constructor.
Defined.

(** An IPv4 range whose addresses begin with a zero byte, and the
    exclusion set holding its only address as [net.ParseIP] returns it. *)
Definition zeroLed : Range := mkRange (ipv4_16 0 0 0 5) (ipv4_16 0 0 0 5).

(** C1 (failing input).  The only address of [zeroLed], 0.0.0.5, is in the
    exclusion set, so every address of every range is allocated; yet the
    allocator does not fail: [big.Int.Bytes] drops the leading zero bytes,
    the one-byte slice it yields equals no allocated address, and that
    slice is returned as the free IP. *)
Theorem uplinkAllocateIP_leading_zero_range :
  rangeAddrs zeroLed = [ipv4 0 0 0 5]
  /\ isAllocated [ipv4_16 0 0 0 5] (ipv4 0 0 0 5) = true
  /\ first_free_spec [zeroLed] [ipv4_16 0 0 0 5] = None
  /\ uplinkAllocateIP [zeroLed] [ipv4_16 0 0 0 5] = Ok [x05].
Proof. vm_compute. repeat split. Qed.

End UplinkExamples.

(** ** Bridge MTU *)

Module MTU.
Import GoNet.

(** A host network interface: its name, and its addresses in CIDR text
    form (or the error of [iface.Addrs()]). *)
Record Interface := mkInterface {
  ifName : string;
  ifAddrs : result (list string)
}.

Section Underlay.

(** The host and OVS, as the function reads them. *)
Variable parseCIDRText : string -> option (list byte * N).
Variable OVS : result unit.
Variable GetOVNEncapIP : result IP.
Variable Interfaces : result (list Interface).
Variable GetDevMTU : string -> result N.

(** The loop over one interface's addresses: [Some r] when an address
    equal to [findIP] was found ([r] is the MTU lookup's outcome). *)
Fixpoint findInAddrs (name : string) (findIP : IP) (addrs : list string)
  : option (result N) :=
  match addrs with
  | [] => None
  | addr :: rest =>
      match ParseCIDR parseCIDRText addr with
      | None => findInAddrs name findIP rest
      | Some (ip, _) =>
          if Equal ip findIP
          then Some (wrap ("Failed getting MTU for " ++ name) (GetDevMTU name))
          else findInAddrs name findIP rest
      end
  end.

Fixpoint findInIfaces (findIP : IP) (ifaces : list Interface) : result N :=
  match ifaces with
  | [] => Err "No matching interface found for OVN enscapsulation IP"
  | iface :: rest =>
      match ifAddrs iface with
      | Err _ => findInIfaces findIP rest
      | Ok addrs =>
          match findInAddrs (ifName iface) findIP addrs with
          | Some r => r
          | None => findInIfaces findIP rest
          end
      end
  end.

Definition findMTUFromIP (findIP : IP) : result N :=
  let* ifaces := wrap "Failed getting local network interfaces" Interfaces in
  findInIfaces findIP ifaces.

Definition getUnderlayInfo : result (N * IP) :=
  check wrap "Failed to connect to OVS" OVS in
  let* encapIP :=
    wrap "Failed getting OVN enscapsulation IP from OVS" GetOVNEncapIP in
  let* underlayMTU := findMTUFromIP encapIP in
  Ok (underlayMTU, encapIP).

Definition getOptimalBridgeMTU : result N :=
  match getUnderlayInfo with
  | Err e => Err ("Failed getting OVN underlay info: " ++ e)
  | Ok (underlayMTU, encapIP) =>
      match To4 encapIP with
      | [] => if 1578 <=? underlayMTU then Ok 1500 else Ok 1422
      | _ => if 1558 <=? underlayMTU then Ok 1500 else Ok 1442
      end
  end.

(** The geneve overhead by encapsulation family. *)
Definition geneveOverhead (encapIP : IP) : N :=
  match To4 encapIP with
  | [] => 78
  | _ => 58
  end.

(** C7.  When the underlay is known, the bridge MTU is one of four values
    fixed by the encapsulation family and the underlay MTU: 1500 or 1422
    with IPv6 encapsulation (threshold 1578 = 1500 + 78), 1500 or 1442
    with IPv4 encapsulation (threshold 1558 = 1500 + 58). *)
Theorem getOptimalBridgeMTU_four_values (underlayMTU : N) (encapIP : IP) :
  getUnderlayInfo = Ok (underlayMTU, encapIP) ->
  exists mtu,
    getOptimalBridgeMTU = Ok mtu
    /\ (To4 encapIP = [] -> 1578 <= underlayMTU -> mtu = 1500)
    /\ (To4 encapIP = [] -> underlayMTU < 1578 -> mtu = 1422)
    /\ (To4 encapIP <> [] -> 1558 <= underlayMTU -> mtu = 1500)
    /\ (To4 encapIP <> [] -> underlayMTU < 1558 -> mtu = 1442)
    /\ (mtu = 1500 <-> 1500 + geneveOverhead encapIP <= underlayMTU).
Proof.
  intros Hinfo. unfold getOptimalBridgeMTU, geneveOverhead. rewrite Hinfo.
  destruct (To4 encapIP) as [|b l] eqn:E4.
  - destruct (N.leb_spec 1578 underlayMTU);
      eexists; (split; [reflexivity|]); repeat split; intros; try lia;
      congruence.
  - destruct (N.leb_spec 1558 underlayMTU);
      eexists; (split; [reflexivity|]); repeat split; intros; try lia;
      congruence.
Qed.

End Underlay.

(** A host with a loopback interface and an uplink with MTU 9000 that
    carries the IPv4 encapsulation address 192.0.2.10. *)
Definition demoParse (s : string) : option (list byte * N) :=
  if String.eqb s "127.0.0.1/8" then Some (ipv4 127 0 0 1, 8)
  else if String.eqb s "192.0.2.10/24" then Some (ipv4 192 0 2 10, 24)
  else if String.eqb s "2001:db8::10/64"
       then Some (encode 16 (0x20010db8 * 2 ^ 96 + 16), 64)
       else None.

Definition demoIfaces : list Interface :=
  [ mkInterface "lo" (Ok ["127.0.0.1/8"]);
    mkInterface "broken0" (Err "no addresses");
    mkInterface "eth0" (Ok ["not-an-address"; "192.0.2.10/24"]) ].

Definition demoDevMTU (name : string) : result N :=
  if String.eqb name "eth0" then Ok 9000 else Ok 65536.

Example getUnderlayInfo_demo :
  getUnderlayInfo demoParse (Ok tt) (Ok (ipv4 192 0 2 10)) (Ok demoIfaces)
    demoDevMTU
  = Ok (9000, ipv4 192 0 2 10).
Proof. vm_compute. reflexivity. Qed.

Example getOptimalBridgeMTU_demo_small :
  getOptimalBridgeMTU demoParse (Ok tt) (Ok (ipv4 127 0 0 1)) (Ok demoIfaces)
    (fun _ => Ok 1500)
  = Ok 1442.
Proof. vm_compute. reflexivity. Qed.

(** The demo host, encapsulating over IPv4 on a 9000-byte underlay. *)
Lemma getOptimalBridgeMTU_four_values_witness :
  exists mtu,
    getOptimalBridgeMTU demoParse (Ok tt) (Ok (ipv4 192 0 2 10))
      (Ok demoIfaces) demoDevMTU = Ok mtu
    /\ (To4 (ipv4 192 0 2 10) = [] -> 1578 <= 9000 -> mtu = 1500)
    /\ (To4 (ipv4 192 0 2 10) = [] -> 9000 < 1578 -> mtu = 1422)
    /\ (To4 (ipv4 192 0 2 10) <> [] -> 1558 <= 9000 -> mtu = 1500)
    /\ (To4 (ipv4 192 0 2 10) <> [] -> 9000 < 1558 -> mtu = 1442)
    /\ (mtu = 1500 <-> 1500 + geneveOverhead (ipv4 192 0 2 10) <= 9000).
Proof.
  apply (getOptimalBridgeMTU_four_values demoParse (Ok tt)
           (Ok (ipv4 192 0 2 10)) (Ok demoIfaces) demoDevMTU).
  vm_compute. reflexivity.
Defined.

End MTU.

(** ** DHCP address arithmetic *)

Module Dhcpalloc.
Import GoNet.

(** Modelled from the spec: [dhcpalloc.GetIP(subnet, host)] is not among
    the sources.  The specification speaks of "the address at offset -2
    in the IPv4 subnet", reserved for load-balancer health checks: a
    negative host number counts back from the end of the subnet (host
    [-1] is its last address), a non-negative one counts up from the
    network address.  The result has the width of the subnet's address. *)
Definition GetIP (subnet : IPNet) (host : Z) : IP :=
  let base := match To4 (netIP subnet) with [] => netIP subnet | v4 => v4 end in
  let '(ones, bits) := Size (Mask subnet) in
  let count :=
    if (host <? 0)%Z then (Z.of_N (2 ^ (bits - ones)) + host)%Z else host in
  let width := (256 ^ Z.of_nat (length base))%Z in
  encode (length base)
    (Z.to_N ((Z.of_N (SetBytes base) + count) mod width)).

Lemma length_GetIP (subnet : IPNet) (host : Z) :
  length (GetIP subnet host)
  = length (match To4 (netIP subnet) with [] => netIP subnet | v4 => v4 end).
Proof.
  unfold GetIP. destruct (Size (Mask subnet)). apply length_encode.
Qed.

End Dhcpalloc.

(** ** Validation of a network configuration *)

Module Validation.
Import GoNet Dhcpalloc.

Section Validate.

(** The lexical part of [net.ParseCIDR], and the textual form of an
    IPv6 address. *)
Variable parseCIDRText : string -> option (list byte * N).
Variable String6 : list byte -> string.

(** The per-key rules ([n.validate(config, rules)]), the DNS zone check
    and the checks that follow the IPv6 subnet size check (project,
    uplink, external subnets, forwards), which read the database. *)
Variable validateRules : gmap string string -> result unit.
Variable validateZoneNames : gmap string string -> result unit.
Variable validateUplink : gmap string string -> result unit.

Definition AddrString (a : Addr) : string :=
  match a with
  | Addr4 b => dotted b
  | Addr6 b => String6 b
  end.

Definition errReserved (ovnRouter : Addr) : string :=
  "'ipv4.address' cannot be set to " ++ AddrString ovnRouter
  ++ " because it is reserved for OVN load-balancer health checks".

Definition errIPv6SubnetSize : string :=
  "IPv6 subnet must be at least a /64".

(** [if config["ipv4.address"] != "" { ... }]. *)
Definition checkIPv4Reserved (config : gmap string string) : result unit :=
  if String.eqb (cfg config "ipv4.address") "" then Ok tt
  else
    match ParseCIDR parseCIDRText (cfg config "ipv4.address") with
    | None => Ok tt
    | Some (ipv4Addr, ipv4Net) =>
        let* ovnRouter := addrOfIP (GetIP ipv4Net (-2)) in
        let* addr := addrOfIP ipv4Addr in
        if Addr_eqb ovnRouter addr then Err (errReserved ovnRouter)
        else Ok tt
    end.

(** "Check that if IPv6 enabled then the network size must be at least
    a /64". *)
Definition checkIPv6SubnetSize (config : gmap string string) : result unit :=
  match ParseCIDR parseCIDRText (cfg config "ipv6.address") with
  | None => Ok tt
  | Some (_, ipv6Net) =>
      let '(ones, _) := Size (Mask ipv6Net) in
      if 64 <? ones then Err errIPv6SubnetSize else Ok tt
  end.

Definition Validate (config : gmap string string) : result unit :=
  check validateRules config in
  check validateZoneNames config in
  check checkIPv4Reserved config in
  check checkIPv6SubnetSize config in
  validateUplink config.

(** [Validate] without the IPv6 subnet size check, and without the
    reserved-address check: what is left when one of them passes. *)
Definition ValidateSansIPv6Size (config : gmap string string) : result unit :=
  check validateRules config in
  check validateZoneNames config in
  check checkIPv4Reserved config in
  validateUplink config.

Definition ValidateSansIPv4Reserved (config : gmap string string)
  : result unit :=
  check validateRules config in
  check validateZoneNames config in
  check checkIPv6SubnetSize config in
  validateUplink config.

Lemma checkIPv6SubnetSize_prefix (config : gmap string string)
    (addr : list byte) (n : N) :
  parseCIDRText (cfg config "ipv6.address") = Some (addr, n) ->
  length addr = 4%nat \/ length addr = 16%nat ->
  n <= 8 * N.of_nat (length addr) ->
  checkIPv6SubnetSize config
  = if 64 <? n then Err errIPv6SubnetSize else Ok tt.
Proof.
  intros Hparse Hlen Hn. unfold checkIPv6SubnetSize, ParseCIDR.
  rewrite Hparse. cbn [Mask]. rewrite Size_CIDRMask; [reflexivity| |exact Hn].
  destruct Hlen as [-> | ->]; [left | right]; reflexivity.
Qed.

(** C5.  A configuration whose [ipv6.address] parses to a subnet with a
    prefix longer than 64 is rejected, with "IPv6 subnet must be at least
    a /64" when the earlier checks pass; with a prefix of 64 or less the
    check passes and [Validate] goes on as if it were not there. *)
Theorem Validate_ipv6_subnet_size (config : gmap string string)
    (addr : list byte) (n : N) :
  parseCIDRText (cfg config "ipv6.address") = Some (addr, n) ->
  length addr = 4%nat \/ length addr = 16%nat ->
  n <= 8 * N.of_nat (length addr) ->
  (64 < n ->
     checkIPv6SubnetSize config = Err errIPv6SubnetSize
     /\ isErr (Validate config) = true
     /\ (validateRules config = Ok tt ->
         validateZoneNames config = Ok tt ->
         checkIPv4Reserved config = Ok tt ->
         Validate config = Err errIPv6SubnetSize))
  /\ (n <= 64 ->
        checkIPv6SubnetSize config = Ok tt
        /\ Validate config = ValidateSansIPv6Size config).
Proof.
  intros Hparse Hlen Hn.
  pose proof (checkIPv6SubnetSize_prefix config addr n Hparse Hlen Hn) as Hc.
  unfold Validate, ValidateSansIPv6Size. rewrite Hc.
  destruct (N.ltb_spec 64 n) as [Hgt|Hle]; split; intros H; try lia.
  - split; [reflexivity|]. split.
    + destruct (validateRules config) as [[]|]; [|reflexivity].
      destruct (validateZoneNames config) as [[]|]; [|reflexivity].
      destruct (checkIPv4Reserved config) as [[]|]; reflexivity.
    + intros -> -> ->. reflexivity.
  - split; [reflexivity|].
    destruct (validateRules config) as [[]|]; [|reflexivity].
    destruct (validateZoneNames config) as [[]|]; [|reflexivity].
    destruct (checkIPv4Reserved config) as [[]|]; reflexivity.
Qed.

(** The subnet [net.ParseCIDR] builds for an IPv4 address and a prefix. *)
Definition ipv4NetOf (addr : list byte) (n : N) : IPNet :=
  mkIPNet (maskIP (To16 addr) (CIDRMask n 32)) (CIDRMask n 32).

Lemma checkIPv4Reserved_compare (config : gmap string string)
    (addr : list byte) (n : N) :
  cfg config "ipv4.address" <> "" ->
  parseCIDRText (cfg config "ipv4.address") = Some (addr, n) ->
  length addr = 4%nat ->
  n <= 32 ->
  checkIPv4Reserved config
  = if bytes_eqb (GetIP (ipv4NetOf addr n) (-2)) addr
    then Err (errReserved (Addr4 (GetIP (ipv4NetOf addr n) (-2))))
    else Ok tt.
Proof.
  intros Hset Hparse Hlen Hn. unfold checkIPv4Reserved, ParseCIDR.
  destruct (String.eqb_spec (cfg config "ipv4.address") "") as [E|_];
    [contradiction|].
  rewrite Hparse, Hlen. change (8 * N.of_nat 4) with 32.
  fold (ipv4NetOf addr n).
  destruct addr as [|a [|b [|c [|d [|? ?]]]]]; try discriminate.
  assert (Hl : length (GetIP (ipv4NetOf [a; b; c; d] n) (-2)) = 4%nat).
  { rewrite length_GetIP. unfold ipv4NetOf. cbn [netIP].
    pose proof (length_CIDRMask_32 n Hn) as Hm.
    rewrite (maskIP_To16_v4 a b c d _ Hm).
    assert (Ha : length (andBytes [a; b; c; d] (CIDRMask n 32)) = 4%nat)
      by (rewrite length_andBytes, Hm; reflexivity).
    destruct (andBytes _ _) as [|w [|x [|y [|z [|? ?]]]]]; try discriminate.
    reflexivity. }
  destruct (GetIP (ipv4NetOf [a; b; c; d] n) (-2))
    as [|w [|x [|y [|z [|? ?]]]]] eqn:EG; try discriminate.
  reflexivity.
Qed.

(** C6.  With [ipv4.address] an IPv4 CIDR, [Validate] rejects the
    configuration when the address is the one at offset -2 from the end
    of its own subnet, with the reserved-address error when the earlier
    checks pass; for any other address the check passes and [Validate]
    goes on as if it were not there. *)
Theorem Validate_ipv4_reserved_address (config : gmap string string)
    (addr : list byte) (n : N) :
  cfg config "ipv4.address" <> "" ->
  parseCIDRText (cfg config "ipv4.address") = Some (addr, n) ->
  length addr = 4%nat ->
  n <= 32 ->
  (addr = GetIP (ipv4NetOf addr n) (-2) ->
     checkIPv4Reserved config = Err (errReserved (Addr4 addr))
     /\ isErr (Validate config) = true
     /\ (validateRules config = Ok tt ->
         validateZoneNames config = Ok tt ->
         Validate config = Err (errReserved (Addr4 addr))))
  /\ (addr <> GetIP (ipv4NetOf addr n) (-2) ->
        checkIPv4Reserved config = Ok tt
        /\ Validate config = ValidateSansIPv4Reserved config).
Proof.
  intros Hset Hparse Hlen Hn.
  pose proof (checkIPv4Reserved_compare config addr n Hset Hparse Hlen Hn)
    as Hc.
  unfold Validate, ValidateSansIPv4Reserved. rewrite Hc. split.
  - intros Heq. rewrite <- Heq, bytes_eqb_refl. split; [reflexivity|]. split.
    + destruct (validateRules config) as [[]|]; [|reflexivity].
      destruct (validateZoneNames config) as [[]|]; reflexivity.
    + intros -> ->. reflexivity.
  - intros Hne.
    destruct (bytes_eqb (GetIP (ipv4NetOf addr n) (-2)) addr) eqn:E.
    + apply bytes_eqb_true in E. congruence.
    + split; [reflexivity|].
      destruct (validateRules config) as [[]|]; [|reflexivity].
      destruct (validateZoneNames config) as [[]|]; reflexivity.
Qed.

End Validate.

(** Examples: 10.0.0.1/24 passes and 10.0.0.254/24 is rejected; for
    IPv6 a /80 is rejected, a /64 and a /48 are accepted. *)
Definition fd42 : list byte := encode 16 (0xfd42 * 2 ^ 112 + 1).

Definition demoParse (s : string) : option (list byte * N) :=
  if String.eqb s "10.0.0.1/24" then Some (ipv4 10 0 0 1, 24)
  else if String.eqb s "10.0.0.254/24" then Some (ipv4 10 0 0 254, 24)
  else if String.eqb s "fd42::1/80" then Some (fd42, 80)
  else if String.eqb s "fd42::1/64" then Some (fd42, 64)
  else if String.eqb s "fd42::1/48" then Some (fd42, 48)
  else None.

Definition demoString6 (b : list byte) : string := "fd42::1".
Definition pass (config : gmap string string) : result unit := Ok tt.

Definition demoValidate : gmap string string -> result unit :=
  Validate demoParse demoString6 pass pass pass.

Definition config_of (v4 v6 : string) : gmap string string :=
  <["ipv4.address" := v4]> (<["ipv6.address" := v6]> ∅).

Example GetIP_minus_two :
  GetIP (ipv4NetOf (ipv4 10 0 0 1) 24) (-2) = ipv4 10 0 0 254.
Proof. vm_compute. reflexivity. Qed.

Example Validate_accepts_gateway :
  demoValidate (config_of "10.0.0.1/24" "fd42::1/64") = Ok tt.
Proof. vm_compute. reflexivity. Qed.

Example Validate_rejects_reserved :
  demoValidate (config_of "10.0.0.254/24" "fd42::1/64")
  = Err "'ipv4.address' cannot be set to 10.0.0.254 because it is reserved for OVN load-balancer health checks".
Proof. vm_compute. reflexivity. Qed.

Example Validate_rejects_slash80 :
  demoValidate (config_of "10.0.0.1/24" "fd42::1/80")
  = Err "IPv6 subnet must be at least a /64".
Proof. vm_compute. reflexivity. Qed.

Example Validate_accepts_slash48 :
  demoValidate (config_of "10.0.0.1/24" "fd42::1/48") = Ok tt.
Proof. vm_compute. reflexivity. Qed.

(** A /80 is rejected with the subnet-size error, a /48 passes the check. *)
Lemma Validate_ipv6_subnet_size_witness :
  demoValidate (config_of "10.0.0.1/24" "fd42::1/80") = Err errIPv6SubnetSize
  /\ checkIPv6SubnetSize demoParse (config_of "" "fd42::1/48") = Ok tt.
Proof.
  split.
  - destruct (Validate_ipv6_subnet_size demoParse demoString6 pass pass pass
                (config_of "10.0.0.1/24" "fd42::1/80") fd42 80) as [Hgt _].
    + vm_compute. reflexivity.
    + right. vm_compute. reflexivity.
    + vm_compute. discriminate.
    + apply Hgt; [lia | reflexivity | reflexivity | vm_compute; reflexivity].
  - destruct (Validate_ipv6_subnet_size demoParse demoString6 pass pass pass
                (config_of "" "fd42::1/48") fd42 48) as [_ Hle].
    + vm_compute. reflexivity.
    + right. vm_compute. reflexivity.
    + vm_compute. discriminate.
    + apply Hle. lia.
Defined.

(** 10.0.0.254/24 is the reserved address of its subnet, 10.0.0.1/24 is not. *)
Lemma Validate_ipv4_reserved_address_witness :
  demoValidate (config_of "10.0.0.254/24" "")
  = Err (errReserved demoString6 (Addr4 (ipv4 10 0 0 254)))
  /\ checkIPv4Reserved demoParse demoString6 (config_of "10.0.0.1/24" "")
     = Ok tt.
Proof.
  split.
  - destruct (Validate_ipv4_reserved_address demoParse demoString6 pass pass
                pass (config_of "10.0.0.254/24" "") (ipv4 10 0 0 254) 24)
      as [Heq _].
    + vm_compute. discriminate.
    + vm_compute. reflexivity.
    + reflexivity.
    + lia.
    + apply Heq; [vm_compute; reflexivity | reflexivity | reflexivity].
  - destruct (Validate_ipv4_reserved_address demoParse demoString6 pass pass
                pass (config_of "10.0.0.1/24" "") (ipv4 10 0 0 1) 24)
      as [_ Hne].
    + vm_compute. discriminate.
    + vm_compute. reflexivity.
    + reflexivity.
    + lia.
    + apply Hne. vm_compute. discriminate.
Defined.

End Validation.

(** ** The network object *)

Module Net.

(** The fields of [ovn] (through [common]) that the modelled methods
    read. *)
Record Network := mkNetwork {
  id : Z;
  name : string;
  project : string;
  description : string;
  config : gmap string string
}.

(** [strconv.Itoa] / the [%d] verb on an [int64]. *)
Definition itoaZ (z : Z) : string := NilZero.string_of_int (Z.to_int z).

(** [acl.OVNNetworkPrefix(n.id)], as the load-balancer names spell it. *)
Definition getNetworkPrefix (n : Network) : string :=
  "incus-net" ++ itoaZ (id n).

Definition getRouterName (n : Network) : string :=
  getNetworkPrefix n ++ "-lr".

Definition getLoadBalancerName (n : Network) (listenAddress : string) : string :=
  getNetworkPrefix n ++ "-lb-" ++ listenAddress.

(** An isolated network has no uplink. *)
Definition isolated (n : Network) : bool :=
  String.eqb (cfg (config n) "network") "none".

End Net.

(** ** Forwards and load balancers *)

Module Forward.
Import GoNet Net.

(** [forwardPortMap] and its target. *)
Record forwardPortMapTarget := mkForwardTarget {
  address : IP;
  ports : list N
}.

Record forwardPortMap := mkForwardPortMap {
  listenPorts : list N;
  protocol : string;
  target : forwardPortMapTarget
}.

Record OVNLoadBalancerTarget := mkTarget {
  Address : IP;
  Port : N
}.

Record OVNLoadBalancerHealthCheck := mkHealthCheck {
  CheckerIPV4 : IP;
  CheckerIPV6 : IP;
  Interval : Z;
  Timeout : Z;
  FailureCount : Z;
  SuccessCount : Z
}.

Record OVNLoadBalancerVIP := mkVIP {
  Protocol : string;
  ListenAddress : IP;
  ListenPort : N;
  Targets : list OVNLoadBalancerTarget;
  HealthCheck : option OVNLoadBalancerHealthCheck
}.

(** The choice of the target port for the listen port [lp] at index [i].
    [None] is the run-time panic of an index out of range. *)
Definition targetPortFor (portMap : forwardPortMap) (i : nat) (lp : N)
  : option N :=
  let targetPortsLen := length (ports (target portMap)) in
  if Nat.eqb targetPortsLen 1 then ports (target portMap) !! 0%nat
  else if Nat.ltb 1 targetPortsLen then ports (target portMap) !! i
       else Some lp.

(** The inner loop, over the listen ports from index [i] on. *)
Fixpoint flattenListenPorts (listenAddress : IP) (portMap : forwardPortMap)
    (i : nat) (lps : list N) : option (list OVNLoadBalancerVIP) :=
  match lps with
  | [] => Some []
  | lp :: rest =>
      match targetPortFor portMap i lp with
      | None => None
      | Some targetPort =>
          match flattenListenPorts listenAddress portMap (S i) rest with
          | None => None
          | Some vips =>
              Some (mkVIP (protocol portMap) listenAddress lp
                      [mkTarget (address (target portMap)) targetPort] None
                    :: vips)
          end
      end
  end.

Fixpoint flattenPortMaps (listenAddress : IP) (portMaps : list forwardPortMap)
  : option (list OVNLoadBalancerVIP) :=
  match portMaps with
  | [] => Some []
  | portMap :: rest =>
      match flattenListenPorts listenAddress portMap 0 (listenPorts portMap) with
      | None => None
      | Some vips =>
          match flattenPortMaps listenAddress rest with
          | None => None
          | Some more => Some (vips ++ more)
          end
      end
  end.

(** The VIP of the default target address, if one is given. *)
Definition defaultVIPs (listenAddress defaultTargetAddress : IP)
  : list OVNLoadBalancerVIP :=
  match defaultTargetAddress with
  | [] => []
  | _ => [mkVIP "" listenAddress 0 [mkTarget defaultTargetAddress 0] None]
  end.

Definition forwardFlattenVIPs (listenAddress defaultTargetAddress : IP)
    (portMaps : list forwardPortMap) : option (list OVNLoadBalancerVIP) :=
  match flattenPortMaps listenAddress portMaps with
  | None => None
  | Some vips => Some (defaultVIPs listenAddress defaultTargetAddress ++ vips)
  end.

(** *** The port mapping rule in words

    [claimedTargetPort] is the rule as the specification words it: one
    target port serves every listen port; as many target ports as listen
    ports map by index; otherwise the listen port is its own target. *)
Definition claimedTargetPort (portMap : forwardPortMap) (i : nat) (lp : N) : N :=
  match ports (target portMap) with
  | [single] => single
  | tps =>
      if Nat.eqb (length tps) (length (listenPorts portMap))
      then nth i tps lp
      else lp
  end.

(** [indexedTargetPort] is the rule the code follows: one target port
    serves every listen port; more than one map by index, whatever their
    number; none, and the listen port is its own target. *)
Definition indexedTargetPort (portMap : forwardPortMap) (i : nat) (lp : N) : N :=
  match ports (target portMap) with
  | [] => lp
  | [single] => single
  | tps => nth i tps lp
  end.

(** One VIP per listen port, in order, after the default VIP. *)
Definition flattened (rule : forwardPortMap -> nat -> N -> N)
    (listenAddress defaultTargetAddress : IP) (portMaps : list forwardPortMap)
  : list OVNLoadBalancerVIP :=
  defaultVIPs listenAddress defaultTargetAddress
  ++ flat_map
       (fun portMap =>
          imap (fun i lp =>
                  mkVIP (protocol portMap) listenAddress lp
                    [mkTarget (address (target portMap)) (rule portMap i lp)] None)
               (listenPorts portMap))
       portMaps.

(** The target ports suffice for the listen ports: there is at most one,
    or at least as many as listen ports. *)
Definition portsFit (portMap : forwardPortMap) : Prop :=
  (length (ports (target portMap)) <= 1)%nat
  \/ (length (listenPorts portMap) <= length (ports (target portMap)))%nat.

Lemma targetPortFor_indexed (portMap : forwardPortMap) (i : nat) (lp : N) :
  (length (ports (target portMap)) <= 1)%nat
  \/ (i < length (ports (target portMap)))%nat ->
  targetPortFor portMap i lp = Some (indexedTargetPort portMap i lp).
Proof.
  unfold targetPortFor, indexedTargetPort.
  destruct (ports (target portMap)) as [|t1 [|t2 tps]] eqn:E; intros H.
  - reflexivity.
  - reflexivity.
  - cbn [length] in *. destruct H as [H|H]; [lia|].
    cbn [Nat.eqb Nat.ltb Nat.leb].
    destruct (nth_lookup_or_length (t1 :: t2 :: tps) i lp) as [Hl|Hl].
    + exact Hl.
    + cbn [length] in Hl. lia.
Qed.

Lemma flattenListenPorts_indexed (listenAddress : IP) (portMap : forwardPortMap) :
  forall (lps : list N) (i : nat),
    (length (ports (target portMap)) <= 1)%nat
    \/ (i + length lps <= length (ports (target portMap)))%nat ->
    flattenListenPorts listenAddress portMap i lps
    = Some (imap (fun j lp =>
                    mkVIP (protocol portMap) listenAddress lp
                      [mkTarget (address (target portMap))
                         (indexedTargetPort portMap (i + j) lp)] None)
                 lps).
Proof.
  induction lps as [|lp lps IH]; intros i H; [reflexivity|].
  cbn [flattenListenPorts imap length] in *.
  rewrite targetPortFor_indexed by lia.
  rewrite IH by lia. rewrite Nat.add_0_r. do 2 f_equal.
  apply imap_ext. intros j x _. cbn. do 4 f_equal. lia.
Qed.

Lemma flattenPortMaps_indexed (listenAddress : IP)
    (portMaps : list forwardPortMap) :
  Forall portsFit portMaps ->
  flattenPortMaps listenAddress portMaps
  = Some (flat_map
            (fun portMap =>
               imap (fun i lp =>
                       mkVIP (protocol portMap) listenAddress lp
                         [mkTarget (address (target portMap))
                            (indexedTargetPort portMap i lp)] None)
                    (listenPorts portMap))
            portMaps).
Proof.
  induction 1 as [|portMap rest Hfit _ IH]; [reflexivity|].
  cbn [flattenPortMaps flat_map].
  rewrite flattenListenPorts_indexed by (destruct Hfit; [left|right]; lia).
  rewrite IH. reflexivity.
Qed.

(** C3 (as amended).  When every port map has at most one target port or
    at least as many target ports as listen ports, [forwardFlattenVIPs]
    returns the default VIP (if any) followed by exactly one VIP per
    listen port, each with the given listen address and the port map's
    protocol and target address, the target port being: the single
    target port if there is exactly one; the one at the listen port's
    index if there are more than one; the listen port itself if there is
    none.  On port maps with no, one, or as many target ports as listen
    ports this is the rule the specification words. *)
Theorem forwardFlattenVIPs_port_mapping (listenAddress defaultTargetAddress : IP)
    (portMaps : list forwardPortMap) :
  Forall portsFit portMaps ->
  forwardFlattenVIPs listenAddress defaultTargetAddress portMaps
  = Some (flattened indexedTargetPort listenAddress defaultTargetAddress portMaps)
  /\ (Forall (fun portMap =>
                (length (ports (target portMap)) <= 1)%nat
                \/ length (ports (target portMap))
                   = length (listenPorts portMap)) portMaps ->
      flattened indexedTargetPort listenAddress defaultTargetAddress portMaps
      = flattened claimedTargetPort listenAddress defaultTargetAddress portMaps).
Proof.
  intros Hfit. split.
  - unfold forwardFlattenVIPs, flattened.
    now rewrite flattenPortMaps_indexed.
  - intros Hval. unfold flattened. f_equal.
    induction Hval as [|portMap rest Hpm _ IH]; [reflexivity|].
    cbn [flat_map]. rewrite IH by (now inversion Hfit). f_equal.
    apply imap_ext. intros i lp Hi. cbn. do 3 f_equal.
    unfold indexedTargetPort, claimedTargetPort.
    destruct (ports (target portMap)) as [|t1 [|t2 tps]] eqn:E.
    + cbn [length].
      destruct (Nat.eqb 0 (length (listenPorts portMap))); [|reflexivity].
      now destruct i.
    + reflexivity.
    + cbn [length] in *. destruct Hpm as [Hpm|Hpm]; [lia|].
      rewrite Hpm, Nat.eqb_refl. reflexivity.
Qed.

(** *** Load-balancer port maps *)

Record loadBalancerPortMap := mkLoadBalancerPortMap {
  lbListenPorts : list N;
  lbProtocol : string;
  targets : list forwardPortMapTarget
}.

(** The innermost loop of [loadBalancerFlattenVIPs]: one target per
    backend, chosen as in [forwardFlattenVIPs]. *)
Fixpoint flattenTargets (i : nat) (lp : N) (tgts : list forwardPortMapTarget)
  : option (list OVNLoadBalancerTarget) :=
  match tgts with
  | [] => Some []
  | tgt :: rest =>
      match targetPortFor (mkForwardPortMap [] "" tgt) i lp with
      | None => None
      | Some targetPort =>
          match flattenTargets i lp rest with
          | None => None
          | Some more => Some (mkTarget (address tgt) targetPort :: more)
          end
      end
  end.

Fixpoint flattenLBListenPorts (listenAddress : IP) (portMap : loadBalancerPortMap)
    (i : nat) (lps : list N) : option (list OVNLoadBalancerVIP) :=
  match lps with
  | [] => Some []
  | lp :: rest =>
      match flattenTargets i lp (targets portMap) with
      | None => None
      | Some tgts =>
          match flattenLBListenPorts listenAddress portMap (S i) rest with
          | None => None
          | Some vips =>
              Some (mkVIP (lbProtocol portMap) listenAddress lp tgts None :: vips)
          end
      end
  end.

Fixpoint loadBalancerFlattenVIPs (listenAddress : IP)
    (portMaps : list loadBalancerPortMap) : option (list OVNLoadBalancerVIP) :=
  match portMaps with
  | [] => Some []
  | portMap :: rest =>
      match flattenLBListenPorts listenAddress portMap 0 (lbListenPorts portMap) with
      | None => None
      | Some vips =>
          match loadBalancerFlattenVIPs listenAddress rest with
          | None => None
          | Some more => Some (vips ++ more)
          end
      end
  end.

(** *** Creating forwards and load balancers *)

Inductive ClientType :=
| ClientTypeNormal
| ClientTypeNotifier
| ClientTypeJoiner.

(** [api.NetworkForwardsPost] and [api.NetworkLoadBalancersPost]; the
    port and backend specifications are read by the validators only. *)
Record NetworkForwardsPost := mkForwardsPost {
  fwListenAddress : string;
  fwDescription : string;
  fwConfig : gmap string string;
  fwPorts : list string
}.

Record NetworkLoadBalancersPost := mkLoadBalancersPost {
  lbListenAddress : string;
  lbDescription : string;
  lbConfig : gmap string string;
  lbBackends : list string;
  lbPorts : list string
}.

(** A database row: its ID, the network's ID and the record. *)
Record Row (A : Type) := mkRow { rowID : Z; rowNetworkID : Z; rowData : A }.
Arguments mkRow {A} _ _ _.
Arguments rowID {A} _.
Arguments rowNetworkID {A} _.
Arguments rowData {A} _.

(** What the two operations read and write: the cluster database's
    forward and load-balancer tables, the OVN northbound load balancers
    and router routes, and the notifications sent to the other members. *)
Record World := mkWorld {
  dbForwards : list (Row NetworkForwardsPost);
  dbLoadBalancers : list (Row NetworkLoadBalancersPost);
  ovnLoadBalancers : list (string * list OVNLoadBalancerVIP);
  ovnRouterRoutes : list (string * IP * IPNet);
  notified : list string
}.

Definition nextID {A} (rows : list (Row A)) : Z :=
  (1 + fold_right Z.max 0 (map rowID rows))%Z.

Definition deleteLoadBalancer (lbName : string) (w : World) : World :=
  mkWorld (dbForwards w) (dbLoadBalancers w)
    (List.filter (fun e => negb (String.eqb (fst e) lbName)) (ovnLoadBalancers w))
    (ovnRouterRoutes w) (notified w).

Definition deleteRouterRoute (router : string) (prefix : IPNet) (w : World)
  : World :=
  mkWorld (dbForwards w) (dbLoadBalancers w) (ovnLoadBalancers w)
    (List.filter
       (fun e => negb (String.eqb (fst (fst e)) router
                       && bytes_eqb (netIP (snd e)) (netIP prefix)
                       && bytes_eqb (Mask (snd e)) (Mask prefix)))
       (ovnRouterRoutes w))
    (notified w).

(** The reverter: hooks are kept most recent first and run in that
    order on failure. *)
Definition runReverts (hooks : list (World -> World)) (w : World) : World :=
  fold_left (fun w' hook => hook w') hooks w.

Definition errIsolatedForward : string :=
  "Isolated OVN network cannot use network forwards".
Definition errIsolatedLoadBalancer : string :=
  "Isolated OVN network cannot use network load balancers".

Section Create.

(** Parsing and validation, which the driver shares with the other
    network types, and the listen-address checks against the project,
    the uplink and the external subnets in use. *)
Variable ParseIP : string -> IP.
Variable ParseIPToNet : string -> result IPNet.
Variable forwardValidate :
  Network -> IP -> NetworkForwardsPost -> result (list forwardPortMap).
Variable loadBalancerValidate :
  Network -> IP -> NetworkLoadBalancersPost -> result (list loadBalancerPortMap).
Variable checkListenAddress : Network -> World -> IPNet -> result unit.
Variable getHealthCheck :
  Network -> NetworkLoadBalancersPost
  -> result (option OVNLoadBalancerHealthCheck).
(** The router's internal address of the listen address's family
    ([parseRouterIntPortIPv4Net] / [IPv6Net]); nil if there is none. *)
Variable routerIntPortIP : Network -> IPNet -> IP.

(** Failures of the database, of OVN and of the cluster notifier. *)
Variable dbCreateError : World -> option string.
Variable ovnCreateLoadBalancerError : World -> option string.
Variable ovnCreateRouteError : World -> option string.
Variable notifyError : World -> option string.

(** The BGP refreshes. *)
Variable forwardBGPSetupPrefixes : Network -> World -> World * result unit.
Variable loadBalancerBGPSetupPrefixes : Network -> World -> World * result unit.

(** The steps after the database record is written: OVN load balancer,
    internal route, notification. *)
Definition applyLoadBalancer (n : Network) (listenAddress kind : string)
    (listenAddressNet : IPNet) (vips : option (list OVNLoadBalancerVIP))
    (hooks : list (World -> World)) (w : World)
  : World * list (World -> World) * result unit :=
  match vips with
  | None => (w, hooks, Err "panic: index out of range")
  | Some vips =>
      match ovnCreateLoadBalancerError w with
      | Some e => (w, hooks, Err ("Failed applying OVN load balancer: " ++ e))
      | None =>
          let w1 :=
            mkWorld (dbForwards w) (dbLoadBalancers w)
              ((getLoadBalancerName n listenAddress, vips)
               :: ovnLoadBalancers (deleteLoadBalancer
                                      (getLoadBalancerName n listenAddress) w))
              (ovnRouterRoutes w) (notified w) in
          let nexthop := routerIntPortIP n listenAddressNet in
          let routed :=
            match nexthop with
            | [] => (w1, hooks, Ok tt)
            | _ =>
                match ovnCreateRouteError w1 with
                | Some e => (w1, hooks, Err e)
                | None =>
                    (mkWorld (dbForwards w1) (dbLoadBalancers w1)
                       (ovnLoadBalancers w1)
                       ((getRouterName n, nexthop, listenAddressNet)
                        :: ovnRouterRoutes w1)
                       (notified w1),
                     deleteRouterRoute (getRouterName n) listenAddressNet :: hooks,
                     Ok tt)
                end
            end in
          match routed with
          | (w2, hooks2, Err e) => (w2, hooks2, Err e)
          | (w2, hooks2, Ok _) =>
              match notifyError w2 with
              | Some e => (w2, hooks2, Err e)
              | None =>
                  (mkWorld (dbForwards w2) (dbLoadBalancers w2)
                     (ovnLoadBalancers w2) (ovnRouterRoutes w2)
                     ((kind ++ " " ++ listenAddress)%string :: notified w2),
                   hooks2, Ok tt)
              end
          end
      end
  end.

(** The body of [if clientType == request.ClientTypeNormal] in
    [ForwardCreate]: the world, the revert hooks registered and the
    outcome. *)
Definition forwardCreateNormal (n : Network) (forward : NetworkForwardsPost)
    (w : World) : World * list (World -> World) * result unit :=
  if existsb (fun r => Z.eqb (rowNetworkID r) (id n)
                       && String.eqb (fwListenAddress (rowData r))
                                     (fwListenAddress forward))
             (dbForwards w)
  then (w, [], Err "A forward for that listen address already exists")
  else
    match ParseIPToNet (fwListenAddress forward) with
    | Err e => (w, [], Err ("Failed parsing listen address: " ++ e))
    | Ok listenAddressNet =>
    match forwardValidate n (netIP listenAddressNet) forward with
    | Err e => (w, [], Err e)
    | Ok portMaps =>
    match checkListenAddress n w listenAddressNet with
    | Err e => (w, [], Err e)
    | Ok _ =>
    match dbCreateError w with
    | Some e => (w, [], Err e)
    | None =>
        let forwardID := nextID (dbForwards w) in
        let w1 :=
          mkWorld (dbForwards w ++ [mkRow forwardID (id n) forward])
            (dbLoadBalancers w) (ovnLoadBalancers w) (ovnRouterRoutes w)
            (notified w) in
        let undo (w' : World) : World :=
          let w'' :=
            deleteLoadBalancer (getLoadBalancerName n (fwListenAddress forward))
              (mkWorld
                 (List.filter
                    (fun r => negb (Z.eqb (rowNetworkID r) (id n)
                                    && Z.eqb (rowID r) forwardID))
                    (dbForwards w'))
                 (dbLoadBalancers w') (ovnLoadBalancers w')
                 (ovnRouterRoutes w') (notified w')) in
          fst (forwardBGPSetupPrefixes n w'') in
        applyLoadBalancer n (fwListenAddress forward) "CreateNetworkForward"
          listenAddressNet
          (forwardFlattenVIPs (ParseIP (fwListenAddress forward))
             (ParseIP (cfg (fwConfig forward) "target_address")) portMaps)
          [undo] w1
    end end end end.

Definition ForwardCreate (n : Network) (forward : NetworkForwardsPost)
    (clientType : ClientType) (w : World) : World * result unit :=
  if isolated n then (w, Err errIsolatedForward)
  else
    let '(w1, hooks, r) :=
      match clientType with
      | ClientTypeNormal => forwardCreateNormal n forward w
      | _ => (w, [], Ok tt)
      end in
    match r with
    | Err e => (runReverts hooks w1, Err e)
    | Ok _ =>
        let '(w2, refreshed) := forwardBGPSetupPrefixes n w1 in
        match refreshed with
        | Err e =>
            (runReverts hooks w2,
             Err ("Failed applying BGP prefixes for address forwards: " ++ e))
        | Ok _ => (w2, Ok tt)
        end
    end.

Definition withHealthCheck (hc : option OVNLoadBalancerHealthCheck)
    (vips : list OVNLoadBalancerVIP) : list OVNLoadBalancerVIP :=
  match hc with
  | None => vips
  | Some _ =>
      map (fun v => mkVIP (Protocol v) (ListenAddress v) (ListenPort v)
                      (Targets v) hc) vips
  end.

(** The body of [if clientType == request.ClientTypeNormal] in
    [LoadBalancerCreate]. *)
Definition loadBalancerCreateNormal (n : Network)
    (loadBalancer : NetworkLoadBalancersPost) (w : World)
  : World * list (World -> World) * result unit :=
  if existsb (fun r => Z.eqb (rowNetworkID r) (id n)
                       && String.eqb (lbListenAddress (rowData r))
                                     (lbListenAddress loadBalancer))
             (dbLoadBalancers w)
  then (w, [], Err "A load balancer for that listen address already exists")
  else
    match ParseIPToNet (lbListenAddress loadBalancer) with
    | Err e => (w, [], Err ("Failed parsing listen address: " ++ e))
    | Ok listenAddressNet =>
    match loadBalancerValidate n (netIP listenAddressNet) loadBalancer with
    | Err e => (w, [], Err e)
    | Ok portMaps =>
    match checkListenAddress n w listenAddressNet with
    | Err e => (w, [], Err e)
    | Ok _ =>
    match dbCreateError w with
    | Some e => (w, [], Err e)
    | None =>
        let loadBalancerID := nextID (dbLoadBalancers w) in
        let w1 :=
          mkWorld (dbForwards w)
            (dbLoadBalancers w ++ [mkRow loadBalancerID (id n) loadBalancer])
            (ovnLoadBalancers w) (ovnRouterRoutes w) (notified w) in
        let undo (w' : World) : World :=
          let w'' :=
            deleteLoadBalancer
              (getLoadBalancerName n (lbListenAddress loadBalancer))
              (mkWorld (dbForwards w')
                 (List.filter
                    (fun r => negb (Z.eqb (rowNetworkID r) (id n)
                                    && Z.eqb (rowID r) loadBalancerID))
                    (dbLoadBalancers w'))
                 (ovnLoadBalancers w') (ovnRouterRoutes w') (notified w')) in
          fst (loadBalancerBGPSetupPrefixes n w'') in
        match loadBalancerFlattenVIPs
                (ParseIP (lbListenAddress loadBalancer)) portMaps with
        | None => (w1, [undo], Err "panic: index out of range")
        | Some vips =>
            match getHealthCheck n loadBalancer with
            | Err e => (w1, [undo], Err e)
            | Ok healthCheck =>
                applyLoadBalancer n (lbListenAddress loadBalancer)
                  "CreateNetworkLoadBalancer" listenAddressNet
                  (Some (withHealthCheck healthCheck vips)) [undo] w1
            end
        end
    end end end end.

Definition LoadBalancerCreate (n : Network)
    (loadBalancer : NetworkLoadBalancersPost) (clientType : ClientType)
    (w : World) : World * result unit :=
  if isolated n then (w, Err errIsolatedLoadBalancer)
  else
    let '(w1, hooks, r) :=
      match clientType with
      | ClientTypeNormal => loadBalancerCreateNormal n loadBalancer w
      | _ => (w, [], Ok tt)
      end in
    match r with
    | Err e => (runReverts hooks w1, Err e)
    | Ok _ =>
        let '(w2, refreshed) := loadBalancerBGPSetupPrefixes n w1 in
        match refreshed with
        | Err e =>
            (runReverts hooks w2,
             Err ("Failed applying BGP prefixes for load balancers: " ++ e))
        | Ok _ => (w2, Ok tt)
        end
    end.

(** C10.  On a network whose [network] key is "none", [ForwardCreate] and
    [LoadBalancerCreate] return their "isolated network" error and leave
    the database, OVN and the notification log as they were, whatever the
    request, the client type and the behaviour of the validators and of
    the collaborators: no forward or load-balancer record is added. *)
Theorem create_refused_on_isolated_network (n : Network)
    (forward : NetworkForwardsPost) (loadBalancer : NetworkLoadBalancersPost)
    (clientType : ClientType) (w : World) :
  cfg (config n) "network" = "none" ->
  ForwardCreate n forward clientType w = (w, Err errIsolatedForward)
  /\ LoadBalancerCreate n loadBalancer clientType w
     = (w, Err errIsolatedLoadBalancer).
Proof.
  intros Hnone. unfold ForwardCreate, LoadBalancerCreate, isolated.
  rewrite Hnone. split; reflexivity.
Qed.

End Create.

(** *** Examples *)

Definition listen1 : IP := ipv4_16 192 0 2 1.
Definition backend : IP := ipv4_16 10 0 0 5.

Definition pmSingle : forwardPortMap :=
  mkForwardPortMap [80; 443] "tcp" (mkForwardTarget backend [8080]).
Definition pmIndexed : forwardPortMap :=
  mkForwardPortMap [80; 443] "tcp" (mkForwardTarget backend [8080; 8443]).
Definition pmSame : forwardPortMap :=
  mkForwardPortMap [53] "udp" (mkForwardTarget backend []).
Definition pmSurplus : forwardPortMap :=
  mkForwardPortMap [80; 81] "tcp" (mkForwardTarget backend [8080; 8081; 8082]).
Definition pmShort : forwardPortMap :=
  mkForwardPortMap [80; 81; 82] "tcp" (mkForwardTarget backend [8080; 8081]).

Example forwardFlattenVIPs_three_rules :
  forwardFlattenVIPs listen1 [] [pmSingle; pmIndexed; pmSame]
  = Some [ mkVIP "tcp" listen1 80 [mkTarget backend 8080] None;
           mkVIP "tcp" listen1 443 [mkTarget backend 8080] None;
           mkVIP "tcp" listen1 80 [mkTarget backend 8080] None;
           mkVIP "tcp" listen1 443 [mkTarget backend 8443] None;
           mkVIP "udp" listen1 53 [mkTarget backend 53] None ].
Proof. vm_compute. reflexivity. Qed.

Example forwardFlattenVIPs_default_first :
  forwardFlattenVIPs listen1 backend [pmSame]
  = Some [ mkVIP "" listen1 0 [mkTarget backend 0] None;
           mkVIP "udp" listen1 53 [mkTarget backend 53] None ].
Proof. vm_compute. reflexivity. Qed.

Example forwardFlattenVIPs_surplus_by_index :
  forwardFlattenVIPs listen1 [] [pmSurplus]
  = Some [ mkVIP "tcp" listen1 80 [mkTarget backend 8080] None;
           mkVIP "tcp" listen1 81 [mkTarget backend 8081] None ].
Proof. vm_compute. reflexivity. Qed.

Example forwardFlattenVIPs_short_panics :
  forwardFlattenVIPs listen1 [] [pmShort] = None.
Proof. vm_compute. reflexivity. Qed.

(** C3 (counterexample).  With listen ports 80, 81 and target ports 8080,
    8081, 8082 the counts differ and there is more than one target port:
    the rule as claimed reuses the listen ports, the code maps by index. *)
Lemma forwardFlattenVIPs_not_as_claimed :
  forwardFlattenVIPs listen1 [] [pmSurplus]
  <> Some (flattened claimedTargetPort listen1 [] [pmSurplus]).
Proof. vm_compute. discriminate. Qed.

(** Port maps with one, with as many and with no target ports: the code
    follows the rule as the specification words it. *)
Lemma forwardFlattenVIPs_port_mapping_witness :
  forwardFlattenVIPs listen1 backend [pmSingle; pmIndexed; pmSame]
  = Some (flattened claimedTargetPort listen1 backend
            [pmSingle; pmIndexed; pmSame]).
Proof.
  destruct (forwardFlattenVIPs_port_mapping listen1 backend
              [pmSingle; pmIndexed; pmSame]) as [Hcode Hsame].
  - repeat (apply List.Forall_cons; [unfold portsFit; cbn; lia|]).
    apply List.Forall_nil.
  - rewrite Hcode, Hsame; [reflexivity|].
    repeat (apply List.Forall_cons; [cbn; lia|]). apply List.Forall_nil.
Defined.

(** A stand-alone setting: every collaborator succeeds. *)
Definition demoParseIP (s : string) : IP :=
  if String.eqb s "192.0.2.1" then listen1
  else if String.eqb s "10.0.0.5" then backend
  else [].

Definition demoParseIPToNet (s : string) : result IPNet :=
  match demoParseIP s with
  | [] => Err "invalid IP"
  | ip => Ok (mkIPNet ip (CIDRMask 128 128))
  end.

Definition noError (w : World) : option string := None.
Definition noRefresh (n : Network) (w : World) : World * result unit :=
  (w, Ok tt).

Definition demoForwardCreate :=
  ForwardCreate demoParseIP demoParseIPToNet
    (fun _ _ _ => Ok [pmSingle]) (fun _ _ _ => Ok tt)
    (fun _ _ => ipv4_16 10 0 0 1) noError noError noError noError noRefresh.

Definition demoLoadBalancerCreate :=
  LoadBalancerCreate demoParseIP demoParseIPToNet
    (fun _ _ _ => Ok [mkLoadBalancerPortMap [80] "tcp"
                        [mkForwardTarget backend [8080]]])
    (fun _ _ _ => Ok tt) (fun _ _ => Ok None)
    (fun _ _ => ipv4_16 10 0 0 1) noError noError noError noError noRefresh.

Definition uplinkedNet : Network :=
  mkNetwork 7 "ovn1" "default" "" (<["network" := "uplink0"]> ∅).
Definition isolatedNet : Network :=
  mkNetwork 8 "ovn2" "default" "" (<["network" := "none"]> ∅).

Definition emptyWorld : World := mkWorld [] [] [] [] [].
Definition demoForward : NetworkForwardsPost :=
  mkForwardsPost "192.0.2.1" "web" ∅ ["80,443"].
Definition demoLoadBalancer : NetworkLoadBalancersPost :=
  mkLoadBalancersPost "192.0.2.1" "web" ∅ ["b1"] ["80"].

Example ForwardCreate_on_uplinked_network :
  let '(w, r) := demoForwardCreate uplinkedNet demoForward ClientTypeNormal
                   emptyWorld in
  r = Ok tt
  /\ dbForwards w = [mkRow 1%Z 7%Z demoForward]
  /\ map fst (ovnLoadBalancers w) = ["incus-net7-lb-192.0.2.1"]
  /\ notified w = ["CreateNetworkForward 192.0.2.1"].
Proof. vm_compute. repeat split. Qed.

Example ForwardCreate_twice_conflicts :
  let '(w, _) := demoForwardCreate uplinkedNet demoForward ClientTypeNormal
                   emptyWorld in
  demoForwardCreate uplinkedNet demoForward ClientTypeNormal w
  = (w, Err "A forward for that listen address already exists").
Proof. vm_compute. reflexivity. Qed.

Example LoadBalancerCreate_on_uplinked_network :
  let '(w, r) := demoLoadBalancerCreate uplinkedNet demoLoadBalancer
                   ClientTypeNormal emptyWorld in
  r = Ok tt
  /\ dbLoadBalancers w = [mkRow 1%Z 7%Z demoLoadBalancer]
  /\ map fst (ovnLoadBalancers w) = ["incus-net7-lb-192.0.2.1"].
Proof. vm_compute. repeat split. Qed.

(** On the isolated demo network both operations fail and the world
    stays empty. *)
Lemma create_refused_on_isolated_network_witness :
  demoForwardCreate isolatedNet demoForward ClientTypeNormal emptyWorld
  = (emptyWorld, Err errIsolatedForward)
  /\ demoLoadBalancerCreate isolatedNet demoLoadBalancer ClientTypeNormal
       emptyWorld
     = (emptyWorld, Err errIsolatedLoadBalancer).
Proof.
  apply (create_refused_on_isolated_network demoParseIP demoParseIPToNet
           (fun _ _ _ => Ok [pmSingle])
           (fun _ _ _ => Ok [mkLoadBalancerPortMap [80] "tcp"
                               [mkForwardTarget backend [8080]]])
           (fun _ _ _ => Ok tt) (fun _ _ => Ok None)
           (fun _ _ => ipv4_16 10 0 0 1) noError noError noError noError
           noRefresh noRefresh).
  vm_compute. reflexivity.
Defined.

End Forward.

(** ** Instance NIC ports *)

Module NIC.
Import GoNet Net.
Export Uplink(Range, mkRange, Start, End).

(** [hasDHCPv4Reservation]: some entry starts at [ip] and has no end. *)
Fixpoint hasDHCPv4Reservation (dhcpReservations : list Range) (ip : IP) : bool :=
  match dhcpReservations with
  | [] => false
  | dhcpReservation :: rest =>
      if Equal (Start dhcpReservation) ip
         && match End dhcpReservation with [] => true | _ => false end
      then true
      else hasDHCPv4Reservation rest ip
  end.

(** The part of the OVN northbound database the port operations on a
    network's internal switch read and write: the switch's DHCPv4
    reservations and its per-port DNS records. *)
Record NB := mkNB {
  dhcpv4Reservations : list Range;
  portDNS : list (string * (string * list IP))
}.

Definition getIntSwitchInstancePortPrefix (n : Network) : string :=
  getNetworkPrefix n ++ "-instance".

Definition getInstanceDevicePortName (n : Network)
    (instanceUUID deviceName : string) : string :=
  getIntSwitchInstancePortPrefix n ++ "-" ++ instanceUUID ++ "-" ++ deviceName.

Definition setPortDNS (port dnsName : string) (ips : list IP) (nb : NB) : NB :=
  mkNB (dhcpv4Reservations nb)
    ((port, (dnsName, ips))
     :: List.filter (fun e => negb (String.eqb (fst e) port)) (portDNS nb)).

Definition deletePortDNS (port : string) (nb : NB) : NB :=
  mkNB (dhcpv4Reservations nb)
    (List.filter (fun e => negb (String.eqb (fst e) port)) (portDNS nb)).

Definition setReservations (l : list Range) (nb : NB) : NB :=
  mkNB l (portDNS nb).

Section Reservations.

Variable ParseIP : string -> IP.

(** Failures of the northbound calls. *)
Variable updateDNSError : NB -> option string.
Variable getReservationsError : NB -> option string.
Variable updateReservationsError : NB -> option string.

(** [InstanceDevicePortAdd].  On failure the reverter deletes the DNS
    record the function added. *)
Definition InstanceDevicePortAdd (n : Network) (instanceUUID deviceName : string)
    (deviceConfig : gmap string string) (nb : NB) : NB * result unit :=
  let instancePortName := getInstanceDevicePortName n instanceUUID deviceName in
  match updateDNSError nb with
  | Some e => (nb, Err ("Failed adding DNS record: " ++ e))
  | None =>
      let nb1 := setPortDNS instancePortName "" [] nb in
      if String.eqb (cfg deviceConfig "ipv4.address") "" then (nb1, Ok tt)
      else
        match ParseIP (cfg deviceConfig "ipv4.address") with
        | [] => (nb1, Ok tt)
        | ip =>
            match getReservationsError nb1 with
            | Some e =>
                (deletePortDNS instancePortName nb1,
                 Err ("Failed getting DHCPv4 reservations: " ++ e))
            | None =>
                let dhcpReservations := dhcpv4Reservations nb1 in
                if negb (hasDHCPv4Reservation dhcpReservations ip)
                then
                  match updateReservationsError nb1 with
                  | Some e =>
                      (deletePortDNS instancePortName nb1,
                       Err ("Failed adding DHCPv4 reservation: " ++ e))
                  | None =>
                      (setReservations (dhcpReservations ++ [mkRange ip []]) nb1,
                       Ok tt)
                  end
                else (nb1, Ok tt)
            end
        end
  end.

(** The DHCPv4 reservation path of [InstanceDevicePortStart]: the list
    is read when the function starts and, once the port and its DNS
    record exist, it is extended if the NIC has a static IPv4 address.
    [dnsIPv4] is the port's IPv4 address as established in between (nil
    if none); nothing in between writes the reservations. *)
Definition InstanceDevicePortStart_reservation
    (deviceConfig : gmap string string) (dnsIPv4 : IP) (nb : NB)
  : NB * result unit :=
  match getReservationsError nb with
  | Some e => (nb, Err ("Failed getting DHCPv4 reservations: " ++ e))
  | None =>
      let dhcpReservations := dhcpv4Reservations nb in
      if negb (String.eqb (cfg deviceConfig "ipv4.address") "")
         && match dnsIPv4 with [] => false | _ => true end
      then
        if negb (hasDHCPv4Reservation dhcpReservations dnsIPv4)
        then
          match updateReservationsError nb with
          | Some e => (nb, Err ("Failed adding DHCPv4 reservation: " ++ e))
          | None =>
              (setReservations (dhcpReservations ++ [mkRange dnsIPv4 []]) nb,
               Ok tt)
          end
        else (nb, Ok tt)
      else (nb, Ok tt)
  end.

(** *** The invariant *)

Definition single (r : Range) : bool :=
  match End r with [] => true | _ => false end.

(** No two single-address entries (a start and no end) are for the same
    IP. *)
Fixpoint noDuplicateSingles (l : list Range) : bool :=
  match l with
  | [] => true
  | r :: rest =>
      negb (single r
            && existsb (fun r' => single r' && Equal (Start r) (Start r')) rest)
      && noDuplicateSingles rest
  end.

Lemma hasDHCPv4Reservation_existsb (l : list Range) (ip : IP) :
  hasDHCPv4Reservation l ip
  = existsb (fun r => Equal (Start r) ip && single r) l.
Proof.
  induction l as [|r l IH]; [reflexivity|].
  cbn [hasDHCPv4Reservation existsb]. rewrite <- IH. unfold single.
  destruct (Equal (Start r) ip && _); reflexivity.
Qed.

Lemma noDuplicateSingles_snoc (l : list Range) (ip : IP) :
  noDuplicateSingles l = true ->
  hasDHCPv4Reservation l ip = false ->
  noDuplicateSingles (l ++ [mkRange ip []]) = true.
Proof.
  induction l as [|r l IH]; intros Hnd Hhas; [reflexivity|].
  cbn [noDuplicateSingles app] in *. cbn [hasDHCPv4Reservation] in Hhas.
  apply andb_true_iff in Hnd as [Hr Hl].
  fold (single r) in Hhas.
  destruct (Equal (Start r) ip && single r) eqn:Er; [discriminate|].
  rewrite IH by assumption. rewrite andb_true_r.
  rewrite existsb_app. cbn [existsb single End Start]. rewrite orb_false_r.
  apply negb_true_iff. apply negb_true_iff in Hr.
  destruct (single r); [|reflexivity]. cbn [andb] in *.
  rewrite andb_true_r in Er. rewrite Hr, Er. reflexivity.
Qed.

(** C9.  [InstanceDevicePortAdd] and the reservation path of
    [InstanceDevicePortStart] keep the DHCPv4 reservation list free of
    duplicate single-address entries, whether the northbound calls
    succeed or fail: the list is left as it was, or extended by one
    single-address entry for an IP that [hasDHCPv4Reservation] did not
    find in it. *)
Theorem dhcp_reservations_stay_duplicate_free (n : Network)
    (instanceUUID deviceName : string) (deviceConfig : gmap string string)
    (dnsIPv4 : IP) (nb : NB) :
  noDuplicateSingles (dhcpv4Reservations nb) = true ->
  let added :=
    fst (InstanceDevicePortAdd n instanceUUID deviceName deviceConfig nb) in
  let started :=
    fst (InstanceDevicePortStart_reservation deviceConfig dnsIPv4 nb) in
  noDuplicateSingles (dhcpv4Reservations added) = true
  /\ noDuplicateSingles (dhcpv4Reservations started) = true
  /\ (dhcpv4Reservations added = dhcpv4Reservations nb
      \/ exists ip,
           hasDHCPv4Reservation (dhcpv4Reservations nb) ip = false
           /\ dhcpv4Reservations added
              = dhcpv4Reservations nb ++ [mkRange ip []])
  /\ (dhcpv4Reservations started = dhcpv4Reservations nb
      \/ (hasDHCPv4Reservation (dhcpv4Reservations nb) dnsIPv4 = false
          /\ dhcpv4Reservations started
             = dhcpv4Reservations nb ++ [mkRange dnsIPv4 []])).
Proof.
  intros Hnd added started.
  assert (Hadd :
    dhcpv4Reservations added = dhcpv4Reservations nb
    \/ exists ip,
         hasDHCPv4Reservation (dhcpv4Reservations nb) ip = false
         /\ dhcpv4Reservations added = dhcpv4Reservations nb ++ [mkRange ip []]).
  { subst added. unfold InstanceDevicePortAdd.
    destruct (updateDNSError nb); [now left|].
    destruct (String.eqb _ ""); [now left|].
    destruct (ParseIP _) as [|b ip] eqn:Eip; [now left|].
    destruct (getReservationsError _); [now left|].
    cbn [setPortDNS dhcpv4Reservations].
    destruct (hasDHCPv4Reservation (dhcpv4Reservations nb) (b :: ip)) eqn:Eh;
      cbn [negb]; [now left|].
    destruct (updateReservationsError _); [now left|].
    right. exists (b :: ip). split; [exact Eh | reflexivity]. }
  assert (Hstart :
    dhcpv4Reservations started = dhcpv4Reservations nb
    \/ (hasDHCPv4Reservation (dhcpv4Reservations nb) dnsIPv4 = false
        /\ dhcpv4Reservations started
           = dhcpv4Reservations nb ++ [mkRange dnsIPv4 []])).
  { subst started. unfold InstanceDevicePortStart_reservation.
    destruct (getReservationsError nb); [now left|].
    destruct (negb (String.eqb _ "") && _); [|now left].
    destruct (hasDHCPv4Reservation (dhcpv4Reservations nb) dnsIPv4) eqn:Eh;
      cbn [negb]; [now left|].
    destruct (updateReservationsError nb); [now left|].
    right. split; reflexivity. }
  repeat split; try assumption.
  - destruct Hadd as [-> | (ip & Hh & ->)]; [assumption|].
    now apply noDuplicateSingles_snoc.
  - destruct Hstart as [-> | (Hh & ->)]; [assumption|].
    now apply noDuplicateSingles_snoc.
Qed.

End Reservations.

(** *** Starting a port: the options of the switch port *)

(** [OVNInstanceNICSetupOpts]. *)
Record OVNInstanceNICSetupOpts := mkSetupOpts {
  InstanceUUID : string;
  DeviceName : string;
  DeviceConfig : gmap string string;
  UplinkConfig : gmap string string;
  DNSName : string;
  LastStateIPs : list IP
}.

(** [networkOVN.OVNSwitchPortOpts], as [InstanceDevicePortStart] fills it. *)
Record OVNSwitchPortOpts := mkPortOpts {
  DHCPv4OptsID : string;
  DHCPv6OptsID : string;
  MAC : list byte;
  IPV4 : string;
  IPV6 : string;
  Parent : string;
  VLAN : N;
  Location : string;
  Promiscuous : bool
}.

Definition isNil (ip : IP) : bool :=
  match ip with [] => true | _ => false end.

Section PortStart.

(** Parsing and printing ([net], [strconv], [eui64], [shared/util]). *)
Variable parseCIDRText : string -> option (list byte * N).
Variable String6 : IP -> string.
Variable ParseMAC : string -> result (list byte).
Variable ParseUint16 : string -> result N.
Variable eui64ParseMAC : IP -> list byte -> result IP.
Variable IsFalse : string -> bool.
Variable IsTrue : string -> bool.

(** Helpers of the network package: [SubnetParseAppend] over a
    comma-separated list, [SubnetContainsIP] and [IPInSlice]. *)
Variable SubnetParseAppend : list IPNet -> string -> result (list IPNet).
Variable SubnetContainsIP : IPNet -> IP -> bool.
Variable IPInSlice : IP -> list IP -> bool.

(** The server's name, and what the northbound database answers. *)
Variable ServerName : string.
Variable GetLogicalSwitchDHCPv4Revervations : result (list Range).
Variable GetLogicalSwitchDHCPOptions : result (list (IPNet * string)).
Variable GetLogicalSwitchIPs : result (gmap string (list IP)).

(** [ip.String()]. *)
Definition IPString (ip : IP) : string :=
  match To4 ip with
  | [] => String6 ip
  | v4 => dotted v4
  end.

(** [parseRouterIntPortIPv4Net] and [parseRouterIntPortIPv6Net]: the
    address and the subnet, both nil when the key is empty or "none". *)
Definition parseRouterIntPortNet (n : Network) (key what : string)
  : result (IP * option IPNet) :=
  let ipNet := cfg (config n) key in
  if String.eqb ipNet "none" || String.eqb ipNet "" then Ok ([], None)
  else
    match ParseCIDR parseCIDRText ipNet with
    | None => Err ("Failed parsing router's internal port " ++ what ++ " Net")
    | Some (ip, subnet) => Ok (ip, Some subnet)
    end.

Definition parseRouterIntPortIPv4Net (n : Network) :=
  parseRouterIntPortNet n "ipv4.address" "IPv4".
Definition parseRouterIntPortIPv6Net (n : Network) :=
  parseRouterIntPortNet n "ipv6.address" "IPv6".

Definition DHCPv4Subnet (n : Network) : option IPNet :=
  if IsFalse (cfg (config n) "ipv4.dhcp") then None
  else
    match parseRouterIntPortIPv4Net n with
    | Err _ => None
    | Ok (_, subnet) => subnet
    end.

Definition DHCPv6Subnet (n : Network) : option IPNet :=
  if IsFalse (cfg (config n) "ipv6.dhcp") then None
  else
    match parseRouterIntPortIPv6Net n with
    | Err _ => None
    | Ok (_, None) => None
    | Ok (_, Some subnet) =>
        if fst (Size (Mask subnet)) <? 64 then None else Some subnet
    end.

(** [getDhcpOptionUUIDs]: the loop over the existing option sets. *)
Fixpoint dhcpOptionUUIDs (existingOpts : list (IPNet * string))
    (v4Uuid v6Uuid : string) : result (string * string) :=
  match existingOpts with
  | [] => Ok (v4Uuid, v6Uuid)
  | (cidr, uuid) :: rest =>
      if isNil (To4 (netIP cidr))
      then if negb (String.eqb v6Uuid "")
           then Err "Multiple matching DHCPv6 option sets found for switch"
           else dhcpOptionUUIDs rest v4Uuid uuid
      else if negb (String.eqb v4Uuid "")
           then Err "Multiple matching DHCPv4 option sets found for switch"
           else dhcpOptionUUIDs rest uuid v6Uuid
  end.

Definition getDhcpOptionUUIDs : result (string * string) :=
  let* existingOpts :=
    wrap "Failed getting existing DHCP settings for internal switch"
      GetLogicalSwitchDHCPOptions in
  dhcpOptionUUIDs existingOpts "" "".

(** [instanceDevicePortRoutesParse]. *)
Fixpoint routesOfKeys (deviceConfig : gmap string string) (keys : list string)
    (routes : list IPNet) : result (list IPNet) :=
  match keys with
  | [] => Ok routes
  | key :: rest =>
      if String.eqb (cfg deviceConfig key) "" then
        routesOfKeys deviceConfig rest routes
      else
        match SubnetParseAppend routes (cfg deviceConfig key) with
        | Err e => Err ("Invalid " ++ key ++ " value: " ++ e)
        | Ok routes' => routesOfKeys deviceConfig rest routes'
        end
  end.

Definition instanceDevicePortRoutesParse (deviceConfig : gmap string string)
  : result (list IPNet * list IPNet) :=
  let* internalRoutes :=
    routesOfKeys deviceConfig ["ipv4.routes"; "ipv6.routes"] [] in
  let* externalRoutes :=
    routesOfKeys deviceConfig ["ipv4.routes.external"; "ipv6.routes.external"]
      [] in
  Ok (internalRoutes, externalRoutes).

(** "Look for previously used sticky IPs from the NIC's last state":
    the first entry that is an IPv4 address inside the DHCPv4 subnet. *)
Definition stickyCandidate (dhcpv4Subnet : IPNet) (lastStateIPs : list IP)
  : option IP :=
  List.find (fun entry => negb (isNil (To4 entry))
                          && SubnetContainsIP dhcpv4Subnet entry)
            lastStateIPs.

(** [found] after the loop over the existing ports' IPs. *)
Definition usedByAPort (existingPortIPs : gmap string (list IP)) (ip : IP)
  : bool :=
  existsb (fun entry => IPInSlice ip (snd entry)) (map_to_list existingPortIPs).

(** The IPv4 address to request, decided in the [dhcpv4Subnet != nil]
    block. *)
Definition requestedIPv4 (opts : OVNInstanceNICSetupOpts)
    (dhcpv4Subnet : IPNet) (dhcpV4UUID : string)
    (dhcpReservations : list Range) : result string :=
  let ipv4 := cfg (DeviceConfig opts) "ipv4.address" in
  if String.eqb dhcpV4UUID ""
  then Err "Could not find DHCPv4 options for instance port for subnet"
  else
    let dhcpV4StickyIP :=
      if String.eqb ipv4 "" then stickyCandidate dhcpv4Subnet (LastStateIPs opts)
      else None in
    match dhcpV4StickyIP with
    | None => Ok ipv4
    | Some sticky =>
        if negb (String.eqb (IPString sticky) ipv4) then
          if negb (hasDHCPv4Reservation dhcpReservations sticky) then
            let* existingPortIPs :=
              wrap "Failed getting existing switch port IPs" GetLogicalSwitchIPs in
            if negb (usedByAPort existingPortIPs sticky)
            then Ok (IPString sticky)
            else Ok ipv4
          else Ok ipv4
        else Ok ipv4
    end.

(** The IPv6 address to request, decided in the [dhcpv6Subnet != nil]
    block. *)
Definition requestedIPv6 (opts : OVNInstanceNICSetupOpts)
    (dhcpv6Subnet : IPNet) (dhcpV6UUID : string) (mac : list byte)
    (ipv4 : string) : result string :=
  let ipv6 := cfg (DeviceConfig opts) "ipv6.address" in
  if String.eqb dhcpV6UUID ""
  then Err "Could not find DHCPv6 options for instance port for subnet"
  else if negb (String.eqb ipv4 "") && String.eqb ipv6 "" then
         let* eui64IP :=
           wrap "Failed generating EUI64 for instance port"
             (eui64ParseMAC (netIP dhcpv6Subnet) mac) in
         Ok (IPString eui64IP)
       else Ok ipv6.

(** [InstanceDevicePortStart], from its start to the call of
    [CreateLogicalSwitchPort]: the port's name and the options the port
    is created with.  Up to there the function only reads. *)
Definition InstanceDevicePortStart_port (n : Network)
    (opts : OVNInstanceNICSetupOpts) : result (string * OVNSwitchPortOpts) :=
  if String.eqb (InstanceUUID opts) "" then Err "Instance UUID is required"
  else
    let* mac := ParseMAC (cfg (DeviceConfig opts) "hwaddr") in
    let* routes :=
      wrap "Failed parsing NIC device routes"
        (instanceDevicePortRoutesParse (DeviceConfig opts)) in
    let* dhcpReservations :=
      wrap "Failed getting DHCPv4 reservations"
        GetLogicalSwitchDHCPv4Revervations in
    let dhcpv4Subnet := DHCPv4Subnet n in
    let dhcpv6Subnet := DHCPv6Subnet n in
    let* uuids :=
      match dhcpv4Subnet, dhcpv6Subnet with
      | None, None => Ok ("", "")
      | _, _ => getDhcpOptionUUIDs
      end in
    let* ipv4 :=
      match dhcpv4Subnet with
      | None => Ok (cfg (DeviceConfig opts) "ipv4.address")
      | Some subnet => requestedIPv4 opts subnet (fst uuids) dhcpReservations
      end in
    let* ipv6 :=
      match dhcpv6Subnet with
      | None => Ok (cfg (DeviceConfig opts) "ipv6.address")
      | Some subnet => requestedIPv6 opts subnet (snd uuids) mac ipv4
      end in
    let instancePortName :=
      getInstanceDevicePortName n (InstanceUUID opts) (DeviceName opts) in
    let* nested :=
      if String.eqb (cfg (DeviceConfig opts) "nested") "" then Ok ("", 0)
      else
        let* vlan :=
          wrap "Invalid VLAN ID" (ParseUint16 (cfg (DeviceConfig opts) "vlan")) in
        Ok (getInstanceDevicePortName n (InstanceUUID opts)
              (cfg (DeviceConfig opts) "nested"), vlan) in
    Ok (instancePortName,
        mkPortOpts (fst uuids) (snd uuids) mac ipv4 ipv6 (fst nested)
          (snd nested) ServerName
          (IsTrue (cfg (DeviceConfig opts) "security.promiscuous"))).

(** *** The sticky address *)








End PortStart.

(** *** Examples *)

Definition demoParseIP (s : string) : IP :=
  if String.eqb s "10.0.0.9" then ipv4_16 10 0 0 9
  else if String.eqb s "10.0.0.1" then ipv4_16 10 0 0 1
  else [].

Definition noFailure (nb : NB) : option string := None.

Definition demoNet : Network :=
  mkNetwork 7 "ovn1" "default" ""
    (<["ipv4.address" := "10.0.0.1/24"]> (<["network" := "uplink0"]> ∅)).

(** The router's address in 16-byte form, the health-check address in
    4-byte form, and a range. *)
Definition demoNB : NB :=
  mkNB [ mkRange (ipv4_16 10 0 0 1) [];
         mkRange (ipv4 10 0 0 254) [];
         mkRange (ipv4_16 10 0 0 100) (ipv4_16 10 0 0 200) ] [].

Definition demoAdd (address : string) (nb : NB) : NB * result unit :=
  InstanceDevicePortAdd demoParseIP noFailure noFailure noFailure demoNet
    "c0ffee" "eth0" (<["ipv4.address" := address]> ∅) nb.

Example InstanceDevicePortAdd_reserves :
  dhcpv4Reservations (fst (demoAdd "10.0.0.9" demoNB))
  = dhcpv4Reservations demoNB ++ [mkRange (ipv4_16 10 0 0 9) []].
Proof. vm_compute. reflexivity. Qed.

Example InstanceDevicePortAdd_twice :
  dhcpv4Reservations (fst (demoAdd "10.0.0.9" (fst (demoAdd "10.0.0.9" demoNB))))
  = dhcpv4Reservations (fst (demoAdd "10.0.0.9" demoNB)).
Proof. vm_compute. reflexivity. Qed.

Example InstanceDevicePortAdd_already_reserved :
  dhcpv4Reservations (fst (demoAdd "10.0.0.1" demoNB))
  = dhcpv4Reservations demoNB.
Proof. vm_compute. reflexivity. Qed.

(** Adding and starting a NIC with the static address 10.0.0.9 on the
    demo switch. *)
Lemma dhcp_reservations_stay_duplicate_free_witness :
  noDuplicateSingles (dhcpv4Reservations (fst (demoAdd "10.0.0.9" demoNB)))
  = true
  /\ noDuplicateSingles
       (dhcpv4Reservations
          (fst (InstanceDevicePortStart_reservation noFailure noFailure
                  (<["ipv4.address" := "10.0.0.9"]> ∅) (ipv4 10 0 0 9) demoNB)))
     = true.
Proof.
  pose proof (dhcp_reservations_stay_duplicate_free demoParseIP noFailure
                noFailure noFailure demoNet "c0ffee" "eth0"
                (<["ipv4.address" := "10.0.0.9"]> ∅) (ipv4 10 0 0 9) demoNB)
    as H.
  cbv zeta in H. destruct H as (Hadd & Hstart & _).
  - vm_compute. reflexivity.
  - split; [exact Hadd | exact Hstart].
Defined.

(** A NIC that last held fd42::5 and 10.0.0.5, on the network
    10.0.0.1/24. *)
Definition demoCIDR (s : string) : option (list byte * N) :=
  if String.eqb s "10.0.0.1/24" then Some (ipv4 10 0 0 1, 24) else None.

Definition demoIPInSlice (key : IP) (l : list IP) : bool :=
  existsb (fun entry => Equal entry key) l.

Definition demoOpts : OVNInstanceNICSetupOpts :=
  mkSetupOpts "c0ffee" "eth0" (<["hwaddr" := "10:66:6a:00:00:01"]> ∅) ∅
    "c1" [encode 16 (0xfd42 * 2 ^ 112 + 5); ipv4_16 10 0 0 5].

Definition demoMAC : list byte :=
  [byte_of_N 16; byte_of_N 102; byte_of_N 106; x00; x00; x01].

Definition demoStart
    (reservations : list Range) (portIPs : gmap string (list IP)) :=
  InstanceDevicePortStart_port demoCIDR (fun _ => "fd42::5")
    (fun _ => Ok demoMAC) (fun _ => Ok 0) (fun _ _ => Err "no EUI64")
    (fun s => String.eqb s "false") (fun s => String.eqb s "true")
    (fun routes _ => Ok routes) Contains demoIPInSlice "server01"
    (Ok reservations)
    (Ok [(mkIPNet (ipv4 10 0 0 0) (CIDRMask 24 32), "dhcp4-uuid")])
    (Ok portIPs) demoNet demoOpts.

Example sticky_requested :
  option_map IPV4
    (match demoStart (dhcpv4Reservations demoNB)
             (<["p1" := [ipv4 10 0 0 7]]> ∅) with
     | Ok (_, o) => Some o
     | Err _ => None
     end)
  = Some "10.0.0.5".
Proof. vm_compute. reflexivity. Qed.

Example sticky_reserved :
  option_map IPV4
    (match demoStart [mkRange (ipv4 10 0 0 5) []] ∅ with
     | Ok (_, o) => Some o
     | Err _ => None
     end)
  = Some "".
Proof. vm_compute. reflexivity. Qed.

Example sticky_held_by_a_port :
  option_map IPV4
    (match demoStart [] (<["p1" := [ipv4 10 0 0 7]]>
                           (<["p2" := [ipv4 10 0 0 5]]> ∅)) with
     | Ok (_, o) => Some o
     | Err _ => None
     end)
  = Some "".
Proof. vm_compute. reflexivity. Qed.


End NIC.

(** ** The router's MAC address *)

Module RouterMAC.
Import GoNet Net.

(** [net.HardwareAddr]. *)
Definition HardwareAddr := list byte.

(** [fmt.Sprintf("%s.%d.%d", fingerprint, 0, n.ID())]. *)
Definition routerMACSeed (fingerprint : string) (n : Network) : string :=
  fingerprint ++ "." ++ itoaZ 0 ++ "." ++ itoaZ (id n).

Section GetRouterMAC.

(** The server certificate ([internalUtil.LoadCert], [Fingerprint]), the
    seeded generator ([localUtil.GetStableRandomGenerator]) with the
    address drawn from it ([randomHwaddr]), and [net.ParseMAC]. *)
Variable Cert : Type.
Variable Rand : Type.
Variable LoadCert : string -> result Cert.
Variable Fingerprint : Cert -> string.
Variable GetStableRandomGenerator : string -> result Rand.
Variable randomHwaddr : Rand -> string.
Variable ParseMAC : string -> result HardwareAddr.

(** [getRouterMAC]; [varDir] is [n.state.OS.VarDir]. *)
Definition getRouterMAC (varDir : string) (n : Network) : result HardwareAddr :=
  let hwAddr := cfg (config n) "bridge.hwaddr" in
  let* hwAddr :=
    if String.eqb hwAddr "" then
      let* cert := LoadCert varDir in
      let seed := routerMACSeed (Fingerprint cert) n in
      let* r :=
        wrap "Failed generating stable random router MAC"
          (GetStableRandomGenerator seed) in
      Ok (randomHwaddr r)
    else Ok hwAddr in
  wrap "Failed parsing router MAC address" (ParseMAC hwAddr).

(** The address generated from a seed. *)
Definition macOfSeed (seed : string) : result HardwareAddr :=
  let* r :=
    wrap "Failed generating stable random router MAC"
      (GetStableRandomGenerator seed) in
  wrap "Failed parsing router MAC address" (ParseMAC (randomHwaddr r)).

Lemma getRouterMAC_of_seed (varDir : string) (n : Network) (cert : Cert) :
  cfg (config n) "bridge.hwaddr" = "" ->
  LoadCert varDir = Ok cert ->
  getRouterMAC varDir n = macOfSeed (routerMACSeed (Fingerprint cert) n).
Proof.
  intros Hunset Hcert. unfold getRouterMAC, macOfSeed.
  rewrite Hunset, Hcert. cbn [String.eqb rbind].
  destruct (GetStableRandomGenerator _); reflexivity.
Qed.

End GetRouterMAC.

(** *** Seeds *)

Lemma to_int_not_nil (z : Z) :
  Z.to_int z <> Decimal.Pos Decimal.Nil /\ Z.to_int z <> Decimal.Neg Decimal.Nil.
Proof.
  destruct z as [|p|p]; cbn; split; try discriminate;
    intros H; injection H as H;
    now apply DecimalPos.Unsigned.to_uint_nonnil in H.
Qed.

Lemma itoaZ_inj (a b : Z) : itoaZ a = itoaZ b -> a = b.
Proof.
  unfold itoaZ. intros H.
  destruct (to_int_not_nil a) as [Ha1 Ha2], (to_int_not_nil b) as [Hb1 Hb2].
  pose proof (NilZero.isi _ Ha1 Ha2) as Ia.
  pose proof (NilZero.isi _ Hb1 Hb2) as Ib.
  rewrite H in Ia. rewrite Ia in Ib. injection Ib as Ib.
  now apply DecimalZ.to_int_inj.
Qed.

Lemma append_inj_r (p s t : string) : (p ++ s = p ++ t)%string -> s = t.
Proof.
  induction p as [|c p IH]; cbn; intros H; [exact H|].
  injection H as H. now apply IH.
Qed.

Lemma routerMACSeed_inj (fingerprint : string) (n1 n2 : Network) :
  routerMACSeed fingerprint n1 = routerMACSeed fingerprint n2 ->
  id n1 = id n2.
Proof.
  unfold routerMACSeed. intros H.
  apply append_inj_r in H. apply (append_inj_r ".") in H.
  apply append_inj_r in H. apply (append_inj_r ".") in H.
  now apply itoaZ_inj.
Qed.

(** C4 (as amended).  With [bridge.hwaddr] unset, [getRouterMAC] depends
    on the server certificate's fingerprint and on the network's ID only:
    two invocations with the same fingerprint and the same ID give the
    same result, whatever else differs (the server directory, the
    network's name, project and other configuration); and two different
    IDs, under the same fingerprint, seed the generator differently. *)
Theorem getRouterMAC_stable (Cert Rand : Type)
    (LoadCert : string -> result Cert) (Fingerprint : Cert -> string)
    (GetStableRandomGenerator : string -> result Rand)
    (randomHwaddr : Rand -> string) (ParseMAC : string -> result HardwareAddr)
    (varDir1 varDir2 : string) (n1 n2 : Network) (cert1 cert2 : Cert) :
  cfg (config n1) "bridge.hwaddr" = "" ->
  cfg (config n2) "bridge.hwaddr" = "" ->
  LoadCert varDir1 = Ok cert1 ->
  LoadCert varDir2 = Ok cert2 ->
  Fingerprint cert1 = Fingerprint cert2 ->
  (id n1 = id n2 ->
   getRouterMAC Cert Rand LoadCert Fingerprint GetStableRandomGenerator
     randomHwaddr ParseMAC varDir1 n1
   = getRouterMAC Cert Rand LoadCert Fingerprint GetStableRandomGenerator
       randomHwaddr ParseMAC varDir2 n2)
  /\ (id n1 <> id n2 ->
      routerMACSeed (Fingerprint cert1) n1 <> routerMACSeed (Fingerprint cert2) n2).
Proof.
  intros H1 H2 Hc1 Hc2 Hfp. split.
  - intros Hid.
    rewrite (getRouterMAC_of_seed _ _ _ _ _ _ _ _ _ _ H1 Hc1).
    rewrite (getRouterMAC_of_seed _ _ _ _ _ _ _ _ _ _ H2 Hc2).
    unfold routerMACSeed. now rewrite Hfp, Hid.
  - intros Hid Hseed. rewrite Hfp in Hseed.
    now apply routerMACSeed_inj in Hseed.
Qed.

(** *** Why distinct IDs cannot always give distinct addresses *)

Lemma bounded_search (P : N -> Prop) (Pdec : forall i, {P i} + {~ P i}) (n : N) :
  (exists i, i <= n /\ P i) \/ (forall i, i <= n -> ~ P i).
Proof.
  induction n as [|n IH] using N.peano_ind.
  - destruct (Pdec 0) as [H0|H0].
    + left. exists 0. split; [lia | exact H0].
    + right. intros i Hi. assert (i = 0) as -> by lia. exact H0.
  - destruct IH as [(i & Hi & HP) | Hnone].
    + left. exists i. split; [lia | exact HP].
    + destruct (Pdec (N.succ n)) as [Hs|Hs].
      * left. exists (N.succ n). split; [lia | exact Hs].
      * right. intros i Hi.
        destruct (N.eq_dec i (N.succ n)) as [->|Hne]; [exact Hs|].
        apply Hnone. lia.
Qed.

(** [n + 1] values below [n] cannot all differ. *)
Lemma pigeonhole (n : N) :
  forall f : N -> N,
    (forall i, i <= n -> f i < n) ->
    exists i j, i < j /\ j <= n /\ f i = f j.
Proof.
  induction n as [|n IH] using N.peano_ind; intros f Hf.
  - specialize (Hf 0). lia.
  - destruct (bounded_search (fun i => f i = f (N.succ n))
                (fun i => N.eq_dec (f i) (f (N.succ n))) n)
      as [(i & Hi & Heq) | Hnone].
    + exists i, (N.succ n). repeat split; [lia | lia | exact Heq].
    + set (v := f (N.succ n)) in *.
      destruct (IH (fun i => if f i <? v then f i else f i - 1))
        as (i & j & Hij & Hj & Hg).
      * intros i Hi. pose proof (Hf i ltac:(lia)).
        pose proof (Hf (N.succ n) ltac:(lia)). pose proof (Hnone i Hi).
        fold v in H0. destruct (N.ltb_spec (f i) v); lia.
      * exists i, j. repeat split; [lia | lia |].
        pose proof (Hnone i ltac:(lia)). pose proof (Hnone j ltac:(lia)).
        cbv beta in Hg.
        destruct (N.ltb_spec (f i) v), (N.ltb_spec (f j) v); lia.
Qed.

(** The number of 6-byte addresses, and the bound of an [int64] ID. *)
Definition macSpace : N := 281474976710656.
Definition maxInt64 : Z := 9223372036854775807.

Definition netOfID (i : Z) : Network := mkNetwork i "ovn" "default" "" ∅.

(** C4 (counterexample).  No certificate, generator and parser make
    [getRouterMAC] return a 6-byte address for every network ID and
    different addresses for different IDs: there are more IDs than
    addresses. *)
Lemma getRouterMAC_collides :
  ~ (exists (Cert Rand : Type) (LoadCert : string -> result Cert)
       (Fingerprint : Cert -> string)
       (GetStableRandomGenerator : string -> result Rand)
       (randomHwaddr : Rand -> string)
       (ParseMAC : string -> result HardwareAddr) (varDir : string),
        let mac (i : Z) :=
          getRouterMAC Cert Rand LoadCert Fingerprint GetStableRandomGenerator
            randomHwaddr ParseMAC varDir (netOfID i) in
        (forall i, (0 <= i <= maxInt64)%Z ->
                   exists m, mac i = Ok m /\ length m = 6%nat)
        /\ (forall i j, (0 <= i <= maxInt64)%Z -> (0 <= j <= maxInt64)%Z ->
                        i <> j -> mac i <> mac j)).
Proof.
  intros (Cert & Rand & LoadCert & Fingerprint & Gen & draw & ParseMAC
          & varDir & Hsix & Hdistinct).
  cbv beta zeta in Hsix, Hdistinct.
  set (f := fun i : N =>
         match getRouterMAC Cert Rand LoadCert Fingerprint Gen draw ParseMAC
                 varDir (netOfID (Z.of_N i)) with
         | Ok m => SetBytes m
         | Err _ => 0
         end).
  assert (Hrange : forall i, i <= macSpace -> (0 <= Z.of_N i <= maxInt64)%Z)
    by (unfold macSpace, maxInt64; intros; lia).
  destruct (pigeonhole macSpace f) as (i & j & Hij & Hj & Hf).
  - intros i Hi. destruct (Hsix _ (Hrange i Hi)) as (m & Hm & Hlen).
    unfold f. rewrite Hm. pose proof (SetBytes_lt m) as Hlt.
    rewrite Hlen in Hlt. exact Hlt.
  - destruct (Hsix _ (Hrange i ltac:(lia))) as (mi & Hmi & Hleni).
    destruct (Hsix _ (Hrange j Hj)) as (mj & Hmj & Hlenj).
    unfold f in Hf. rewrite Hmi, Hmj in Hf.
    apply (Hdistinct (Z.of_N i) (Z.of_N j)); [apply Hrange; lia
                                             | now apply Hrange | lia |].
    rewrite Hmi, Hmj. f_equal.
    rewrite <- (encode_SetBytes mi), <- (encode_SetBytes mj).
    now rewrite Hleni, Hlenj, Hf.
Qed.

(** *** Examples *)

(** A toy generator: the address's last byte is the seed's length. *)
Definition toyDraw (seed : string) : string := seed.
Definition toyParseMAC (s : string) : result HardwareAddr :=
  Ok [byte_of_N 16; byte_of_N 102; byte_of_N 106; x00; x00;
      byte_of_N (N.of_nat (String.length s))].

Definition toyRouterMAC (varDir : string) (n : Network) : result HardwareAddr :=
  getRouterMAC string string (fun dir => Ok "3f7a") (fun c => c)
    (fun seed => Ok seed) toyDraw toyParseMAC varDir n.

Example routerMACSeed_demo :
  routerMACSeed "3f7a" (netOfID 42) = "3f7a.0.42".
Proof. vm_compute. reflexivity. Qed.

Example getRouterMAC_explicit_hwaddr :
  getRouterMAC string string (fun dir => Err "no certificate") (fun c => c)
    (fun seed => Ok seed) toyDraw (fun s => if String.eqb s "10:66:6a:01:02:03"
                                            then Ok [x01] else Err "bad MAC")
    "/var/lib/incus"
    (mkNetwork 3 "ovn" "default" ""
       (<["bridge.hwaddr" := "10:66:6a:01:02:03"]> ∅))
  = Ok [x01].
Proof. vm_compute. reflexivity. Qed.

(** Whether two IDs get different addresses rests with the generator
    alone: the toy one gives networks 42 and 43 the same address. *)
Example getRouterMAC_toy_collision :
  toyRouterMAC "/var/lib/incus" (netOfID 42)
  = toyRouterMAC "/var/lib/incus" (netOfID 43).
Proof. vm_compute. reflexivity. Qed.

(** Network 42 on two servers with the same certificate, and networks 42
    and 43 on one server. *)
Lemma getRouterMAC_stable_witness :
  toyRouterMAC "/var/lib/incus" (netOfID 42)
  = toyRouterMAC "/srv/incus"
      (mkNetwork 42 "other" "tenant" "" (<["ipv4.nat" := "true"]> ∅))
  /\ routerMACSeed "3f7a" (netOfID 42) <> routerMACSeed "3f7a" (netOfID 43).
Proof.
  destruct (getRouterMAC_stable string string (fun dir => Ok "3f7a")
              (fun c => c) (fun seed => Ok seed) toyDraw toyParseMAC
              "/var/lib/incus" "/srv/incus" (netOfID 42)
              (mkNetwork 42 "other" "tenant" "" (<["ipv4.nat" := "true"]> ∅))
              "3f7a" "3f7a") as [Hsame _]; try reflexivity.
  destruct (getRouterMAC_stable string string (fun dir => Ok "3f7a")
              (fun c => c) (fun seed => Ok seed) toyDraw toyParseMAC
              "/var/lib/incus" "/var/lib/incus" (netOfID 42) (netOfID 43)
              "3f7a" "3f7a") as [_ Hseed]; try reflexivity.
  split; [apply Hsame; reflexivity | apply Hseed; discriminate].
Defined.

End RouterMAC.

(** ** BGP export of load-balancer addresses *)

Module BGP.
Import GoNet Net.

(** An exported prefix with its next hop and its owner tag. *)
Record Prefix := mkPrefix {
  prefixNet : IPNet;
  nextHop : IP;
  owner : string
}.

(** Modelled from the spec: the BGP collaborator is not among the
    sources.  The specification gives its interface,
    "AddPrefix(prefix, nextHop, owner), RemovePrefix(prefix, nextHop),
    RemovePrefixByOwner(owner)": the exported prefixes are kept as a list,
    [AddPrefix] adds one and [RemovePrefixByOwner] removes those of an
    owner. *)
Definition AddPrefix (prefix : IPNet) (hop : IP) (bgpOwner : string)
    (st : list Prefix) : list Prefix :=
  st ++ [mkPrefix prefix hop bgpOwner].

Definition RemovePrefixByOwner (bgpOwner : string) (st : list Prefix)
  : list Prefix :=
  List.filter (fun p => negb (String.eqb (owner p) bgpOwner)) st.

(** The cluster database's load-balancer and forward tables: the owning
    network's ID and the listen address of each record. *)
Record DB := mkDB {
  dbLoadBalancers : list (Z * string);
  dbForwards : list (Z * string)
}.

Definition listenAddressesOf (networkID : Z) (rows : list (Z * string))
  : list string :=
  map snd (List.filter (fun r => Z.eqb (fst r) networkID) rows).

(** [strings.Contains(s, ":")]. *)
Fixpoint containsColon (s : string) : bool :=
  match s with
  | EmptyString => false
  | String c rest => Ascii.eqb c ":" || containsColon rest
  end.

Definition bgpOwnerOf (n : Network) : string :=
  "network_" ++ itoaZ (id n) ++ "_load_balancer".

Definition family (ipVersion : N) : string := "ipv" ++ itoa ipVersion.

Definition routeSubnetSize (ipVersion : N) : N :=
  if ipVersion =? 4 then 32 else 128.

Section ExportPrefixes.

(** Parsing and printing, and [util.IsTrue]. *)
Variable parseCIDRText : string -> option (list byte * N).
Variable ParseIP : string -> IP.
Variable IPString : IP -> string.
Variable IsTrue : string -> bool.

(** The next hop of a family ([bgpNextHopAddress]), the northbound load
    balancers and the southbound health check. *)
Variable LoadBalancer : Type.
Variable bgpNextHopAddress : Network -> N -> IP.
Variable GetLoadBalancer : string -> result LoadBalancer.
Variable CheckLoadBalancerOnline : LoadBalancer -> result bool.

(** Failures of the database and of the BGP collaborator. *)
Variable dbError : option string.
Variable removeError : option string.
Variable addError : IPNet -> option string.

(** "Don't export internal address forwards (those inside the NAT
    enabled network's subnet)". *)
Definition insideNATSubnet (n : Network) (ipVersion : N) (listenAddr : IP)
  : bool :=
  IsTrue (cfg (config n) (family ipVersion ++ ".nat"))
  && match ParseCIDR parseCIDRText
             (cfg (config n) (family ipVersion ++ ".address")) with
     | Some (_, netSubnet) => Contains netSubnet listenAddr
     | None => false
     end.

(** "Check health of load-balancer": the TCP object, then the UDP one;
    an object that cannot be read or checked does not count. *)
Definition protocolOnline (n : Network) (listenAddr : IP) (protocol : string)
  : bool :=
  match GetLoadBalancer ("incus-net" ++ itoaZ (id n) ++ "-lb-"
                         ++ IPString listenAddr ++ "-" ++ protocol) with
  | Err _ => false
  | Ok lb =>
      match CheckLoadBalancerOnline lb with
      | Err _ => false
      | Ok lbOnline => lbOnline
      end
  end.

Definition online (n : Network) (listenAddr : IP) : bool :=
  existsb (protocolOnline n listenAddr) ["tcp"; "udp"].

(** The host route of a listen address:
    [net.ParseCIDR(fmt.Sprintf("%s/%d", listenAddr.String(), size))]. *)
Definition hostRoute (ipVersion : N) (listenAddr : IP) : option IPNet :=
  match ParseCIDR parseCIDRText
          (IPString listenAddr ++ "/" ++ itoa (routeSubnetSize ipVersion)) with
  | Some (_, ipRouteSubnet) => Some ipRouteSubnet
  | None => None
  end.

(** The loop over one family's listen addresses. *)
Fixpoint exportFamily (n : Network) (ipVersion : N) (addresses : list string)
    (st : list Prefix) : list Prefix * result unit :=
  match addresses with
  | [] => (st, Ok tt)
  | listenAddress :: rest =>
      let listenAddr := ParseIP listenAddress in
      if insideNATSubnet n ipVersion listenAddr
      then exportFamily n ipVersion rest st
      else if negb (online n listenAddr)
           then exportFamily n ipVersion rest st
           else
             match hostRoute ipVersion listenAddr with
             | None => (st, Err "invalid CIDR address")
             | Some ipRouteSubnet =>
                 match addError ipRouteSubnet with
                 | Some e => (st, Err e)
                 | None =>
                     exportFamily n ipVersion rest
                       (AddPrefix ipRouteSubnet (bgpNextHopAddress n ipVersion)
                          (bgpOwnerOf n) st)
                 end
             end
  end.

(** [loadBalancerBGPSetupPrefixes]. *)
Definition loadBalancerBGPSetupPrefixes (n : Network) (db : DB)
    (st : list Prefix) : list Prefix * result unit :=
  match dbError with
  | Some e => (st, Err ("Failed loading network forwards: " ++ e))
  | None =>
      let listenAddresses := listenAddressesOf (id n) (dbLoadBalancers db) in
      let v4 := List.filter (fun a => negb (containsColon a)) listenAddresses in
      let v6 := List.filter containsColon listenAddresses in
      match removeError with
      | Some e => (st, Err e)
      | None =>
          let st0 := RemovePrefixByOwner (bgpOwnerOf n) st in
          match exportFamily n 4 v4 st0 with
          | (st1, Err e) => (st1, Err e)
          | (st1, Ok _) => exportFamily n 6 v6 st1
          end
      end
  end.

(** *** What is exported *)

(** The listen addresses of a family that qualify: outside a NAT-enabled
    subnet of the network, and online. *)
Definition qualifies (n : Network) (ipVersion : N) (listenAddress : string)
  : bool :=
  negb (insideNATSubnet n ipVersion (ParseIP listenAddress))
  && online n (ParseIP listenAddress).

(** The prefix added for a qualifying listen address. *)
Definition prefixFor (n : Network) (ipVersion : N) (listenAddress : string)
  : option Prefix :=
  match hostRoute ipVersion (ParseIP listenAddress) with
  | Some ipRouteSubnet =>
      Some (mkPrefix ipRouteSubnet (bgpNextHopAddress n ipVersion) (bgpOwnerOf n))
  | None => None
  end.

Definition loadBalancerAddresses (n : Network) (db : DB) (ipVersion : N)
  : list string :=
  List.filter (fun a => Bool.eqb (containsColon a) (ipVersion =? 6))
    (listenAddressesOf (id n) (dbLoadBalancers db)).

Lemma exportFamily_ok (n : Network) (ipVersion : N) (addresses : list string) :
  forall st st',
    exportFamily n ipVersion addresses st = (st', Ok tt) ->
    exists added,
      st' = st ++ added
      /\ Forall2 (fun a p => prefixFor n ipVersion a = Some p)
           (List.filter (qualifies n ipVersion) addresses) added.
Proof.
  induction addresses as [|a rest IH]; intros st st' Hrun.
  - cbn in Hrun. injection Hrun as <-. exists []. split.
    + now rewrite app_nil_r.
    + constructor.
  - cbn [exportFamily List.filter] in *. unfold qualifies at 1.
    destruct (insideNATSubnet n ipVersion (ParseIP a)); cbn [negb andb].
    + now apply IH.
    + destruct (online n (ParseIP a)); cbn [negb] in *.
      * unfold prefixFor in *.
        destruct (hostRoute ipVersion (ParseIP a)) as [r|] eqn:Er;
          [|discriminate].
        destruct (addError r); [discriminate|].
        apply IH in Hrun as (added & -> & Hall). unfold AddPrefix.
        exists (mkPrefix r (bgpNextHopAddress n ipVersion) (bgpOwnerOf n) :: added).
        split; [now rewrite <- app_assoc|].
        constructor; [|exact Hall]. unfold prefixFor. now rewrite Er.
      * now apply IH.
Qed.

Lemma exportFamily_replay (n : Network) (ipVersion : N) (addresses : list string) :
  forall st st' other,
    exportFamily n ipVersion addresses st = (st', Ok tt) ->
    exists added,
      st' = st ++ added
      /\ exportFamily n ipVersion addresses other = (other ++ added, Ok tt)
      /\ Forall (fun p => owner p = bgpOwnerOf n) added.
Proof.
  induction addresses as [|a rest IH]; intros st st' other Hrun.
  - cbn in Hrun. injection Hrun as <-. exists [].
    rewrite !app_nil_r. repeat split. constructor.
  - cbn [exportFamily] in *.
    destruct (insideNATSubnet n ipVersion (ParseIP a)); [now apply IH|].
    destruct (online n (ParseIP a)); cbn [negb] in *; [|now apply IH].
    destruct (hostRoute ipVersion (ParseIP a)) as [r|]; [|discriminate].
    destruct (addError r); [discriminate|].
    apply (IH _ _ (AddPrefix r (bgpNextHopAddress n ipVersion) (bgpOwnerOf n)
                     other)) in Hrun as (added & -> & Hother & Hown).
    unfold AddPrefix in *.
    exists (mkPrefix r (bgpNextHopAddress n ipVersion) (bgpOwnerOf n) :: added).
    rewrite <- !app_assoc in *. repeat split; [exact Hother|].
    constructor; [reflexivity | exact Hown].
Qed.

Lemma RemovePrefixByOwner_idem (bgpOwner : string) (st : list Prefix) :
  RemovePrefixByOwner bgpOwner (RemovePrefixByOwner bgpOwner st)
  = RemovePrefixByOwner bgpOwner st.
Proof.
  unfold RemovePrefixByOwner. induction st as [|p st IH]; [reflexivity|].
  cbn [List.filter]. destruct (negb (String.eqb (owner p) bgpOwner)) eqn:E.
  - cbn [List.filter]. now rewrite E, IH.
  - exact IH.
Qed.

Lemma RemovePrefixByOwner_owned (bgpOwner : string) (added : list Prefix) :
  Forall (fun p => owner p = bgpOwner) added ->
  RemovePrefixByOwner bgpOwner added = [].
Proof.
  unfold RemovePrefixByOwner. induction 1 as [|p added Hp _ IH]; [reflexivity|].
  cbn [List.filter]. now rewrite Hp, String.eqb_refl.
Qed.

Lemma RemovePrefixByOwner_app (bgpOwner : string) (a b : list Prefix) :
  RemovePrefixByOwner bgpOwner (a ++ b)
  = RemovePrefixByOwner bgpOwner a ++ RemovePrefixByOwner bgpOwner b.
Proof. unfold RemovePrefixByOwner. apply List.filter_app. Qed.

(** C8 (as amended).  A successful [loadBalancerBGPSetupPrefixes] leaves
    the prefixes of other owners, in place of those under the network's
    load-balancer owner tag, followed by one host route (/32 for IPv4,
    /128 for IPv6) for every load-balancer listen address of the network
    that is not inside a NAT-enabled subnet of the network and whose
    load balancer is online, and for no other; the forwards of the
    network are not read; and a second run on the outcome changes
    nothing. *)
Theorem loadBalancerBGPSetupPrefixes_exports (n : Network) (db : DB)
    (st st' : list Prefix) :
  loadBalancerBGPSetupPrefixes n db st = (st', Ok tt) ->
  (exists added4 added6,
      st' = RemovePrefixByOwner (bgpOwnerOf n) st ++ added4 ++ added6
      /\ Forall2 (fun a p => prefixFor n 4 a = Some p)
           (List.filter (qualifies n 4) (loadBalancerAddresses n db 4)) added4
      /\ Forall2 (fun a p => prefixFor n 6 a = Some p)
           (List.filter (qualifies n 6) (loadBalancerAddresses n db 6)) added6)
  /\ (forall forwards,
         loadBalancerBGPSetupPrefixes n (mkDB (dbLoadBalancers db) forwards) st
         = (st', Ok tt))
  /\ loadBalancerBGPSetupPrefixes n db st' = (st', Ok tt).
Proof.
  unfold loadBalancerBGPSetupPrefixes, loadBalancerAddresses.
  cbn [dbLoadBalancers].
  destruct dbError; [discriminate|]. destruct removeError; [discriminate|].
  set (addresses := listenAddressesOf (id n) (dbLoadBalancers db)).
  assert (H4 : List.filter (fun a => Bool.eqb (containsColon a) (4 =? 6)) addresses
               = List.filter (fun a => negb (containsColon a)) addresses).
  { apply List.filter_ext. intros a. now destruct (containsColon a). }
  assert (H6 : List.filter (fun a => Bool.eqb (containsColon a) (6 =? 6)) addresses
               = List.filter containsColon addresses).
  { apply List.filter_ext. intros a. now destruct (containsColon a). }
  rewrite H4, H6. clear H4 H6.
  set (v4 := List.filter (fun a => negb (containsColon a)) addresses).
  set (v6 := List.filter containsColon addresses).
  set (st0 := RemovePrefixByOwner (bgpOwnerOf n) st).
  destruct (exportFamily n 4 v4 st0) as [st1 [[]|e]] eqn:E4; [|discriminate].
  intros E6.
  destruct (exportFamily_ok _ _ _ _ _ E4) as (added4 & Hst1 & Hall4).
  destruct (exportFamily_ok _ _ _ _ _ E6) as (added6 & Hst' & Hall6).
  split; [|split].
  - exists added4, added6. subst st' st1. rewrite <- app_assoc. auto.
  - intros _. exact E6.
  - destruct (exportFamily_replay _ _ _ _ _ st0 E4) as (a4 & Ha4 & Hr4 & Ho4).
    destruct (exportFamily_replay _ _ _ _ _ (st0 ++ a4) E6)
      as (a6 & Ha6 & Hr6 & Ho6).
    assert (Hclean : RemovePrefixByOwner (bgpOwnerOf n) st' = st0).
    { rewrite Ha6, Ha4, !RemovePrefixByOwner_app.
      rewrite (RemovePrefixByOwner_owned _ _ Ho4).
      rewrite (RemovePrefixByOwner_owned _ _ Ho6).
      unfold st0. now rewrite RemovePrefixByOwner_idem, !app_nil_r. }
    rewrite Hclean, Hr4, Hr6. now rewrite Ha6, Ha4.
Qed.

(** *** The claim as the specification words it

    "For every load balancer and forward listen address on the network":
    a host route under the owner tag is present after the run exactly
    when the address qualifies. *)
Definition exportsForwardsToo (n : Network) (db : DB) (st : list Prefix) : Prop :=
  forall ipVersion a,
    In a (listenAddressesOf (id n) (dbLoadBalancers db ++ dbForwards db)) ->
    Bool.eqb (containsColon a) (ipVersion =? 6) = true ->
    (qualifies n ipVersion a = true
     <-> exists p, prefixFor n ipVersion a = Some p
                   /\ In p (fst (loadBalancerBGPSetupPrefixes n db st))).

End ExportPrefixes.

(** *** Examples *)

Definition demoCIDR (s : string) : option (list byte * N) :=
  if String.eqb s "10.0.0.1/24" then Some (ipv4 10 0 0 1, 24)
  else if String.eqb s "192.0.2.10/32" then Some (ipv4 192 0 2 10, 32)
  else if String.eqb s "192.0.2.11/32" then Some (ipv4 192 0 2 11, 32)
  else if String.eqb s "10.0.0.50/32" then Some (ipv4 10 0 0 50, 32)
  else None.

Definition demoParseIP (s : string) : IP :=
  if String.eqb s "192.0.2.10" then ipv4_16 192 0 2 10
  else if String.eqb s "192.0.2.11" then ipv4_16 192 0 2 11
  else if String.eqb s "10.0.0.50" then ipv4_16 10 0 0 50
  else [].

Definition demoIPString (ip : IP) : string := dotted (To4 ip).

(** One TCP load balancer object is online, for 192.0.2.10; the one for
    10.0.0.50 is online too, the one for 192.0.2.11 is not. *)
Definition demoGetLoadBalancer (lbName : string) : result string :=
  if String.eqb lbName "incus-net7-lb-192.0.2.10-tcp" then Ok lbName
  else if String.eqb lbName "incus-net7-lb-10.0.0.50-udp" then Ok lbName
  else if String.eqb lbName "incus-net7-lb-192.0.2.11-tcp" then Ok lbName
  else Err "not found".

Definition demoOnline (lb : string) : result bool :=
  Ok (negb (String.eqb lb "incus-net7-lb-192.0.2.11-tcp")).

Definition demoNet : Network :=
  mkNetwork 7 "ovn1" "default" ""
    (<["ipv4.address" := "10.0.0.1/24"]> (<["ipv4.nat" := "true"]> ∅)).

Definition demoSetup (db : DB) (st : list Prefix) : list Prefix * result unit :=
  loadBalancerBGPSetupPrefixes demoCIDR demoParseIP demoIPString
    (fun s => String.eqb s "true") string (fun _ _ => ipv4 198 51 100 1)
    demoGetLoadBalancer demoOnline None None (fun _ => None) demoNet db st.

Definition demoDB : DB :=
  mkDB [(7%Z, "192.0.2.10"); (7%Z, "10.0.0.50"); (7%Z, "192.0.2.11");
        (8%Z, "192.0.2.12")] [].

Definition host (a b c d : N) : IPNet :=
  mkIPNet (ipv4 a b c d) (CIDRMask 32 32).

Definition stale : list Prefix :=
  [ mkPrefix (host 192 0 2 99) (ipv4 198 51 100 1) "network_7_load_balancer";
    mkPrefix (host 203 0 113 5) (ipv4 198 51 100 1) "network_7" ].

Definition fresh : list Prefix :=
  [ mkPrefix (host 203 0 113 5) (ipv4 198 51 100 1) "network_7";
    mkPrefix (host 192 0 2 10) (ipv4 198 51 100 1) "network_7_load_balancer" ].

Example loadBalancerBGPSetupPrefixes_demo : demoSetup demoDB stale = (fresh, Ok tt).
Proof. vm_compute. reflexivity. Qed.

(** C8 (counterexample).  A network with one forward, listening on the
    external address 192.0.2.10 whose OVN load balancer is online, and no
    load balancer: the claim wants a host route for the forward's
    address, the function reads the load balancers only and adds none. *)
Lemma loadBalancerBGPSetupPrefixes_skips_forwards :
  ~ exportsForwardsToo demoCIDR demoParseIP demoIPString
      (fun s => String.eqb s "true") string (fun _ _ => ipv4 198 51 100 1)
      demoGetLoadBalancer demoOnline None None (fun _ => None)
      demoNet (mkDB [] [(7%Z, "192.0.2.10")]) [].
Proof.
  intros Hclaim.
  destruct (Hclaim 4 "192.0.2.10") as [Hadds _].
  - vm_compute. left. reflexivity.
  - vm_compute. reflexivity.
  - destruct Hadds as (p & _ & Hin).
    + vm_compute. reflexivity.
    + vm_compute in Hin. exact Hin.
Qed.

(** A second run on the outcome, and a run with a forward in the
    database, give the same prefixes. *)
Lemma loadBalancerBGPSetupPrefixes_exports_witness :
  demoSetup demoDB fresh = (fresh, Ok tt)
  /\ demoSetup (mkDB (dbLoadBalancers demoDB) [(7%Z, "192.0.2.11")]) stale
     = (fresh, Ok tt).
Proof.
  destruct (loadBalancerBGPSetupPrefixes_exports demoCIDR demoParseIP
              demoIPString (fun s => String.eqb s "true") string
              (fun _ _ => ipv4 198 51 100 1) demoGetLoadBalancer demoOnline
              None None (fun _ => None) demoNet demoDB stale fresh)
    as (_ & Hforwards & Hagain).
  - vm_compute. reflexivity.
  - split; [exact Hagain | apply Hforwards].
Defined.

End BGP.

(** ** Removing an instance NIC port *)

Module PortRemove.
Import GoNet Net NIC.

(** [fmt.Sprintf("%q", s)] for a string without characters to escape. *)
Definition quoted (s : string) : string :=
  String (Ascii.ascii_of_nat 34) (s ++ String (Ascii.ascii_of_nat 34) "").

(** [GetLogicalSwitchPortDNS] returns a non-empty UUID when the port has
    a DNS record. *)
Definition hasPortDNS (port : string) (nb : NB) : bool :=
  existsb (fun e => String.eqb (fst e) port) (portDNS nb).

(** The loop of [InstanceDevicePortRemove] over the reservations: the
    entries for [ip] alone are dropped and [found] records that there
    was one. *)
Fixpoint dropReservation (dhcpReservations : list Range) (ip : IP)
    (found : bool) (dhcpReservationsNew : list Range) : bool * list Range :=
  match dhcpReservations with
  | [] => (found, dhcpReservationsNew)
  | dhcpReservation :: rest =>
      if Equal (Start dhcpReservation) ip
         && match End dhcpReservation with [] => true | _ => false end
      then dropReservation rest ip true dhcpReservationsNew
      else dropReservation rest ip found
             (dhcpReservationsNew ++ [dhcpReservation])
  end.

Section Remove.

Variable ParseIP : string -> IP.
Variable IPString : IP -> string.

(** Failures of the northbound calls. *)
Variable getDNSError : NB -> option string.
Variable getReservationsError : NB -> option string.
Variable updateReservationsError : NB -> option string.
Variable deleteDNSError : NB -> option string.

(** The reservation step, taken when the port has a DNS record. *)
Definition removeReservation (deviceConfig : gmap string string) (nb : NB)
  : NB * result unit :=
  if String.eqb (cfg deviceConfig "ipv4.address") "" then (nb, Ok tt)
  else
    match ParseIP (cfg deviceConfig "ipv4.address") with
    | [] => (nb, Ok tt)
    | ip =>
        match getReservationsError nb with
        | Some e => (nb, Err ("Failed getting DHCPv4 reservations: " ++ e))
        | None =>
            let dhcpReservations := dhcpv4Reservations nb ++ [mkRange ip []] in
            let '(found, dhcpReservationsNew) :=
              dropReservation dhcpReservations ip false [] in
            if found
            then
              match updateReservationsError nb with
              | Some e =>
                  (nb, Err ("Failed removing DHCPv4 reservation for "
                            ++ quoted (IPString ip) ++ ": " ++ e))
              | None => (setReservations dhcpReservationsNew nb, Ok tt)
              end
            else (nb, Ok tt)
        end
    end.

(** [InstanceDevicePortRemove].  The function registers nothing with its
    reverter, so a failure leaves what was written before it. *)
Definition InstanceDevicePortRemove (n : Network)
    (instanceUUID deviceName : string) (deviceConfig : gmap string string)
    (nb : NB) : NB * result unit :=
  let instancePortName := getInstanceDevicePortName n instanceUUID deviceName in
  match getDNSError nb with
  | Some e => (nb, Err e)
  | None =>
      if hasPortDNS instancePortName nb
      then
        match removeReservation deviceConfig nb with
        | (nb1, Err e) => (nb1, Err e)
        | (nb1, Ok _) =>
            match deleteDNSError nb1 with
            | Some e => (nb1, Err ("Failed deleting DNS record: " ++ e))
            | None => (deletePortDNS instancePortName nb1, Ok tt)
            end
        end
      else (nb, Ok tt)
  end.

(** *** What the loop computes *)

Definition reservedFor (ip : IP) (r : Range) : bool :=
  Equal (Start r) ip && single r.

Lemma dropReservation_filter (l : list Range) (ip : IP) :
  forall found acc,
    dropReservation l ip found acc
    = (found || existsb (reservedFor ip) l,
       acc ++ List.filter (fun r => negb (reservedFor ip r)) l).
Proof.
  induction l as [|r l IH]; intros found acc; cbn [dropReservation].
  - cbn. now rewrite orb_false_r, app_nil_r.
  - fold (single r). fold (reservedFor ip r).
    cbn [existsb List.filter].
    destruct (reservedFor ip r); cbn [negb]; rewrite IH.
    + now rewrite orb_true_r.
    + cbn [orb]. now rewrite <- app_assoc.
Qed.

Lemma filter_snoc_reserved (l : list Range) (ip : IP) :
  List.filter (fun r => negb (reservedFor ip r)) (l ++ [mkRange ip []])
  = List.filter (fun r => negb (reservedFor ip r)) l.
Proof.
  rewrite List.filter_app. cbn [List.filter].
  unfold reservedFor at 2, single. cbn [Start End].
  unfold Equal. rewrite Nat.eqb_refl, bytes_eqb_refl. cbn.
  now rewrite app_nil_r.
Qed.

Lemma hasDHCPv4Reservation_dropped (l : list Range) (ip : IP) :
  hasDHCPv4Reservation
    (List.filter (fun r => negb (reservedFor ip r)) l) ip = false.
Proof.
  rewrite hasDHCPv4Reservation_existsb.
  induction l as [|r l IH]; [reflexivity|].
  cbn [List.filter]. destruct (reservedFor ip r) eqn:E; cbn [negb]; [exact IH|].
  cbn [existsb]. fold (reservedFor ip r). now rewrite E, IH.
Qed.

Lemma existsb_filter_false {A} (P Q : A -> bool) (l : list A) :
  existsb P l = false -> existsb P (List.filter Q l) = false.
Proof.
  induction l as [|a l IH]; [reflexivity|]. cbn [existsb List.filter].
  intros H. apply orb_false_iff in H as [Ha Hl].
  destruct (Q a); cbn [existsb]; [rewrite Ha|]; now apply IH.
Qed.

Lemma noDuplicateSingles_filter (Q : Range -> bool) (l : list Range) :
  noDuplicateSingles l = true -> noDuplicateSingles (List.filter Q l) = true.
Proof.
  induction l as [|r l IH]; [reflexivity|].
  cbn [noDuplicateSingles List.filter]. intros H.
  apply andb_true_iff in H as [Hr Hl].
  destruct (Q r); [|now apply IH].
  cbn [noDuplicateSingles]. rewrite IH by assumption. rewrite andb_true_r.
  apply negb_true_iff. apply negb_true_iff in Hr.
  destruct (single r); [|reflexivity]. cbn [andb] in *.
  now apply existsb_filter_false.
Qed.

(** The outcome of the reservation step: the list is left as it was or
    loses exactly its single-address entries for the NIC's address. *)
Lemma removeReservation_outcome (deviceConfig : gmap string string) (nb : NB) :
  let ip := ParseIP (cfg deviceConfig "ipv4.address") in
  let out := removeReservation deviceConfig nb in
  portDNS (fst out) = portDNS nb
  /\ (fst out = nb
      \/ (cfg deviceConfig "ipv4.address" <> "" /\ ip <> [] /\ snd out = Ok tt
          /\ dhcpv4Reservations (fst out)
             = List.filter (fun r => negb (reservedFor ip r))
                           (dhcpv4Reservations nb))).
Proof.
  intros ip out. subst out. unfold removeReservation.
  destruct (String.eqb_spec (cfg deviceConfig "ipv4.address") "") as [E|NE];
    [now split; [|left]|].
  fold ip. destruct ip as [|b t] eqn:Eip; [now split; [|left]|].
  destruct (getReservationsError nb); [now split; [|left]|].
  rewrite dropReservation_filter, filter_snoc_reserved.
  cbn [orb app].
  destruct (existsb _ _); [|now split; [|left]].
  destruct (updateReservationsError nb); [now split; [|left]|].
  cbn [fst snd setReservations portDNS dhcpv4Reservations].
  split; [reflexivity|]. right. repeat split; [exact NE | discriminate].
Qed.

Lemma removeReservation_success (deviceConfig : gmap string string)
    (nb nb1 : NB) :
  let ip := ParseIP (cfg deviceConfig "ipv4.address") in
  cfg deviceConfig "ipv4.address" <> "" ->
  ip <> [] ->
  removeReservation deviceConfig nb = (nb1, Ok tt) ->
  nb1 = setReservations
          (List.filter (fun r => negb (reservedFor ip r))
                       (dhcpv4Reservations nb)) nb.
Proof.
  intros ip Haddr Hip. unfold removeReservation.
  destruct (String.eqb_spec (cfg deviceConfig "ipv4.address") "");
    [contradiction|].
  fold ip. destruct ip as [|b t] eqn:Eip; [contradiction|].
  destruct (getReservationsError nb); [discriminate|].
  rewrite dropReservation_filter, filter_snoc_reserved.
  rewrite existsb_app. cbn [existsb]. unfold reservedFor at 2, single.
  cbn [Start End]. unfold Equal.
  rewrite Nat.eqb_refl, bytes_eqb_refl. cbn [andb orb app].
  rewrite orb_true_r.
  destruct (updateReservationsError nb); [discriminate|].
  intros [= <-]. reflexivity.
Qed.

Lemma hasPortDNS_deleted (port : string) (nb : NB) :
  hasPortDNS port (deletePortDNS port nb) = false.
Proof.
  unfold hasPortDNS, deletePortDNS. cbn [portDNS].
  induction (portDNS nb) as [|e l IH]; [reflexivity|].
  cbn [List.filter]. destruct (String.eqb (fst e) port) eqn:Ee; cbn [negb];
    [exact IH|].
  cbn [existsb]. now rewrite Ee, IH.
Qed.

(** Once [InstanceDevicePortRemove] has succeeded for a port that was
    added with a static IPv4 address, the switch holds no single-address
    reservation for that address, every other reservation is kept in
    its place, and the port's DNS record is gone. *)
Theorem InstanceDevicePortRemove_clears_reservation (n : Network)
    (instanceUUID deviceName : string) (deviceConfig : gmap string string)
    (nb nb' : NB) :
  let port := getInstanceDevicePortName n instanceUUID deviceName in
  let ip := ParseIP (cfg deviceConfig "ipv4.address") in
  hasPortDNS port nb = true ->
  cfg deviceConfig "ipv4.address" <> "" ->
  ip <> [] ->
  InstanceDevicePortRemove n instanceUUID deviceName deviceConfig nb
  = (nb', Ok tt) ->
  hasDHCPv4Reservation (dhcpv4Reservations nb') ip = false
  /\ dhcpv4Reservations nb'
     = List.filter (fun r => negb (Equal (Start r) ip && single r))
                   (dhcpv4Reservations nb)
  /\ hasPortDNS port nb' = false.
Proof.
  intros port ip Hdns Haddr Hip. unfold InstanceDevicePortRemove.
  fold port. rewrite Hdns.
  destruct (getDNSError nb); [discriminate|].
  destruct (removeReservation deviceConfig nb) as [nb1 [[]|e]] eqn:E;
    [|discriminate].
  apply removeReservation_success in E; [|assumption..]. fold ip in E.
  destruct (deleteDNSError nb1); [discriminate|].
  intros [= <-]. subst nb1. cbn [deletePortDNS setReservations dhcpv4Reservations].
  split; [apply hasDHCPv4Reservation_dropped|].
  split; [reflexivity|]. apply hasPortDNS_deleted.
Qed.

(** Whatever its outcome, [InstanceDevicePortRemove] adds no
    reservation and keeps the list free of duplicate single-address
    entries; a port without DNS record leaves the database untouched. *)
Theorem InstanceDevicePortRemove_only_removes (n : Network)
    (instanceUUID deviceName : string) (deviceConfig : gmap string string)
    (nb : NB) :
  let port := getInstanceDevicePortName n instanceUUID deviceName in
  let nb' :=
    fst (InstanceDevicePortRemove n instanceUUID deviceName deviceConfig nb) in
  noDuplicateSingles (dhcpv4Reservations nb) = true ->
  noDuplicateSingles (dhcpv4Reservations nb') = true
  /\ (forall r, In r (dhcpv4Reservations nb') -> In r (dhcpv4Reservations nb))
  /\ (hasPortDNS port nb = false -> nb' = nb).
Proof.
  intros port nb' Hnd. subst nb'. unfold InstanceDevicePortRemove. fold port.
  destruct (getDNSError nb); [now repeat split|].
  destruct (hasPortDNS port nb); [|now repeat split].
  destruct (removeReservation_outcome deviceConfig nb) as [_ Hout].
  cbv zeta in Hout.
  assert (Hres :
    noDuplicateSingles
      (dhcpv4Reservations (fst (removeReservation deviceConfig nb))) = true
    /\ forall r,
         In r (dhcpv4Reservations (fst (removeReservation deviceConfig nb))) ->
         In r (dhcpv4Reservations nb)).
  { destruct Hout as [-> | (_ & _ & _ & ->)]; [now split|].
    split; [now apply noDuplicateSingles_filter|].
    intros r Hr. now apply List.filter_In in Hr. }
  destruct (removeReservation deviceConfig nb) as [nb1 [[]|e]];
    cbn [fst] in Hres; [|now repeat split].
  destruct (deleteDNSError nb1); now repeat split.
Qed.

(** A failed [InstanceDevicePortRemove] keeps the port's DNS record, so
    the removal can be tried again. *)
Theorem InstanceDevicePortRemove_failure_keeps_dns (n : Network)
    (instanceUUID deviceName : string) (deviceConfig : gmap string string)
    (nb nb' : NB) (e : string) :
  InstanceDevicePortRemove n instanceUUID deviceName deviceConfig nb
  = (nb', Err e) ->
  portDNS nb' = portDNS nb.
Proof.
  unfold InstanceDevicePortRemove.
  destruct (getDNSError nb); [now intros [= <- _]|].
  destruct (hasPortDNS _ nb); [|discriminate].
  destruct (removeReservation_outcome deviceConfig nb) as [Hdns _].
  cbv zeta in Hdns.
  destruct (removeReservation deviceConfig nb) as [nb1 [[]|e1]];
    cbn [fst] in Hdns.
  - destruct (deleteDNSError nb1); [|discriminate].
    now intros [= <- _].
  - now intros [= <- _].
Qed.

(** After [InstanceDevicePortAdd] for a NIC whose address had no
    reservation and whose port had no DNS record, a successful
    [InstanceDevicePortRemove] with the same device configuration gives
    back the database as it was. *)
Theorem InstanceDevicePortAdd_then_Remove (n : Network)
    (instanceUUID deviceName : string) (deviceConfig : gmap string string)
    (addDNSError addGetError addUpdateError : NB -> option string)
    (nb nb1 nb2 : NB) :
  let port := getInstanceDevicePortName n instanceUUID deviceName in
  let ip := ParseIP (cfg deviceConfig "ipv4.address") in
  hasPortDNS port nb = false ->
  hasDHCPv4Reservation (dhcpv4Reservations nb) ip = false ->
  InstanceDevicePortAdd ParseIP addDNSError addGetError addUpdateError
    n instanceUUID deviceName deviceConfig nb = (nb1, Ok tt) ->
  InstanceDevicePortRemove n instanceUUID deviceName deviceConfig nb1
  = (nb2, Ok tt) ->
  nb2 = nb.
Proof.
  intros port ip Hdns Hhas Hadd Hrem.
  assert (Hfilter :
    List.filter (fun e => negb (String.eqb (fst e) port)) (portDNS nb)
    = portDNS nb).
  { revert Hdns. unfold hasPortDNS.
    induction (portDNS nb) as [|e l IH]; [reflexivity|].
    cbn [existsb List.filter]. intros H.
    apply orb_false_iff in H as [-> Hl]. cbn [negb]. now rewrite IH. }
  assert (Hkeep :
    List.filter (fun r => negb (reservedFor ip r)) (dhcpv4Reservations nb)
    = dhcpv4Reservations nb).
  { revert Hhas. rewrite hasDHCPv4Reservation_existsb.
    induction (dhcpv4Reservations nb) as [|r l IH]; [reflexivity|].
    cbn [existsb List.filter]. intros H.
    apply orb_false_iff in H as [Hr Hl]. unfold reservedFor at 1.
    rewrite Hr. cbn [negb]. now rewrite IH. }
  assert (Hnb1 :
    portDNS nb1 = (port, ("", [])) :: portDNS nb
    /\ ((cfg deviceConfig "ipv4.address" = "" \/ ip = [])
          /\ dhcpv4Reservations nb1 = dhcpv4Reservations nb
        \/ (cfg deviceConfig "ipv4.address" <> "" /\ ip <> [])
           /\ dhcpv4Reservations nb1
              = dhcpv4Reservations nb ++ [mkRange ip []])).
  { revert Hadd. unfold InstanceDevicePortAdd. fold port.
    destruct (addDNSError nb); [discriminate|].
    destruct (String.eqb_spec (cfg deviceConfig "ipv4.address") "") as [E|NE].
    { intros [= <-]. cbn [setPortDNS portDNS dhcpv4Reservations].
      rewrite Hfilter. split; [reflexivity|]. left. now split; [left|]. }
    fold ip. destruct ip as [|b t] eqn:Eip.
    { intros [= <-]. cbn [setPortDNS portDNS dhcpv4Reservations].
      rewrite Hfilter. split; [reflexivity|]. left. now split; [right|]. }
    destruct (addGetError _); [discriminate|].
    cbn [setPortDNS dhcpv4Reservations]. rewrite Hhas. cbn [negb].
    destruct (addUpdateError _); [discriminate|].
    intros [= <-]. unfold setPortDNS.
    cbn [setReservations portDNS dhcpv4Reservations].
    rewrite Hfilter. split; [reflexivity|]. right. now repeat split. }
  destruct Hnb1 as [Hdns1 Hres1].
  revert Hrem. unfold InstanceDevicePortRemove. fold port.
  destruct (getDNSError nb1); [discriminate|].
  unfold hasPortDNS. rewrite Hdns1. cbn [existsb fst].
  rewrite String.eqb_refl. cbn [orb].
  assert (Hdel : forall nb', portDNS nb' = portDNS nb1 ->
            dhcpv4Reservations nb' = dhcpv4Reservations nb ->
            deletePortDNS port nb' = nb).
  { intros nb' Hd Hr. unfold deletePortDNS. rewrite Hd, Hdns1, Hr.
    cbn [List.filter fst]. rewrite String.eqb_refl. cbn [negb].
    rewrite Hfilter. now destruct nb. }
  destruct Hres1 as [[Hnone Hr1] | [[Haddr Hip] Hr1]].
  - assert (E : removeReservation deviceConfig nb1 = (nb1, Ok tt)).
    { unfold removeReservation. destruct Hnone as [-> | Hnil];
        [reflexivity|].
      destruct (String.eqb _ ""); [reflexivity|]. fold ip. now rewrite Hnil. }
    rewrite E. destruct (deleteDNSError nb1); [discriminate|].
    intros [= <-]. now apply Hdel.
  - destruct (removeReservation deviceConfig nb1) as [nb' [[]|e]] eqn:E;
      [|discriminate].
    apply removeReservation_success in E; [|assumption..]. fold ip in E.
    destruct (deleteDNSError nb'); [discriminate|].
    intros [= <-]. apply Hdel; subst nb'; cbn [setReservations portDNS
      dhcpv4Reservations]; [reflexivity|].
    rewrite Hr1, filter_snoc_reserved. exact Hkeep.
Qed.

End Remove.

(** *** Examples *)

Definition demoIPString (ip : IP) : string := dotted (To4 ip).

Definition demoDevice (address : string) : gmap string string :=
  <["ipv4.address" := address]> ∅.

Definition demoRemove (address : string) (nb : NB) : NB * result unit :=
  InstanceDevicePortRemove demoParseIP demoIPString noFailure noFailure
    noFailure noFailure demoNet "c0ffee" "eth0" (demoDevice address) nb.

(** The demo switch once the NIC with address 10.0.0.9 has been added. *)
Definition added : NB := fst (demoAdd "10.0.0.9" demoNB).

Example InstanceDevicePortRemove_after_add :
  demoRemove "10.0.0.9" added = (demoNB, Ok tt).
Proof. vm_compute. reflexivity. Qed.

(** The router's own reservation goes when a NIC configured with the
    router's address is removed. *)
Example InstanceDevicePortRemove_foreign_reservation :
  dhcpv4Reservations (fst (demoRemove "10.0.0.1" (fst (demoAdd "10.0.0.1" demoNB))))
  = [ mkRange (ipv4 10 0 0 254) [];
      mkRange (ipv4_16 10 0 0 100) (ipv4_16 10 0 0 200) ].
Proof. vm_compute. reflexivity. Qed.

Example InstanceDevicePortRemove_never_added :
  demoRemove "10.0.0.1" demoNB = (demoNB, Ok tt).
Proof. vm_compute. reflexivity. Qed.

Lemma InstanceDevicePortRemove_clears_reservation_witness :
  hasDHCPv4Reservation
    (dhcpv4Reservations (fst (demoRemove "10.0.0.9" added)))
    (ipv4_16 10 0 0 9) = false.
Proof.
  pose proof (InstanceDevicePortRemove_clears_reservation demoParseIP
                demoIPString noFailure noFailure noFailure noFailure demoNet
                "c0ffee" "eth0" (demoDevice "10.0.0.9") added
                (fst (demoRemove "10.0.0.9" added))) as H.
  cbv zeta in H. destruct H as (H & _ & _).
  - vm_compute. reflexivity.
  - vm_compute. discriminate.
  - vm_compute. discriminate.
  - vm_compute. reflexivity.
  - exact H.
Defined.

Lemma InstanceDevicePortRemove_only_removes_witness :
  noDuplicateSingles
    (dhcpv4Reservations (fst (demoRemove "10.0.0.9" added))) = true.
Proof.
  pose proof (InstanceDevicePortRemove_only_removes demoParseIP demoIPString
                noFailure noFailure noFailure noFailure demoNet
                "c0ffee" "eth0" (demoDevice "10.0.0.9") added) as H.
  cbv zeta in H. destruct H as (H & _ & _).
  - vm_compute. reflexivity.
  - exact H.
Defined.

(** The DNS record cannot be deleted: the reservation is gone, the
    record stays. *)
Definition deleteFails (nb : NB) : option string := Some "timeout".

Lemma InstanceDevicePortRemove_failure_keeps_dns_witness :
  portDNS
    (fst (InstanceDevicePortRemove demoParseIP demoIPString noFailure
            noFailure noFailure deleteFails demoNet "c0ffee" "eth0"
            (demoDevice "10.0.0.9") added))
  = portDNS added.
Proof.
  apply (InstanceDevicePortRemove_failure_keeps_dns demoParseIP demoIPString
           noFailure noFailure noFailure deleteFails demoNet "c0ffee" "eth0"
           (demoDevice "10.0.0.9") added _ "Failed deleting DNS record: timeout").
  vm_compute. reflexivity.
Defined.

Lemma InstanceDevicePortAdd_then_Remove_witness :
  fst (demoRemove "10.0.0.9" added) = demoNB.
Proof.
  apply (InstanceDevicePortAdd_then_Remove demoParseIP demoIPString noFailure
           noFailure noFailure noFailure demoNet "c0ffee" "eth0"
           (demoDevice "10.0.0.9") noFailure noFailure noFailure
           demoNB added).
  - vm_compute. reflexivity.
  - vm_compute. reflexivity.
  - vm_compute. reflexivity.
  - vm_compute. reflexivity.
Defined.

End PortRemove.

(** ** Choosing the uplink network *)

Module UplinkChoice.
Import PortRemove(quoted).

(** The fields of [api.Network] read here. *)
Record ApiNetwork := mkApiNetwork { Name : string; Type_ : string }.

Definition errNoAllowedUplinks : string :=
  "No allowed uplink networks in project".

Definition errNetworkRequired : string :=
  "Option " ++ quoted "network" ++ " is required".

Definition errNotAllowed (uplinkNetworkName : string) : string :=
  "Option " ++ quoted "network" ++ " value " ++ quoted uplinkNetworkName
  ++ " is not one of the allowed uplink networks in project".

(** [slices.Contains] on strings. *)
Definition contains (l : list string) (s : string) : bool :=
  existsb (String.eqb s) l.

Section Allowed.

Variable IsFalseOrEmpty : string -> bool.

(** [util.SplitNTrimSpace(s, ",", -1, false)]. *)
Variable SplitNTrimSpace : string -> list string.

(** [tx.GetCreatedNetworksByProject(ctx, api.ProjectDefaultName)]. *)
Variable GetCreatedNetworksByProject : result (list ApiNetwork).

(** The first loop: the names of the bridge and physical networks. *)
Fixpoint compatibleNames (networks : list ApiNetwork)
    (uplinkNetworkNames : list string) : list string :=
  match networks with
  | [] => uplinkNetworkNames
  | network :: rest =>
      if String.eqb (Type_ network) "bridge"
         || String.eqb (Type_ network) "physical"
      then compatibleNames rest (uplinkNetworkNames ++ [Name network])
      else compatibleNames rest uplinkNetworkNames
  end.

(** The second loop: the restricted uplinks that are defined networks. *)
Fixpoint presentUplinks (allowedRestrictedUplinks uplinkNetworkNames
    allowedUplinkNetworkNames : list string) : list string :=
  match allowedRestrictedUplinks with
  | [] => allowedUplinkNetworkNames
  | allowedRestrictedUplink :: rest =>
      if contains uplinkNetworkNames allowedRestrictedUplink
      then presentUplinks rest uplinkNetworkNames
             (allowedUplinkNetworkNames ++ [allowedRestrictedUplink])
      else presentUplinks rest uplinkNetworkNames allowedUplinkNetworkNames
  end.

Definition allowedUplinkNetworks (pConfig : gmap string string)
  : result (list string) :=
  let* networks :=
    wrap "Failed getting uplink networks" GetCreatedNetworksByProject in
  let uplinkNetworkNames := compatibleNames networks [] in
  if IsFalseOrEmpty (cfg pConfig "restricted") then Ok uplinkNetworkNames
  else if String.eqb (cfg pConfig "restricted.networks.uplinks") "" then Ok []
  else
    let allowedRestrictedUplinks :=
      SplitNTrimSpace (cfg pConfig "restricted.networks.uplinks") in
    Ok (presentUplinks allowedRestrictedUplinks uplinkNetworkNames []).

Definition validateUplinkNetwork (pConfig : gmap string string)
    (uplinkNetworkName : string) : result string :=
  let* allowedUplinkNetworks := allowedUplinkNetworks pConfig in
  if negb (String.eqb uplinkNetworkName "")
  then
    if negb (contains allowedUplinkNetworks uplinkNetworkName)
    then Err (errNotAllowed uplinkNetworkName)
    else Ok uplinkNetworkName
  else
    match allowedUplinkNetworks with
    | [] => Err errNoAllowedUplinks
    | [only] => Ok only
    | _ => Err errNetworkRequired
    end.

(** *** What the loops compute *)

Definition compatible (network : ApiNetwork) : bool :=
  String.eqb (Type_ network) "bridge" || String.eqb (Type_ network) "physical".

Lemma contains_In (l : list string) (s : string) :
  contains l s = true <-> In s l.
Proof.
  unfold contains. rewrite existsb_exists. split.
  - intros (x & Hx & E). apply String.eqb_eq in E. now subst.
  - intros H. exists s. split; [exact H | apply String.eqb_refl].
Qed.

Lemma compatibleNames_filter (networks : list ApiNetwork) :
  forall acc,
    compatibleNames networks acc
    = acc ++ map Name (List.filter compatible networks).
Proof.
  induction networks as [|network rest IH]; intros acc;
    cbn [compatibleNames List.filter map].
  - now rewrite app_nil_r.
  - fold (compatible network). destruct (compatible network); rewrite IH.
    + cbn [map]. now rewrite <- app_assoc.
    + reflexivity.
Qed.

Lemma presentUplinks_filter (l names : list string) :
  forall acc,
    presentUplinks l names acc = acc ++ List.filter (contains names) l.
Proof.
  induction l as [|x l IH]; intros acc; cbn [presentUplinks List.filter].
  - now rewrite app_nil_r.
  - destruct (contains names x); rewrite IH.
    + now rewrite <- app_assoc.
    + reflexivity.
Qed.

(** The allowed uplinks are the bridge and physical networks of the
    default project and, in a restricted project, only those listed in
    [restricted.networks.uplinks]. *)
Theorem allowedUplinkNetworks_membership (pConfig : gmap string string)
    (networks : list ApiNetwork) (allowed : list string) :
  GetCreatedNetworksByProject = Ok networks ->
  allowedUplinkNetworks pConfig = Ok allowed ->
  forall x,
    In x allowed
    <-> (exists network,
           In network networks /\ Name network = x
           /\ (Type_ network = "bridge" \/ Type_ network = "physical"))
        /\ (IsFalseOrEmpty (cfg pConfig "restricted") = true
            \/ (cfg pConfig "restricted.networks.uplinks" <> ""
                /\ In x (SplitNTrimSpace
                           (cfg pConfig "restricted.networks.uplinks")))).
Proof.
  intros Hnets. unfold allowedUplinkNetworks. rewrite Hnets. cbn [wrap rbind].
  rewrite compatibleNames_filter. cbn [app].
  assert (Hcompat : forall x,
    In x (map Name (List.filter compatible networks))
    <-> exists network,
          In network networks /\ Name network = x
          /\ (Type_ network = "bridge" \/ Type_ network = "physical")).
  { intros x. rewrite in_map_iff. split.
    - intros (network & <- & Hin). apply List.filter_In in Hin as [Hin Hc].
      exists network. repeat split; [exact Hin|].
      unfold compatible in Hc. apply orb_true_iff in Hc.
      now rewrite !String.eqb_eq in Hc.
    - intros (network & Hin & <- & Hty). exists network.
      split; [reflexivity|]. apply List.filter_In. split; [exact Hin|].
      unfold compatible. apply orb_true_iff. now rewrite !String.eqb_eq. }
  destruct (IsFalseOrEmpty (cfg pConfig "restricted")) eqn:Er.
  - intros [= <-] x. rewrite Hcompat. split; [intros H; split; auto | tauto].
  - destruct (String.eqb_spec (cfg pConfig "restricted.networks.uplinks") "")
      as [E|NE].
    + intros [= <-] x. split; [intros []|].
      intros [_ [H | [H _]]]; [discriminate | contradiction].
    + intros [= <-] x. rewrite presentUplinks_filter. cbn [app].
      rewrite List.filter_In, contains_In, Hcompat. split.
      * intros [Hin Hex]. split; [exact Hex|]. right. now split.
      * intros [Hex [H | [_ Hin]]]; [discriminate|]. now split.
Qed.

(** [validateUplinkNetwork] only ever returns an allowed uplink: the
    requested one when it is allowed, and for an empty request the one
    allowed uplink when there is exactly one. *)
Theorem validateUplinkNetwork_chosen (pConfig : gmap string string)
    (uplinkNetworkName chosen : string) :
  validateUplinkNetwork pConfig uplinkNetworkName = Ok chosen
  <-> exists allowed,
        allowedUplinkNetworks pConfig = Ok allowed
        /\ In chosen allowed
        /\ (uplinkNetworkName <> "" /\ chosen = uplinkNetworkName
            \/ uplinkNetworkName = "" /\ allowed = [chosen]).
Proof.
  unfold validateUplinkNetwork.
  destruct (allowedUplinkNetworks pConfig) as [allowed|e]; cbn [rbind].
  2:{ split; [discriminate | now intros (a & [=] & _)]. }
  destruct (String.eqb_spec uplinkNetworkName "") as [E|NE]; cbn [negb].
  - split.
    + destruct allowed as [|only [|]]; try discriminate.
      intros [= <-]. exists [only]. repeat split; [now left | now right].
    + intros (a & [= <-] & _ & [[H _] | [_ ->]]); [contradiction|reflexivity].
  - destruct (contains allowed uplinkNetworkName) eqn:Ec; cbn [negb].
    + split.
      * intros [= <-]. exists allowed. repeat split;
          [now apply contains_In | now left].
      * intros (a & _ & _ & [[_ ->] | [H _]]); [reflexivity|contradiction].
    + split; [discriminate|].
      intros (a & [= <-] & Hin & [[_ ->] | [H _]]); [|contradiction].
      apply contains_In in Hin. congruence.
Qed.

End Allowed.

(** *** Examples *)

Definition demoNetworks : list ApiNetwork :=
  [ mkApiNetwork "br0" "bridge"; mkApiNetwork "ovn1" "ovn";
    mkApiNetwork "phys0" "physical" ].

Definition demoIsFalseOrEmpty (s : string) : bool :=
  String.eqb s "" || String.eqb s "false".

Definition demoSplit (s : string) : list string :=
  if String.eqb s "phys0,missing" then ["phys0"; "missing"] else [s].

Definition restrictedProject : gmap string string :=
  <["restricted" := "true"]>
    (<["restricted.networks.uplinks" := "phys0,missing"]> ∅).

Definition demoValidateUplink :=
  validateUplinkNetwork demoIsFalseOrEmpty demoSplit (Ok demoNetworks).

Example allowedUplinkNetworks_unrestricted :
  allowedUplinkNetworks demoIsFalseOrEmpty demoSplit (Ok demoNetworks) ∅
  = Ok ["br0"; "phys0"].
Proof. vm_compute. reflexivity. Qed.

Example validateUplinkNetwork_selects_the_only_one :
  demoValidateUplink restrictedProject "" = Ok "phys0".
Proof. vm_compute. reflexivity. Qed.

Example validateUplinkNetwork_needs_a_choice :
  demoValidateUplink ∅ "" = Err errNetworkRequired.
Proof. vm_compute. reflexivity. Qed.

Example validateUplinkNetwork_refuses_unlisted :
  demoValidateUplink restrictedProject "br0" = Err (errNotAllowed "br0").
Proof. vm_compute. reflexivity. Qed.

Example validateUplinkNetwork_restricted_without_list :
  demoValidateUplink (<["restricted" := "true"]> ∅) "br0"
  = Err (errNotAllowed "br0").
Proof. vm_compute. reflexivity. Qed.

Lemma allowedUplinkNetworks_membership_witness :
  In "phys0" ["phys0"]
  <-> (exists network,
         In network demoNetworks /\ Name network = "phys0"
         /\ (Type_ network = "bridge" \/ Type_ network = "physical"))
      /\ (demoIsFalseOrEmpty (cfg restrictedProject "restricted") = true
          \/ (cfg restrictedProject "restricted.networks.uplinks" <> ""
              /\ In "phys0"
                   (demoSplit
                      (cfg restrictedProject "restricted.networks.uplinks")))).
Proof.
  apply (allowedUplinkNetworks_membership demoIsFalseOrEmpty demoSplit
           (Ok demoNetworks) restrictedProject demoNetworks ["phys0"]).
  - reflexivity.
  - vm_compute. reflexivity.
Defined.

End UplinkChoice.

(** ** The local chassis *)

Module Chassis.
Import Net.
Import PortRemove(quoted).

(** The fields of [db.NodeInfo] read here. *)
Record NodeInfo := mkNodeInfo { ID : Z; Roles : list string }.

Section ChassisEnabled.

(** [db.ClusterRoleOVNChassis]. *)
Variable ClusterRoleOVNChassis : string.

(** [LoadByName(n.state, api.ProjectDefaultName, name)], giving the type
    of the uplink network. *)
Variable LoadByName : string -> result string.

(** [tx.GetNodeID()] and [tx.GetNodes(ctx)]. *)
Variable GetNodeID : Z.
Variable GetNodes : result (list NodeInfo).

Definition hasRole (member : NodeInfo) : bool :=
  existsb (String.eqb ClusterRoleOVNChassis) (Roles member).

(** The loop over the members, from the value of [enableChassis] on
    entry to its value on exit. *)
Fixpoint enableChassisLoop (members : list NodeInfo) (memberID enableChassis : Z) : Z :=
  match members with
  | [] => enableChassis
  | member :: rest =>
      if hasRole member
      then if (ID member =? memberID)%Z then 1%Z
           else enableChassisLoop rest memberID 0%Z
      else enableChassisLoop rest memberID enableChassis
  end.

Definition chassisEnabled (n : Network) : result bool :=
  if String.eqb (cfg (config n) "network") "none" then Ok false
  else
    match LoadByName (cfg (config n) "network") with
    | Err e =>
        Err ("Failed loading uplink network "
             ++ quoted (cfg (config n) "network") ++ ": " ++ e)
    | Ok uplinkType =>
        if String.eqb (cfg (config n) "parent") "none"
           && String.eqb uplinkType "physical"
        then Ok false
        else
          let* members := wrap "Failed getting cluster members" GetNodes in
          Ok (negb (enableChassisLoop members GetNodeID (-1) =? 0)%Z)
    end.

(** *** The decision *)

Definition localWithRole (member : NodeInfo) : bool :=
  hasRole member && (ID member =? GetNodeID)%Z.

Lemma enableChassisLoop_outcome (members : list NodeInfo) :
  forall enableChassis,
    enableChassisLoop members GetNodeID enableChassis
    = if existsb localWithRole members then 1%Z
      else if existsb hasRole members then 0%Z
           else enableChassis.
Proof.
  induction members as [|member rest IH]; intros enableChassis;
    cbn [enableChassisLoop existsb]; [reflexivity|].
  unfold localWithRole at 1.
  destruct (hasRole member); cbn [andb orb].
  - destruct (ID member =? GetNodeID)%Z; cbn [orb]; [reflexivity|].
    rewrite IH. now destruct (existsb localWithRole rest), (existsb hasRole rest).
  - apply IH.
Qed.

(** With an uplink that takes a chassis, the local server is a chassis
    exactly when it has the chassis role or no server has it. *)
Theorem chassisEnabled_by_role (n : Network) (uplinkType : string)
    (members : list NodeInfo) :
  cfg (config n) "network" <> "none" ->
  LoadByName (cfg (config n) "network") = Ok uplinkType ->
  ~ (cfg (config n) "parent" = "none" /\ uplinkType = "physical") ->
  GetNodes = Ok members ->
  exists enabled,
    chassisEnabled n = Ok enabled
    /\ (enabled = true
        <-> (exists member,
               In member members /\ hasRole member = true
               /\ ID member = GetNodeID)
            \/ (forall member, In member members -> hasRole member = false)).
Proof.
  intros Hnet Hload Hparent Hnodes. unfold chassisEnabled.
  destruct (String.eqb_spec (cfg (config n) "network") "none");
    [contradiction|].
  rewrite Hload.
  destruct (String.eqb_spec (cfg (config n) "parent") "none") as [Ep|NEp],
           (String.eqb_spec uplinkType "physical") as [Et|NEt]; cbn [andb];
    try (exfalso; apply Hparent; now split).
  all: rewrite Hnodes; cbn [wrap rbind]; eexists; (split; [reflexivity|]).
  all: rewrite enableChassisLoop_outcome.
  all: destruct (existsb localWithRole members) eqn:El.
  all: try (split; [intros _; left | reflexivity];
            apply existsb_exists in El as (member & Hin & Hm);
            apply andb_true_iff in Hm as [Hr Hid];
            exists member; repeat split; [exact Hin | exact Hr | lia]).
  all: destruct (existsb hasRole members) eqn:Er.
  all: try (split; [discriminate|]; intros [(member & Hin & Hr & Hid) | Hnone];
            [ assert (existsb localWithRole members = true) as Hc
                by (apply existsb_exists; exists member; split; [exact Hin|];
                    unfold localWithRole; rewrite Hr; cbn [andb]; lia);
              congruence
            | apply existsb_exists in Er as (member & Hin & Hr);
              rewrite (Hnone member Hin) in Hr; discriminate ]).
  all: split; [intros _; right | reflexivity].
  all: intros member Hin; destruct (hasRole member) eqn:Hr; [|reflexivity].
  all: assert (existsb hasRole members = true) as Hc
         by (apply existsb_exists; exists member; now split).
  all: congruence.
Qed.

End ChassisEnabled.

(** *** Examples *)

Definition demoLoad (name : string) : result string :=
  if String.eqb name "uplink0" then Ok "physical" else Err "not found".

Definition demoNet : Network :=
  mkNetwork 7 "ovn1" "default" "" (<["network" := "uplink0"]> ∅).

Definition demoMembers : list NodeInfo :=
  [ mkNodeInfo 1 ["database"]; mkNodeInfo 2 ["ovn-chassis"];
    mkNodeInfo 3 ["database"; "ovn-chassis"] ].

Example chassisEnabled_local_role :
  chassisEnabled "ovn-chassis" demoLoad 3 (Ok demoMembers) demoNet = Ok true.
Proof. vm_compute. reflexivity. Qed.

Example chassisEnabled_other_role :
  chassisEnabled "ovn-chassis" demoLoad 1 (Ok demoMembers) demoNet = Ok false.
Proof. vm_compute. reflexivity. Qed.

Example chassisEnabled_no_role :
  chassisEnabled "ovn-chassis" demoLoad 1 (Ok [mkNodeInfo 1 []; mkNodeInfo 2 []])
    demoNet = Ok true.
Proof. vm_compute. reflexivity. Qed.

Lemma chassisEnabled_by_role_witness :
  chassisEnabled "ovn-chassis" demoLoad 1 (Ok demoMembers) demoNet <> Ok true.
Proof.
  destruct (chassisEnabled_by_role "ovn-chassis" demoLoad 1 (Ok demoMembers)
              demoNet "physical" demoMembers) as (enabled & Hrun & _).
  - vm_compute. discriminate.
  - vm_compute. reflexivity.
  - vm_compute. intros [H _]. discriminate.
  - reflexivity.
  - vm_compute in Hrun. injection Hrun as <-. vm_compute. discriminate.
Defined.

End Chassis.

(** ** External subnets *)

Module ExternalSubnet.
Import GoNet.
Import PortRemove(quoted).

(** [strings.SplitN(s, ":", 2)]: the text before and after the first
    colon, [None] when there is no colon (a single part). *)
Fixpoint splitColon (s : string) : option (string * string) :=
  match s with
  | EmptyString => None
  | String c rest =>
      if Ascii.eqb c ":"%char then Some (EmptyString, rest)
      else
        match splitColon rest with
        | Some (before, after) => Some (String c before, after)
        | None => None
        end
  end.

Section ValidateExternalSubnet.

Variable parseCIDRText : string -> option (list byte * N).

(** The error text of a failed [net.ParseCIDR]. *)
Variable parseCIDRError : string -> string.

Variable IsTrue : string -> bool.

(** [util.SplitNTrimSpace(s, ",", -1, false)]. *)
Variable SplitNTrimSpace : string -> list string.

(** [SubnetContains(outer, inner)] and
    [SubnetParseAppend(subnets, util.SplitNTrimSpace(s, ",", -1, false)...)]. *)
Variable SubnetContains : IPNet -> IPNet -> bool.
Variable SubnetParseAppend : list IPNet -> string -> result (list IPNet).

(** [ipNet.String()]. *)
Variable IPNetString : IPNet -> string.

Fixpoint uplinkRoutesOf (keys : list string) (uplinkConfig : gmap string string)
    (uplinkRoutes : list IPNet) : result (list IPNet) :=
  match keys with
  | [] => Ok uplinkRoutes
  | k :: rest =>
      if String.eqb (cfg uplinkConfig k) "" then
        uplinkRoutesOf rest uplinkConfig uplinkRoutes
      else
        let* uplinkRoutes := SubnetParseAppend uplinkRoutes (cfg uplinkConfig k) in
        uplinkRoutesOf rest uplinkConfig uplinkRoutes
  end.

Definition uplinkRoutes (uplinkConfig : gmap string string)
  : result (list IPNet) :=
  uplinkRoutesOf ["ipv4.routes"; "ipv6.routes"] uplinkConfig [].

Definition errSubnetFormat (subnetRaw : string) : string :=
  "Project subnet " ++ quoted subnetRaw
  ++ " invalid, must be in the format of "
  ++ quoted "<uplink network>:<subnet>".

Fixpoint restrictedSubnetsOf (subnetsRaw : list string)
    (uplinkNetworkName : string) (projectRestrictedSubnets : list IPNet)
  : result (list IPNet) :=
  match subnetsRaw with
  | [] => Ok projectRestrictedSubnets
  | subnetRaw :: rest =>
      match splitColon subnetRaw with
      | None => Err (errSubnetFormat subnetRaw)
      | Some (subnetUplinkName, subnetStr) =>
          if negb (String.eqb subnetUplinkName uplinkNetworkName)
          then restrictedSubnetsOf rest uplinkNetworkName
                 projectRestrictedSubnets
          else
            match ParseCIDR parseCIDRText subnetStr with
            | None => Err (parseCIDRError subnetStr)
            | Some (_, restrictedSubnet) =>
                restrictedSubnetsOf rest uplinkNetworkName
                  (projectRestrictedSubnets ++ [restrictedSubnet])
            end
      end
  end.

(** [projectRestrictedSubnets]: [None] is the nil slice (no
    restriction), [Some []] the empty one (no allowed subnet). *)
Definition projectRestrictedSubnets (pConfig : gmap string string)
    (uplinkNetworkName : string) : result (option (list IPNet)) :=
  if IsTrue (cfg pConfig "restricted")
     && negb (String.eqb (cfg pConfig "restricted.networks.subnets") "")
  then
    let* subnets :=
      restrictedSubnetsOf
        (SplitNTrimSpace (cfg pConfig "restricted.networks.subnets"))
        uplinkNetworkName [] in
    Ok (Some subnets)
  else Ok None.

Definition errNotRestricted (ipNet : IPNet) : string :=
  "Project doesn't contain " ++ quoted (IPNetString ipNet)
  ++ " in its restricted uplink subnets".

Definition errMasksGateway (ipNet : IPNet) : string :=
  "Requested subnet " ++ quoted (IPNetString ipNet)
  ++ " would mask the uplink gateway".

Definition errNotRouted (ipNet : IPNet) : string :=
  "Uplink network doesn't contain " ++ quoted (IPNetString ipNet)
  ++ " in its routes".

(** The address or, failing that, the gateway of the uplink. *)
Definition uplinkCIDR (uplinkConfig : gmap string string) (family : string)
  : string :=
  if String.eqb (cfg uplinkConfig (family ++ ".address")) ""
  then cfg uplinkConfig (family ++ ".gateway")
  else cfg uplinkConfig (family ++ ".address").

Definition validateExternalSubnet (uplinkConfig : gmap string string)
    (projectRestrictedSubnets : option (list IPNet)) (ipNet : IPNet)
  : result unit :=
  check (match projectRestrictedSubnets with
         | Some subnets =>
             if existsb (fun projectRestrictedSubnet =>
                           SubnetContains projectRestrictedSubnet ipNet) subnets
             then Ok tt
             else Err (errNotRestricted ipNet)
         | None => Ok tt
         end) in
  let* uplinkRoutes := uplinkRoutes uplinkConfig in
  if existsb (fun uplinkRoute => SubnetContains uplinkRoute ipNet) uplinkRoutes
  then Ok tt
  else
    let uplinkIPv4 := ParseCIDR parseCIDRText (uplinkCIDR uplinkConfig "ipv4") in
    let uplinkIPv6 := ParseCIDR parseCIDRText (uplinkCIDR uplinkConfig "ipv6") in
    let within (parsed : option (IP * IPNet)) : bool :=
      match parsed with
      | Some (_, uplinkNet) => SubnetContains uplinkNet ipNet
      | None => false
      end in
    let gateway (parsed : option (IP * IPNet)) : IP :=
      match parsed with
      | Some (ip, _) => ip
      | None => []
      end in
    if within uplinkIPv4 then
      if Contains ipNet (gateway uplinkIPv4) then Err (errMasksGateway ipNet)
      else Ok tt
    else if within uplinkIPv6 then
      if Contains ipNet (gateway uplinkIPv6) then Err (errMasksGateway ipNet)
      else Ok tt
    else Err (errNotRouted ipNet).

(** *** What is accepted *)

(** An accepted subnet lies within one of the project's restricted
    subnets, if the project has any restriction, and is covered by an
    uplink route or lies within the uplink's own network without
    covering the uplink's gateway address. *)
Theorem validateExternalSubnet_accepted (uplinkConfig : gmap string string)
    (restricted : option (list IPNet)) (ipNet : IPNet) :
  validateExternalSubnet uplinkConfig restricted ipNet = Ok tt ->
  (forall subnets, restricted = Some subnets ->
     exists subnet, In subnet subnets /\ SubnetContains subnet ipNet = true)
  /\ exists routes,
       uplinkRoutes uplinkConfig = Ok routes
       /\ ((exists route, In route routes /\ SubnetContains route ipNet = true)
           \/ exists family gateway uplinkNet,
                (family = "ipv4" \/ family = "ipv6")
                /\ ParseCIDR parseCIDRText (uplinkCIDR uplinkConfig family)
                   = Some (gateway, uplinkNet)
                /\ SubnetContains uplinkNet ipNet = true
                /\ Contains ipNet gateway = false).
Proof.
  unfold validateExternalSubnet. intros H.
  assert (Hr : forall subnets, restricted = Some subnets ->
            exists subnet, In subnet subnets
                           /\ SubnetContains subnet ipNet = true).
  { intros subnets ->. cbn [rbind] in H.
    destruct (existsb _ subnets) eqn:E; [|discriminate].
    apply existsb_exists in E. exact E. }
  split; [exact Hr|].
  assert (H' :
    (let* routes := uplinkRoutes uplinkConfig in
     if existsb (fun uplinkRoute => SubnetContains uplinkRoute ipNet) routes
     then Ok tt
     else
       if match ParseCIDR parseCIDRText (uplinkCIDR uplinkConfig "ipv4") with
          | Some (_, uplinkNet) => SubnetContains uplinkNet ipNet
          | None => false
          end
       then
         if Contains ipNet
              match ParseCIDR parseCIDRText (uplinkCIDR uplinkConfig "ipv4") with
              | Some (ip, _) => ip
              | None => []
              end
         then Err (errMasksGateway ipNet) else Ok tt
       else
         if match ParseCIDR parseCIDRText (uplinkCIDR uplinkConfig "ipv6") with
            | Some (_, uplinkNet) => SubnetContains uplinkNet ipNet
            | None => false
            end
         then
           if Contains ipNet
                match ParseCIDR parseCIDRText (uplinkCIDR uplinkConfig "ipv6") with
                | Some (ip, _) => ip
                | None => []
                end
           then Err (errMasksGateway ipNet) else Ok tt
         else Err (errNotRouted ipNet)) = Ok tt).
  { destruct restricted as [subnets|]; cbn [rbind] in H; [|exact H].
    destruct (existsb _ subnets); [exact H | discriminate]. }
  clear H Hr.
  destruct (uplinkRoutes uplinkConfig) as [routes|e]; cbn [rbind] in H';
    [|discriminate].
  exists routes. split; [reflexivity|].
  destruct (existsb _ routes) eqn:Eroute.
  { left. apply existsb_exists in Eroute. exact Eroute. }
  right.
  destruct (ParseCIDR parseCIDRText (uplinkCIDR uplinkConfig "ipv4"))
    as [[gw4 net4]|] eqn:E4.
  - destruct (SubnetContains net4 ipNet) eqn:Ein4.
    + destruct (Contains ipNet gw4) eqn:Egw; [discriminate|].
      exists "ipv4", gw4, net4. repeat split; auto.
    + destruct (ParseCIDR parseCIDRText (uplinkCIDR uplinkConfig "ipv6"))
        as [[gw6 net6]|] eqn:E6; [|discriminate].
      destruct (SubnetContains net6 ipNet) eqn:Ein6; [|discriminate].
      destruct (Contains ipNet gw6) eqn:Egw; [discriminate|].
      exists "ipv6", gw6, net6. repeat split; auto.
  - destruct (ParseCIDR parseCIDRText (uplinkCIDR uplinkConfig "ipv6"))
      as [[gw6 net6]|] eqn:E6; [|discriminate].
    destruct (SubnetContains net6 ipNet) eqn:Ein6; [|discriminate].
    destruct (Contains ipNet gw6) eqn:Egw; [discriminate|].
    exists "ipv6", gw6, net6. repeat split; auto.
Qed.

Lemma restrictedSubnetsOf_sound (uplinkNetworkName : string)
    (subnetsRaw : list string) :
  forall acc subnets,
    restrictedSubnetsOf subnetsRaw uplinkNetworkName acc = Ok subnets ->
    forall subnet, In subnet subnets ->
      In subnet acc
      \/ exists subnetRaw subnetStr ip,
           In subnetRaw subnetsRaw
           /\ splitColon subnetRaw = Some (uplinkNetworkName, subnetStr)
           /\ ParseCIDR parseCIDRText subnetStr = Some (ip, subnet).
Proof.
  induction subnetsRaw as [|subnetRaw rest IH]; intros acc subnets;
    cbn [restrictedSubnetsOf].
  - intros [= <-] subnet Hin. now left.
  - destruct (splitColon subnetRaw) as [[u str]|] eqn:Es; [|discriminate].
    destruct (String.eqb_spec u uplinkNetworkName) as [->|NE]; cbn [negb].
    + destruct (ParseCIDR parseCIDRText str) as [[ip net]|] eqn:Ep;
        [|discriminate].
      intros H subnet Hin.
      destruct (IH _ _ H subnet Hin) as [Hacc | (raw & s' & ip' & Hraw & Hs & Hp)].
      * apply in_app_or in Hacc as [Hacc | [<- | []]]; [now left|].
        right. exists subnetRaw, str, ip. repeat split; [now left|..]; assumption.
      * right. exists raw, s', ip'. repeat split; [now right|..]; assumption.
    + intros H subnet Hin.
      destruct (IH _ _ H subnet Hin) as [Hacc | (raw & s' & ip' & Hraw & Hs & Hp)];
        [now left|].
      right. exists raw, s', ip'. repeat split; [now right|..]; assumption.
Qed.

(** The subnets a restricted project may use on an uplink are those of
    its [restricted.networks.subnets] entries that name this uplink;
    without restriction the result is nil. *)
Theorem projectRestrictedSubnets_for_uplink (pConfig : gmap string string)
    (uplinkNetworkName : string) (restricted : option (list IPNet)) :
  projectRestrictedSubnets pConfig uplinkNetworkName = Ok restricted ->
  (restricted = None
   <-> ~ (IsTrue (cfg pConfig "restricted") = true
          /\ cfg pConfig "restricted.networks.subnets" <> ""))
  /\ forall subnets subnet,
       restricted = Some subnets -> In subnet subnets ->
       exists subnetRaw subnetStr ip,
         In subnetRaw
            (SplitNTrimSpace (cfg pConfig "restricted.networks.subnets"))
         /\ splitColon subnetRaw = Some (uplinkNetworkName, subnetStr)
         /\ ParseCIDR parseCIDRText subnetStr = Some (ip, subnet).
Proof.
  unfold projectRestrictedSubnets.
  destruct (IsTrue (cfg pConfig "restricted")) eqn:Er; cbn [andb].
  2:{ intros [= <-]. split; [|discriminate].
      split; [intros _ [H _]; discriminate | reflexivity]. }
  destruct (String.eqb_spec (cfg pConfig "restricted.networks.subnets") "")
    as [E|NE]; cbn [negb].
  { intros [= <-]. split; [|discriminate].
    split; [intros _ [_ H]; contradiction | reflexivity]. }
  destruct (restrictedSubnetsOf _ uplinkNetworkName []) as [l|e] eqn:El;
    cbn [rbind]; [|discriminate].
  intros [= <-]. split.
  - split; [discriminate|]. intros H. exfalso. apply H. now split.
  - intros subnets subnet [= <-] Hin.
    destruct (restrictedSubnetsOf_sound _ _ _ _ El subnet Hin) as [[]|H].
    exact H.
Qed.

(** A restricted project whose subnet list names other uplinks only has
    no allowed subnet on this uplink: every external subnet is refused,
    whatever the uplink routes. *)
Theorem restricted_project_without_subnets (pConfig uplinkConfig : gmap string string)
    (uplinkNetworkName : string) (ipNet : IPNet) :
  IsTrue (cfg pConfig "restricted") = true ->
  cfg pConfig "restricted.networks.subnets" <> "" ->
  (forall subnetRaw,
     In subnetRaw (SplitNTrimSpace (cfg pConfig "restricted.networks.subnets")) ->
     exists other subnetStr,
       splitColon subnetRaw = Some (other, subnetStr)
       /\ other <> uplinkNetworkName) ->
  projectRestrictedSubnets pConfig uplinkNetworkName = Ok (Some [])
  /\ validateExternalSubnet uplinkConfig (Some []) ipNet
     = Err (errNotRestricted ipNet).
Proof.
  intros Hr Hs Hother. split; [|reflexivity].
  unfold projectRestrictedSubnets. rewrite Hr.
  destruct (String.eqb_spec (cfg pConfig "restricted.networks.subnets") "");
    [contradiction|]. cbn [andb negb].
  assert (H : forall l acc,
    (forall subnetRaw, In subnetRaw l ->
       exists other subnetStr,
         splitColon subnetRaw = Some (other, subnetStr)
         /\ other <> uplinkNetworkName) ->
    restrictedSubnetsOf l uplinkNetworkName acc = Ok acc).
  { induction l as [|raw l IH]; intros acc Hl; [reflexivity|].
    cbn [restrictedSubnetsOf].
    destruct (Hl raw (or_introl eq_refl)) as (other & str & -> & NE).
    destruct (String.eqb_spec other uplinkNetworkName); [contradiction|].
    cbn [negb]. apply IH. intros r Hin. apply Hl. now right. }
  rewrite H by assumption. reflexivity.
Qed.

End ValidateExternalSubnet.

(** *** Examples *)

Definition demoParse (s : string) : option (list byte * N) :=
  if String.eqb s "192.0.2.1/24" then Some (ipv4 192 0 2 1, 24)
  else if String.eqb s "198.51.100.0/24" then Some (ipv4 198 51 100 0, 24)
  else if String.eqb s "198.51.100.16/28" then Some (ipv4 198 51 100 16, 28)
  else if String.eqb s "192.0.2.0/25" then Some (ipv4 192 0 2 0, 25)
  else if String.eqb s "192.0.2.128/25" then Some (ipv4 192 0 2 128, 25)
  else None.

Definition demoNet (s : string) : IPNet :=
  match ParseCIDR demoParse s with
  | Some (_, ipNet) => ipNet
  | None => mkIPNet [] []
  end.

(** The outer subnet contains the inner one's address and its mask is
    no longer. *)
Definition demoSubnetContains (outer inner : IPNet) : bool :=
  Contains outer (netIP inner)
  && (snd (Size (Mask inner)) =? snd (Size (Mask outer)))
  && negb (fst (Size (Mask inner)) <? fst (Size (Mask outer))).

Definition demoParseError (s : string) : string :=
  ("invalid CIDR address: " ++ s)%string.

Definition demoAppend (subnets : list IPNet) (s : string)
  : result (list IPNet) :=
  match ParseCIDR demoParse s with
  | Some (_, ipNet) => Ok (subnets ++ [ipNet])
  | None => Err (demoParseError s)
  end.

Definition demoUplink : gmap string string :=
  <["ipv4.address" := "192.0.2.1/24"]>
    (<["ipv4.routes" := "198.51.100.0/24"]> ∅).

Definition demoValidate :=
  validateExternalSubnet demoParse demoSubnetContains demoAppend
    (fun _ => "subnet") demoUplink.

Definition demoSplit (s : string) : list string :=
  if String.eqb s "uplink0:198.51.100.0/24,uplink1:192.0.2.0/25"
  then ["uplink0:198.51.100.0/24"; "uplink1:192.0.2.0/25"] else [s].

Definition demoProject : gmap string string :=
  <["restricted" := "true"]>
    (<["restricted.networks.subnets"
       := "uplink0:198.51.100.0/24,uplink1:192.0.2.0/25"]> ∅).

Definition demoRestricted :=
  projectRestrictedSubnets demoParse demoParseError
    (fun s => String.eqb s "true") demoSplit demoProject.

Example validateExternalSubnet_routed :
  demoValidate None (demoNet "198.51.100.16/28") = Ok tt.
Proof. vm_compute. reflexivity. Qed.

Example validateExternalSubnet_within_uplink :
  demoValidate None (demoNet "192.0.2.128/25") = Ok tt.
Proof. vm_compute. reflexivity. Qed.

Example validateExternalSubnet_masks_gateway :
  isErr (demoValidate None (demoNet "192.0.2.0/25")) = true.
Proof. vm_compute. reflexivity. Qed.

Example projectRestrictedSubnets_demo :
  demoRestricted "uplink0" = Ok (Some [demoNet "198.51.100.0/24"])
  /\ demoRestricted "uplink2" = Ok (Some []).
Proof. vm_compute. split; reflexivity. Qed.

Lemma validateExternalSubnet_accepted_witness :
  exists subnet,
    In subnet [demoNet "198.51.100.0/24"]
    /\ demoSubnetContains subnet (demoNet "198.51.100.16/28") = true.
Proof.
  destruct (validateExternalSubnet_accepted demoParse demoSubnetContains
              demoAppend (fun _ => "subnet") demoUplink
              (Some [demoNet "198.51.100.0/24"])
              (demoNet "198.51.100.16/28")) as [H _].
  - vm_compute. reflexivity.
  - apply (H [demoNet "198.51.100.0/24"]). reflexivity.
Defined.

Lemma projectRestrictedSubnets_for_uplink_witness :
  exists subnetRaw subnetStr ip,
    In subnetRaw
       (demoSplit (cfg demoProject "restricted.networks.subnets"))
    /\ splitColon subnetRaw = Some ("uplink0", subnetStr)
    /\ ParseCIDR demoParse subnetStr = Some (ip, demoNet "198.51.100.0/24").
Proof.
  destruct (projectRestrictedSubnets_for_uplink demoParse
              demoParseError
              (fun s => String.eqb s "true") demoSplit demoProject "uplink0"
              (Some [demoNet "198.51.100.0/24"])) as [_ H].
  - vm_compute. reflexivity.
  - apply (H [demoNet "198.51.100.0/24"]); [reflexivity | now left].
Defined.

Lemma restricted_project_without_subnets_witness :
  demoRestricted "uplink2" = Ok (Some [])
  /\ isErr (demoValidate (Some []) (demoNet "198.51.100.16/28")) = true.
Proof.
  destruct (restricted_project_without_subnets demoParse
              demoParseError
              (fun s => String.eqb s "true") demoSplit demoSubnetContains
              demoAppend (fun _ => "subnet") demoProject demoUplink "uplink2"
              (demoNet "198.51.100.16/28")) as [Hnone Hrefused].
  - reflexivity.
  - vm_compute. discriminate.
  - intros subnetRaw Hin. vm_compute in Hin.
    destruct Hin as [<- | [<- | []]].
    + exists "uplink0", "198.51.100.0/24". split; [reflexivity | discriminate].
    + exists "uplink1", "192.0.2.0/25". split; [reflexivity | discriminate].
  - split; [exact Hnone|]. unfold demoValidate. rewrite Hrefused. reflexivity.
Defined.

End ExternalSubnet.

(** ** The addresses taken on an uplink *)

Module UplinkIPs.
Import GoNet Uplink.

(** The fields of [api.Network] read here. *)
Record NetInfo := mkNetInfo { Type_ : string; Config : gmap string string }.

Definition ovnVolatileUplinkIPv4 : string := "volatile.network.ipv4.address".
Definition ovnVolatileUplinkIPv6 : string := "volatile.network.ipv6.address".

Section AllAllocated.

Variable ParseIP : string -> IP.

(** [tx.GetCreatedNetworks(ctx)]: the networks of every project, in the
    order the two maps are iterated. *)
Variable GetCreatedNetworks : result (list (string * list NetInfo)).

(** The loop over the two volatile keys of one network. *)
Fixpoint collectKeys (keys : list string) (netInfo : NetInfo)
    (v4IPs v6IPs : list IP) : list IP * list IP :=
  match keys with
  | [] => (v4IPs, v6IPs)
  | k :: rest =>
      if negb (String.eqb (cfg (Config netInfo) k) "") then
        match ParseIP (cfg (Config netInfo) k) with
        | [] => collectKeys rest netInfo v4IPs v6IPs
        | ip =>
            match To4 ip with
            | [] => collectKeys rest netInfo v4IPs (v6IPs ++ [ip])
            | _ => collectKeys rest netInfo (v4IPs ++ [ip]) v6IPs
            end
        end
      else collectKeys rest netInfo v4IPs v6IPs
  end.

(** The loop over the networks of one project. *)
Fixpoint collectNetworks (networks : list NetInfo) (uplinkNetName : string)
    (v4IPs v6IPs : list IP) : list IP * list IP :=
  match networks with
  | [] => (v4IPs, v6IPs)
  | netInfo :: rest =>
      if negb (String.eqb (Type_ netInfo) "ovn")
         || negb (String.eqb (cfg (Config netInfo) "network") uplinkNetName)
      then collectNetworks rest uplinkNetName v4IPs v6IPs
      else
        let '(v4IPs, v6IPs) :=
          collectKeys [ovnVolatileUplinkIPv4; ovnVolatileUplinkIPv6]
                      netInfo v4IPs v6IPs in
        collectNetworks rest uplinkNetName v4IPs v6IPs
  end.

(** The loop over the projects. *)
Fixpoint collectProjects (projectNetworks : list (string * list NetInfo))
    (uplinkNetName : string) (v4IPs v6IPs : list IP) : list IP * list IP :=
  match projectNetworks with
  | [] => (v4IPs, v6IPs)
  | (_, networks) :: rest =>
      let '(v4IPs, v6IPs) :=
        collectNetworks networks uplinkNetName v4IPs v6IPs in
      collectProjects rest uplinkNetName v4IPs v6IPs
  end.

Definition uplinkAllAllocatedIPs (uplinkNetName : string)
  : result (list IP * list IP) :=
  let* projectNetworks := wrap "Failed to load all networks" GetCreatedNetworks in
  Ok (collectProjects projectNetworks uplinkNetName [] []).

(** *** What the loops collect *)

Definition isV4 (ip : IP) : bool :=
  match To4 ip with [] => false | _ => true end.

Definition usesUplink (uplinkNetName : string) (netInfo : NetInfo) : bool :=
  String.eqb (Type_ netInfo) "ovn"
  && String.eqb (cfg (Config netInfo) "network") uplinkNetName.

(** The addresses recorded under [keys] in a network's configuration. *)
Definition recorded (keys : list string) (netInfo : NetInfo) : list IP :=
  flat_map (fun k =>
              if negb (String.eqb (cfg (Config netInfo) k) "")
              then match ParseIP (cfg (Config netInfo) k) with
                   | [] => []
                   | ip => [ip]
                   end
              else []) keys.

Definition volatileKeys : list string :=
  [ovnVolatileUplinkIPv4; ovnVolatileUplinkIPv6].

Definition recordedOn (uplinkNetName : string) (networks : list NetInfo)
  : list IP :=
  flat_map (fun netInfo =>
              if usesUplink uplinkNetName netInfo
              then recorded volatileKeys netInfo else []) networks.

Lemma collectKeys_filter (netInfo : NetInfo) (keys : list string) :
  forall v4IPs v6IPs,
    collectKeys keys netInfo v4IPs v6IPs
    = (v4IPs ++ List.filter isV4 (recorded keys netInfo),
       v6IPs ++ List.filter (fun ip => negb (isV4 ip)) (recorded keys netInfo)).
Proof.
  induction keys as [|k rest IH]; intros v4IPs v6IPs;
    cbn [collectKeys recorded flat_map].
  - now rewrite !app_nil_r.
  - fold (recorded rest netInfo).
    destruct (negb (String.eqb (cfg (Config netInfo) k) "")); [|apply IH].
    destruct (ParseIP (cfg (Config netInfo) k)) as [|b t] eqn:Eip; [apply IH|].
    rewrite !List.filter_app. cbn [List.filter]. unfold isV4 at 1 3.
    destruct (To4 (b :: t)); rewrite IH; cbn [negb app];
      now rewrite <- ?app_assoc.
Qed.

Lemma collectNetworks_filter (uplinkNetName : string)
    (networks : list NetInfo) :
  forall v4IPs v6IPs,
    collectNetworks networks uplinkNetName v4IPs v6IPs
    = (v4IPs ++ List.filter isV4 (recordedOn uplinkNetName networks),
       v6IPs ++ List.filter (fun ip => negb (isV4 ip))
                            (recordedOn uplinkNetName networks)).
Proof.
  induction networks as [|netInfo rest IH]; intros v4IPs v6IPs;
    cbn [collectNetworks recordedOn flat_map].
  - now rewrite !app_nil_r.
  - fold (recordedOn uplinkNetName rest). rewrite <- negb_andb.
    fold (usesUplink uplinkNetName netInfo).
    destruct (usesUplink uplinkNetName netInfo); cbn [negb]; [|apply IH].
    fold volatileKeys. rewrite collectKeys_filter, IH.
    now rewrite !List.filter_app, <- !app_assoc.
Qed.

Lemma collectProjects_filter (uplinkNetName : string)
    (projectNetworks : list (string * list NetInfo)) :
  forall v4IPs v6IPs,
    collectProjects projectNetworks uplinkNetName v4IPs v6IPs
    = (v4IPs ++ List.filter isV4
                  (flat_map (fun pn => recordedOn uplinkNetName (snd pn))
                            projectNetworks),
       v6IPs ++ List.filter (fun ip => negb (isV4 ip))
                  (flat_map (fun pn => recordedOn uplinkNetName (snd pn))
                            projectNetworks)).
Proof.
  induction projectNetworks as [|[project networks] rest IH];
    intros v4IPs v6IPs; cbn [collectProjects flat_map snd].
  - now rewrite !app_nil_r.
  - rewrite collectNetworks_filter, IH.
    now rewrite !List.filter_app, <- !app_assoc.
Qed.

(** [ip] is the parsed volatile uplink address of an OVN network that
    uses the uplink. *)
Definition taken (projectNetworks : list (string * list NetInfo))
    (uplinkNetName : string) (ip : IP) : Prop :=
  ip <> []
  /\ exists project networks netInfo key,
       In (project, networks) projectNetworks /\ In netInfo networks
       /\ Type_ netInfo = "ovn"
       /\ cfg (Config netInfo) "network" = uplinkNetName
       /\ (key = ovnVolatileUplinkIPv4 \/ key = ovnVolatileUplinkIPv6)
       /\ cfg (Config netInfo) key <> ""
       /\ ParseIP (cfg (Config netInfo) key) = ip.

Lemma recorded_taken (projectNetworks : list (string * list NetInfo))
    (uplinkNetName : string) (ip : IP) :
  In ip (flat_map (fun pn => recordedOn uplinkNetName (snd pn)) projectNetworks)
  <-> taken projectNetworks uplinkNetName ip.
Proof.
  rewrite in_flat_map. unfold recordedOn, taken. split.
  - intros ([project networks] & Hpn & Hin). cbn [snd] in Hin.
    apply in_flat_map in Hin as (netInfo & Hnet & Hin).
    destruct (usesUplink uplinkNetName netInfo) eqn:Eu; [|destruct Hin].
    apply andb_true_iff in Eu as [Et En].
    apply String.eqb_eq in Et, En.
    unfold recorded in Hin. apply in_flat_map in Hin as (key & Hkey & Hin).
    destruct (String.eqb_spec (cfg (Config netInfo) key) "") as [E|NE];
      cbn [negb] in Hin; [destruct Hin|].
    destruct (ParseIP (cfg (Config netInfo) key)) as [|b t] eqn:Eip;
      [destruct Hin|].
    destruct Hin as [<- | []]. split; [discriminate|].
    exists project, networks, netInfo, key. repeat split; try assumption.
    destruct Hkey as [<- | [<- | []]]; [now left | now right].
  - intros (Hip & project & networks & netInfo & key
            & Hpn & Hnet & Et & En & Hkey & NE & Eip).
    exists (project, networks). split; [exact Hpn|]. cbn [snd].
    apply in_flat_map. exists netInfo. split; [exact Hnet|].
    unfold usesUplink. rewrite Et, En, !String.eqb_refl. cbn [andb].
    unfold recorded. apply in_flat_map. exists key. split.
    + destruct Hkey as [-> | ->]; [now left | right; now left].
    + destruct (String.eqb_spec (cfg (Config netInfo) key) "");
        [contradiction|]. cbn [negb]. rewrite Eip.
      destruct ip; [contradiction | now left].
Qed.

(** The two lists split, by address form, the volatile uplink addresses
    of the OVN networks using the uplink: nothing else is in them and
    none of these addresses is missing. *)
Theorem uplinkAllAllocatedIPs_members (uplinkNetName : string)
    (projectNetworks : list (string * list NetInfo)) (v4IPs v6IPs : list IP) :
  GetCreatedNetworks = Ok projectNetworks ->
  uplinkAllAllocatedIPs uplinkNetName = Ok (v4IPs, v6IPs) ->
  forall ip,
    (In ip v4IPs <-> taken projectNetworks uplinkNetName ip /\ To4 ip <> [])
    /\ (In ip v6IPs <-> taken projectNetworks uplinkNetName ip /\ To4 ip = []).
Proof.
  intros Hnets. unfold uplinkAllAllocatedIPs. rewrite Hnets.
  cbn [wrap rbind]. rewrite collectProjects_filter. cbn [app].
  intros [= <- <-] ip. rewrite !List.filter_In, recorded_taken. unfold isV4.
  split; (split; intros [Ht Hv]; (split; [exact Ht|]));
    destruct (To4 ip); try reflexivity; try discriminate; congruence.
Qed.

(** *** Allocation against the taken addresses *)

Lemma scan_free (allAllocated : list IP) (endBig : N) :
  forall (fuel : nat) (startBig : N) (ip : IP),
    scan fuel allAllocated startBig endBig = Some ip ->
    isAllocated allAllocated ip = false
    /\ exists x, startBig <= x <= endBig /\ ip = Bytes x.
Proof.
  induction fuel as [|fuel IH]; intros startBig ip; cbn [scan];
    [discriminate|].
  destruct (N.ltb_spec endBig startBig) as [Hlt|Hle]; [discriminate|].
  destruct (isAllocated allAllocated (Bytes startBig)) eqn:Ea.
  - intros H. destruct (IH _ _ H) as (Hfree & x & Hx & ->).
    split; [exact Hfree|]. exists x. split; [lia | reflexivity].
  - intros [= <-]. split; [exact Ea|]. exists startBig. split; [lia|reflexivity].
Qed.

Lemma SetBytes_Bytes (x : N) : SetBytes (Bytes x) = x.
Proof.
  destruct (N.eq_dec x 0) as [->|Hx]; [reflexivity|].
  set (n := N.to_nat (N.log2 x / 8)).
  assert (Hpow : forall k, 256 ^ k = 2 ^ (8 * k)).
  { intros k. now rewrite N.pow_mul_r. }
  assert (Hn : N.of_nat n = N.log2 x / 8) by (subst n; lia).
  pose proof (N.log2_spec x ltac:(lia)) as [Hlo Hhi].
  pose proof (N.Div0.mul_div_le (N.log2 x) 8) as Hq.
  pose proof (N.mul_succ_div_gt (N.log2 x) 8 ltac:(lia)) as Hq'.
  assert (Hb : 256 ^ N.of_nat n <= x < 256 ^ N.of_nat (S n)).
  { rewrite Nat2N.inj_succ, !Hpow, Hn. split.
    - etransitivity; [|exact Hlo]. apply N.pow_le_mono_r; lia.
    - eapply N.lt_le_trans; [exact Hhi|]. apply N.pow_le_mono_r; lia. }
  rewrite (Bytes_encode n x Hb). apply SetBytes_encode. apply Hb.
Qed.

Lemma uplinkAllocateIP_outcome (ipRanges : list Range)
    (allAllocated : list IP) (ip : IP) :
  uplinkAllocateIP ipRanges allAllocated = Ok ip ->
  (forall other, In other allAllocated -> Equal ip other = false)
  /\ exists ipRange,
       In ipRange ipRanges
       /\ SetBytes (native (Start ipRange)) <= SetBytes ip
          <= SetBytes (native (End ipRange)).
Proof.
  induction ipRanges as [|ipRange rest IH]; cbn [uplinkAllocateIP];
    [discriminate|].
  destruct (scanRange allAllocated ipRange) as [found|] eqn:Es.
  - intros [= <-]. unfold scanRange in Es.
    apply scan_free in Es as (Hfree & x & Hx & ->). split.
    + intros other Hin. unfold isAllocated in Hfree.
      destruct (Equal (Bytes x) other) eqn:E; [|reflexivity].
      assert (existsb (Equal (Bytes x)) allAllocated = true) as Hc
        by (apply existsb_exists; exists other; now split).
      congruence.
    + exists ipRange. split; [now left|]. now rewrite SetBytes_Bytes.
  - intros H. destruct (IH H) as (Hfree & r & Hin & Hr).
    split; [exact Hfree|]. exists r. split; [now right | exact Hr].
Qed.

(** The address [uplinkAllocateIP] returns is equal to none of the
    excluded ones, and its value lies between the ends of one of the
    ranges. *)
Theorem uplinkAllocateIP_free_in_range (ipRanges : list Range)
    (allAllocated : list IP) (ip : IP) :
  uplinkAllocateIP ipRanges allAllocated = Ok ip ->
  (forall other, In other allAllocated -> Equal ip other = false)
  /\ exists ipRange,
       In ipRange ipRanges
       /\ SetBytes (native (Start ipRange)) <= SetBytes ip
          <= SetBytes (native (End ipRange)).
Proof.
  apply uplinkAllocateIP_outcome.
Qed.

(** An IPv4 address allocated against the IPv4 list of
    [uplinkAllAllocatedIPs] is the uplink address of no OVN network on
    that uplink, and likewise for IPv6. *)
Theorem uplink_address_unique (uplinkNetName : string)
    (projectNetworks : list (string * list NetInfo)) (v4IPs v6IPs : list IP)
    (ipRanges : list Range) (ip : IP) :
  GetCreatedNetworks = Ok projectNetworks ->
  uplinkAllAllocatedIPs uplinkNetName = Ok (v4IPs, v6IPs) ->
  (uplinkAllocateIP ipRanges v4IPs = Ok ip ->
   forall other, taken projectNetworks uplinkNetName other ->
                 To4 other <> [] -> Equal ip other = false)
  /\ (uplinkAllocateIP ipRanges v6IPs = Ok ip ->
      forall other, taken projectNetworks uplinkNetName other ->
                    To4 other = [] -> Equal ip other = false).
Proof.
  intros Hnets. unfold uplinkAllAllocatedIPs. rewrite Hnets.
  cbn [wrap rbind]. rewrite collectProjects_filter. cbn [app].
  intros [= <- <-].
  split; intros Halloc other Htaken Hform;
    apply uplinkAllocateIP_outcome in Halloc as [Hfree _];
    apply Hfree; apply List.filter_In;
    (split; [now apply recorded_taken|]); unfold isV4;
    destruct (To4 other); try reflexivity; congruence.
Qed.

End AllAllocated.

(** *** Examples *)

Definition demoParseIP (s : string) : IP :=
  if String.eqb s "10.0.0.2" then ipv4_16 10 0 0 2
  else if String.eqb s "10.0.0.3" then ipv4_16 10 0 0 3
  else if String.eqb s "10.0.1.2" then ipv4_16 10 0 1 2
  else [].

Definition ovnOn (uplink address : string) : NetInfo :=
  mkNetInfo "ovn"
    (<["network" := uplink]> (<[ovnVolatileUplinkIPv4 := address]> ∅)).

Definition demoProjects : list (string * list NetInfo) :=
  [ ("default", [ovnOn "uplink0" "10.0.0.2"; mkNetInfo "bridge" ∅]);
    ("other", [ovnOn "uplink1" "10.0.1.2"; ovnOn "uplink0" "10.0.0.3";
               ovnOn "uplink0" "unparseable"]) ].

Definition demoTaken :=
  uplinkAllAllocatedIPs demoParseIP (Ok demoProjects) "uplink0".

Definition demoRanges : list Range :=
  [mkRange (ipv4_16 10 0 0 2) (ipv4_16 10 0 0 9)].

Example uplinkAllAllocatedIPs_demo :
  demoTaken = Ok ([ipv4_16 10 0 0 2; ipv4_16 10 0 0 3], []).
Proof. vm_compute. reflexivity. Qed.

Example uplinkAllocateIP_next_free :
  uplinkAllocateIP demoRanges [ipv4_16 10 0 0 2; ipv4_16 10 0 0 3]
  = Ok (ipv4 10 0 0 4).
Proof. vm_compute. reflexivity. Qed.

Lemma uplinkAllAllocatedIPs_members_witness :
  taken demoParseIP demoProjects "uplink0" (ipv4_16 10 0 0 3).
Proof.
  destruct (uplinkAllAllocatedIPs_members demoParseIP (Ok demoProjects)
              "uplink0" demoProjects [ipv4_16 10 0 0 2; ipv4_16 10 0 0 3] []
              eq_refl ltac:(vm_compute; reflexivity) (ipv4_16 10 0 0 3))
    as [[H _] _].
  apply H. right. now left.
Defined.

Lemma uplinkAllocateIP_free_in_range_witness :
  Equal (ipv4 10 0 0 4) (ipv4_16 10 0 0 3) = false.
Proof.
  destruct (uplinkAllocateIP_free_in_range demoRanges
              [ipv4_16 10 0 0 2; ipv4_16 10 0 0 3] (ipv4 10 0 0 4)) as [H _].
  - vm_compute. reflexivity.
  - apply H. right. now left.
Defined.

Lemma uplink_address_unique_witness :
  Equal (ipv4 10 0 0 4) (ipv4_16 10 0 0 2) = false.
Proof.
  destruct (uplink_address_unique demoParseIP (Ok demoProjects) "uplink0"
              demoProjects [ipv4_16 10 0 0 2; ipv4_16 10 0 0 3] []
              demoRanges (ipv4 10 0 0 4)) as [H _].
  - reflexivity.
  - vm_compute. reflexivity.
  - apply H.
    + vm_compute. reflexivity.
    + split; [vm_compute; discriminate|].
      exists "default", [ovnOn "uplink0" "10.0.0.2"; mkNetInfo "bridge" ∅],
        (ovnOn "uplink0" "10.0.0.2"), ovnVolatileUplinkIPv4.
      repeat split; try (vm_compute; reflexivity); try (now left).
      vm_compute. discriminate.
    + vm_compute. discriminate.
Defined.

End UplinkIPs.

(** ** DHCP on the internal switch *)

Module DHCP.
Import GoNet Net NIC.

(** The UUIDs of the IPv4 and of the IPv6 option sets of a switch, in
    the order the switch lists them. *)
Definition v4Sets (existingOpts : list (IPNet * string)) : list string :=
  map snd (List.filter (fun o => negb (isNil (To4 (netIP (fst o)))))
                       existingOpts).

Definition v6Sets (existingOpts : list (IPNet * string)) : list string :=
  map snd (List.filter (fun o => isNil (To4 (netIP (fst o)))) existingOpts).

(** [uuid] is what a run that started with [seen] ends with after
    meeting the sets [sets]. *)
Definition picked (seen : string) (sets : list string) (uuid : string)
  : Prop :=
  (sets = [] /\ uuid = seen) \/ (seen = "" /\ sets = [uuid]).

Lemma picked_cons (seen uuid : string) (sets : list string) (final : string) :
  uuid <> "" ->
  (seen = "" /\ picked uuid sets final) <-> picked seen (uuid :: sets) final.
Proof.
  intros Hne. unfold picked. split.
  - intros [-> [[-> ->] | [-> _]]]; [right; now split | contradiction].
  - intros [[H _] | [-> [= -> ->]]]; [discriminate|].
    split; [reflexivity|]. left. now split.
Qed.

Lemma dhcpOptionUUIDs_picked (existingOpts : list (IPNet * string)) :
  (forall o, In o existingOpts -> snd o <> "") ->
  forall seen4 seen6 v4Uuid v6Uuid,
    dhcpOptionUUIDs existingOpts seen4 seen6 = Ok (v4Uuid, v6Uuid)
    <-> picked seen4 (v4Sets existingOpts) v4Uuid
        /\ picked seen6 (v6Sets existingOpts) v6Uuid.
Proof.
  induction existingOpts as [|[cidr uuid] rest IH]; intros Hne seen4 seen6 v4 v6.
  - cbn. unfold picked. split.
    + intros [= -> ->]. split; left; now split.
    + intros [[[_ ->] | [_ [=]]] [[_ ->] | [_ [=]]]]. reflexivity.
  - assert (Huuid : uuid <> "") by (apply (Hne (cidr, uuid)); now left).
    assert (Hrest : forall o, In o rest -> snd o <> "")
      by (intros o Ho; apply Hne; now right).
    cbn [dhcpOptionUUIDs]. unfold v4Sets, v6Sets. cbn [List.filter fst].
    destruct (isNil (To4 (netIP cidr))); cbn [negb map snd];
      fold (v4Sets rest); fold (v6Sets rest).
    + rewrite <- (picked_cons seen6 uuid) by assumption.
      destruct (String.eqb_spec seen6 "") as [->|NE]; cbn [negb].
      * rewrite (IH Hrest). tauto.
      * split; [discriminate | tauto].
    + rewrite <- (picked_cons seen4 uuid) by assumption.
      destruct (String.eqb_spec seen4 "") as [->|NE]; cbn [negb].
      * rewrite (IH Hrest). tauto.
      * split; [discriminate | tauto].
Qed.

(** [getDhcpOptionUUIDs] succeeds exactly when the switch has at most one
    IPv4 and at most one IPv6 option set, and returns their UUIDs (empty
    for a family without set). *)
Theorem getDhcpOptionUUIDs_at_most_one
    (existingOpts : list (IPNet * string)) (v4Uuid v6Uuid : string) :
  (forall o, In o existingOpts -> snd o <> "") ->
  getDhcpOptionUUIDs (Ok existingOpts) = Ok (v4Uuid, v6Uuid)
  <-> (v4Sets existingOpts = [] /\ v4Uuid = ""
       \/ v4Sets existingOpts = [v4Uuid])
      /\ (v6Sets existingOpts = [] /\ v6Uuid = ""
          \/ v6Sets existingOpts = [v6Uuid]).
Proof.
  intros Hne. unfold getDhcpOptionUUIDs. cbn [wrap rbind].
  rewrite (dhcpOptionUUIDs_picked existingOpts Hne). unfold picked. tauto.
Qed.

Section Subnet.

Variable parseCIDRText : string -> option (list byte * N).
Variable String6 : list byte -> string.
Variable IsFalse : string -> bool.
Variable validateRules : gmap string string -> result unit.
Variable validateZoneNames : gmap string string -> result unit.
Variable validateUplink : gmap string string -> result unit.

(** On a network whose configuration [Validate] accepts, a DHCPv6 subnet
    is a /64: longer prefixes are refused by [Validate], shorter ones give
    no DHCPv6 subnet. *)
Theorem DHCPv6Subnet_of_valid_config (n : Network) (subnet : IPNet) :
  Validation.Validate parseCIDRText String6 validateRules validateZoneNames
    validateUplink (config n) = Ok tt ->
  DHCPv6Subnet parseCIDRText IsFalse n = Some subnet ->
  fst (Size (Mask subnet)) = 64.
Proof.
  unfold Validation.Validate.
  destruct (validateRules (config n)) as [[]|]; cbn [rbind]; [|discriminate].
  destruct (validateZoneNames (config n)) as [[]|]; cbn [rbind];
    [|discriminate].
  destruct (Validation.checkIPv4Reserved _ _ _) as [[]|]; cbn [rbind];
    [|discriminate].
  destruct (Validation.checkIPv6SubnetSize _ _) as [[]|] eqn:Esize;
    cbn [rbind]; [|discriminate].
  intros _. revert Esize.
  unfold DHCPv6Subnet, parseRouterIntPortIPv6Net, parseRouterIntPortNet,
    Validation.checkIPv6SubnetSize.
  destruct (IsFalse _); [discriminate|].
  destruct (_ || _); [discriminate|].
  destruct (ParseCIDR parseCIDRText (cfg (config n) "ipv6.address"))
    as [[ip net]|]; [|discriminate].
  destruct (Size (Mask net)) as [ones bits] eqn:Es. cbn [fst].
  destruct (N.ltb_spec 64 ones); [discriminate|]. intros _.
  destruct (N.ltb_spec ones 64); [discriminate|].
  intros [= <-]. rewrite Es. cbn [fst]. lia.
Qed.

End Subnet.

(** *** Examples *)

Definition net4 : IPNet := mkIPNet (ipv4 10 0 0 0) (CIDRMask 24 32).
Definition net6 : IPNet := mkIPNet (Validation.fd42) (CIDRMask 64 128).

Example getDhcpOptionUUIDs_both :
  getDhcpOptionUUIDs (Ok [(net6, "uuid-6"); (net4, "uuid-4")])
  = Ok ("uuid-4", "uuid-6").
Proof. vm_compute. reflexivity. Qed.

Example getDhcpOptionUUIDs_two_v4 :
  isErr (getDhcpOptionUUIDs (Ok [(net4, "uuid-4"); (net4, "uuid-5")])) = true.
Proof. vm_compute. reflexivity. Qed.

Lemma getDhcpOptionUUIDs_at_most_one_witness :
  getDhcpOptionUUIDs (Ok [(net6, "uuid-6")]) = Ok ("", "uuid-6").
Proof.
  apply (getDhcpOptionUUIDs_at_most_one [(net6, "uuid-6")] "" "uuid-6").
  - intros o [<- | []]. vm_compute. discriminate.
  - vm_compute. split; [left; split; reflexivity | right; reflexivity].
Defined.

Definition netWith (v6 : string) : Network :=
  mkNetwork 7 "ovn1" "default" "" (Validation.config_of "10.0.0.1/24" v6).

Definition demoIsFalse (s : string) : bool := String.eqb s "false".

Example DHCPv6Subnet_slash48 :
  DHCPv6Subnet Validation.demoParse demoIsFalse (netWith "fd42::1/48") = None.
Proof. vm_compute. reflexivity. Qed.

Lemma DHCPv6Subnet_of_valid_config_witness :
  exists subnet,
    DHCPv6Subnet Validation.demoParse demoIsFalse (netWith "fd42::1/64")
    = Some subnet
    /\ fst (Size (Mask subnet)) = 64.
Proof.
  eexists. split; [vm_compute; reflexivity|].
  apply (DHCPv6Subnet_of_valid_config Validation.demoParse
           Validation.demoString6 demoIsFalse Validation.pass Validation.pass
           Validation.pass (netWith "fd42::1/64")).
  - vm_compute. reflexivity.
  - vm_compute. reflexivity.
Defined.

End DHCP.

(** ** The VIPs of a load balancer *)

Module LoadBalancerVIPs.
Import GoNet Forward.

(** The target port of a backend for the listen port [lp] at index [i]. *)
Definition backendPort (tgt : forwardPortMapTarget) (i : nat) (lp : N) : N :=
  indexedTargetPort (mkForwardPortMap [] "" tgt) i lp.

(** One VIP per listen port, each with one target per backend. *)
Definition vipsOf (listenAddress : IP) (portMap : loadBalancerPortMap)
  : list OVNLoadBalancerVIP :=
  imap (fun i lp =>
          mkVIP (lbProtocol portMap) listenAddress lp
            (map (fun tgt => mkTarget (address tgt) (backendPort tgt i lp))
                 (targets portMap))
            None)
       (lbListenPorts portMap).

(** A backend's target ports suffice for the listen ports. *)
Definition backendFits (listenPorts : nat) (tgt : forwardPortMapTarget)
  : Prop :=
  (length (ports tgt) <= 1)%nat \/ (listenPorts <= length (ports tgt))%nat.

(** A backend has more than one target port, yet fewer than there are
    listen ports. *)
Definition backendShort (portMap : loadBalancerPortMap)
    (tgt : forwardPortMapTarget) : Prop :=
  (1 < length (ports tgt) < length (lbListenPorts portMap))%nat.

Lemma flattenTargets_some (i : nat) (lp : N) (tgts : list forwardPortMapTarget) :
  Forall (backendFits (S i)) tgts ->
  flattenTargets i lp tgts
  = Some (map (fun tgt => mkTarget (address tgt) (backendPort tgt i lp)) tgts).
Proof.
  induction 1 as [|tgt rest Hfit _ IH]; [reflexivity|].
  cbn [flattenTargets map]. rewrite targetPortFor_indexed.
  - now rewrite IH.
  - cbn [target]. destruct Hfit; [left | right]; lia.
Qed.

Lemma flattenTargets_none (i : nat) (lp : N) (tgts : list forwardPortMapTarget)
    (tgt : forwardPortMapTarget) :
  In tgt tgts -> (1 < length (ports tgt) <= i)%nat ->
  flattenTargets i lp tgts = None.
Proof.
  intros Hin Hlen. induction tgts as [|t rest IH]; [destruct Hin|].
  cbn [flattenTargets]. destruct Hin as [-> | Hin].
  - unfold targetPortFor. cbn [target].
    destruct (Nat.eqb_spec (length (ports tgt)) 1); [lia|].
    destruct (Nat.ltb_spec 1 (length (ports tgt))); [|lia].
    rewrite (proj2 (lookup_ge_None (ports tgt) i)) by lia. reflexivity.
  - rewrite (IH Hin). now destruct (targetPortFor _ i lp).
Qed.

Lemma flattenLBListenPorts_some (listenAddress : IP)
    (portMap : loadBalancerPortMap) :
  forall (lps : list N) (i : nat),
    Forall (backendFits (i + length lps)) (targets portMap) ->
    flattenLBListenPorts listenAddress portMap i lps
    = Some (imap (fun j lp =>
                    mkVIP (lbProtocol portMap) listenAddress lp
                      (map (fun tgt =>
                              mkTarget (address tgt) (backendPort tgt (i + j) lp))
                           (targets portMap))
                      None) lps).
Proof.
  induction lps as [|lp lps IH]; intros i H; [reflexivity|].
  cbn [flattenLBListenPorts imap length] in *.
  rewrite flattenTargets_some.
  2:{ eapply Forall_impl; [exact H|]. intros tgt [Ht|Ht]; [left|right]; lia. }
  rewrite IH.
  2:{ eapply Forall_impl; [exact H|]. intros tgt [Ht|Ht]; [left|right]; lia. }
  rewrite Nat.add_0_r. do 2 f_equal.
  apply imap_ext. intros j x _. cbn. f_equal.
  apply map_ext. intros tgt. do 2 f_equal. lia.
Qed.

Lemma flattenLBListenPorts_none (listenAddress : IP)
    (portMap : loadBalancerPortMap) (tgt : forwardPortMapTarget) :
  In tgt (targets portMap) ->
  forall (lps : list N) (i : nat),
    (0 < length lps)%nat ->
    (1 < length (ports tgt) < i + length lps)%nat ->
    flattenLBListenPorts listenAddress portMap i lps = None.
Proof.
  intros Hin. induction lps as [|lp lps IH]; intros i Hpos Hlen;
    cbn [length] in *; [lia|].
  cbn [flattenLBListenPorts].
  destruct (Nat.le_gt_cases (length (ports tgt)) i) as [Hle|Hgt].
  - rewrite (flattenTargets_none i lp _ tgt Hin) by lia. reflexivity.
  - rewrite (IH (S i)) by lia. now destruct (flattenTargets i lp _).
Qed.

(** [loadBalancerFlattenVIPs] gives one VIP per listen port, each with
    one target per backend in the order of the backends, when every
    backend has at most one target port or as many as there are listen
    ports; it panics exactly when some backend has more than one target
    port and fewer than there are listen ports. *)
Theorem loadBalancerFlattenVIPs_backends (listenAddress : IP)
    (portMaps : list loadBalancerPortMap) :
  (Forall (fun portMap =>
             Forall (backendFits (length (lbListenPorts portMap)))
                    (targets portMap)) portMaps ->
   loadBalancerFlattenVIPs listenAddress portMaps
   = Some (flat_map (vipsOf listenAddress) portMaps))
  /\ (loadBalancerFlattenVIPs listenAddress portMaps = None
      <-> exists portMap tgt,
            In portMap portMaps /\ In tgt (targets portMap)
            /\ backendShort portMap tgt).
Proof.
  assert (Hsome :
    Forall (fun portMap =>
              Forall (backendFits (length (lbListenPorts portMap)))
                     (targets portMap)) portMaps ->
    loadBalancerFlattenVIPs listenAddress portMaps
    = Some (flat_map (vipsOf listenAddress) portMaps)).
  { induction 1 as [|portMap rest Hfit _ IH]; [reflexivity|].
    cbn [loadBalancerFlattenVIPs flat_map].
    rewrite flattenLBListenPorts_some by exact Hfit.
    rewrite IH. reflexivity. }
  split; [exact Hsome|]. split.
  - intros Hnone.
    assert (Hdec : forall l : list loadBalancerPortMap,
      Forall (fun portMap =>
                Forall (backendFits (length (lbListenPorts portMap)))
                       (targets portMap)) l
      \/ exists portMap tgt,
           In portMap l /\ In tgt (targets portMap)
           /\ backendShort portMap tgt).
    { induction l as [|portMap l IHl]; [left; constructor|].
      assert (Hpm :
        Forall (backendFits (length (lbListenPorts portMap))) (targets portMap)
        \/ exists tgt, In tgt (targets portMap) /\ backendShort portMap tgt).
      { induction (targets portMap) as [|tgt tgts IHt]; [left; constructor|].
        destruct IHt as [IHt | (t & Ht & Hs)].
        - destruct (Nat.le_gt_cases (length (ports tgt)) 1) as [H1|H1].
          + left. constructor; [now left | exact IHt].
          + destruct (Nat.le_gt_cases (length (lbListenPorts portMap))
                        (length (ports tgt))) as [H2|H2].
            * left. constructor; [now right | exact IHt].
            * right. exists tgt. split; [now left | split; assumption].
        - right. exists t. split; [now right | exact Hs]. }
      destruct Hpm as [Hpm | (tgt & Ht & Hs)].
      - destruct IHl as [IHl | (pm & tgt & Hp & Ht & Hs)].
        + left. now constructor.
        + right. exists pm, tgt. split; [now right | now split].
      - right. exists portMap, tgt. split; [now left | now split]. }
    destruct (Hdec portMaps) as [Hall | Hex]; [|exact Hex].
    rewrite (Hsome Hall) in Hnone. discriminate.
  - intros (portMap & tgt & Hpm & Ht & Hs). clear Hsome.
    induction portMaps as [|pm rest IH]; [destruct Hpm|].
    cbn [loadBalancerFlattenVIPs]. destruct Hpm as [-> | Hpm].
    + rewrite (flattenLBListenPorts_none listenAddress portMap tgt Ht);
        [reflexivity | |]; unfold backendShort in Hs; lia.
    + rewrite (IH Hpm).
      now destruct (flattenLBListenPorts listenAddress pm 0 _).
Qed.

(** *** Forwards *)

Lemma flattenListenPorts_none (listenAddress : IP) (portMap : forwardPortMap) :
  forall (lps : list N) (i : nat),
    (0 < length lps)%nat ->
    (1 < length (ports (target portMap)) < i + length lps)%nat ->
    flattenListenPorts listenAddress portMap i lps = None.
Proof.
  induction lps as [|lp lps IH]; intros i Hpos Hlen; cbn [length] in *; [lia|].
  cbn [flattenListenPorts].
  destruct (Nat.le_gt_cases (length (ports (target portMap))) i) as [Hle|Hgt].
  - unfold targetPortFor.
    destruct (Nat.eqb_spec (length (ports (target portMap))) 1); [lia|].
    destruct (Nat.ltb_spec 1 (length (ports (target portMap)))); [|lia].
    rewrite (proj2 (lookup_ge_None (ports (target portMap)) i)) by lia.
    reflexivity.
  - rewrite (IH (S i)) by lia. now destruct (targetPortFor portMap i lp).
Qed.

(** [forwardFlattenVIPs] panics exactly when some port map has more than
    one target port and fewer than it has listen ports. *)
Theorem forwardFlattenVIPs_panics (listenAddress defaultTargetAddress : IP)
    (portMaps : list forwardPortMap) :
  forwardFlattenVIPs listenAddress defaultTargetAddress portMaps = None
  <-> exists portMap,
        In portMap portMaps
        /\ (1 < length (ports (target portMap))
            < length (listenPorts portMap))%nat.
Proof.
  unfold forwardFlattenVIPs. split.
  - intros Hnone.
    assert (Hdec : forall l : list forwardPortMap,
      Forall portsFit l
      \/ exists portMap,
           In portMap l
           /\ (1 < length (ports (target portMap))
               < length (listenPorts portMap))%nat).
    { induction l as [|portMap l IHl]; [left; constructor|].
      destruct IHl as [IHl | (pm & Hp & Hs)].
      - destruct (Nat.le_gt_cases (length (ports (target portMap))) 1)
          as [H1|H1].
        + left. constructor; [now left | exact IHl].
        + destruct (Nat.le_gt_cases (length (listenPorts portMap))
                      (length (ports (target portMap)))) as [H2|H2].
          * left. constructor; [now right | exact IHl].
          * right. exists portMap. split; [now left | lia].
      - right. exists pm. split; [now right | exact Hs]. }
    destruct (Hdec portMaps) as [Hall | Hex]; [|exact Hex].
    rewrite (flattenPortMaps_indexed listenAddress portMaps Hall) in Hnone.
    discriminate.
  - intros (portMap & Hpm & Hs).
    assert (H : flattenPortMaps listenAddress portMaps = None);
      [|now rewrite H].
    induction portMaps as [|pm rest IH]; [destruct Hpm|].
    cbn [flattenPortMaps]. destruct Hpm as [-> | Hpm].
    + rewrite flattenListenPorts_none; [reflexivity | lia | lia].
    + rewrite (IH Hpm).
      now destruct (flattenListenPorts listenAddress pm 0 _).
Qed.

(** *** Examples *)

Definition demoListen : IP := ipv4_16 192 0 2 10.

Definition backend1 : forwardPortMapTarget :=
  mkForwardTarget (ipv4_16 10 0 0 2) [8080].
Definition backend2 : forwardPortMapTarget :=
  mkForwardTarget (ipv4_16 10 0 0 3) [].
Definition backendTwoPorts : forwardPortMapTarget :=
  mkForwardTarget (ipv4_16 10 0 0 4) [8080; 8081].

Definition demoPortMap : loadBalancerPortMap :=
  mkLoadBalancerPortMap [80; 443] "tcp" [backend1; backend2].

Example loadBalancerFlattenVIPs_two_backends :
  loadBalancerFlattenVIPs demoListen [demoPortMap]
  = Some
      [ mkVIP "tcp" demoListen 80
          [mkTarget (ipv4_16 10 0 0 2) 8080; mkTarget (ipv4_16 10 0 0 3) 80]
          None;
        mkVIP "tcp" demoListen 443
          [mkTarget (ipv4_16 10 0 0 2) 8080; mkTarget (ipv4_16 10 0 0 3) 443]
          None ].
Proof. vm_compute. reflexivity. Qed.

Example loadBalancerFlattenVIPs_short_backend_panics :
  loadBalancerFlattenVIPs demoListen
    [mkLoadBalancerPortMap [80; 443; 8443] "tcp" [backend1; backendTwoPorts]]
  = None.
Proof. vm_compute. reflexivity. Qed.

Lemma loadBalancerFlattenVIPs_backends_witness :
  loadBalancerFlattenVIPs demoListen [demoPortMap]
  = Some (flat_map (vipsOf demoListen) [demoPortMap]).
Proof.
  apply (loadBalancerFlattenVIPs_backends demoListen [demoPortMap]).
  repeat constructor; unfold backendFits; cbn; lia.
Defined.

End LoadBalancerVIPs.

(** ** Creation as a transaction *)

Module CreateTxn.
Import GoNet Net Forward.





Section Txn.

Variable ParseIP : string -> IP.
Variable ParseIPToNet : string -> result IPNet.
Variable forwardValidate :
  Network -> IP -> NetworkForwardsPost -> result (list forwardPortMap).
Variable loadBalancerValidate :
  Network -> IP -> NetworkLoadBalancersPost -> result (list loadBalancerPortMap).
Variable checkListenAddress : Network -> World -> IPNet -> result unit.
Variable getHealthCheck :
  Network -> NetworkLoadBalancersPost
  -> result (option OVNLoadBalancerHealthCheck).
Variable routerIntPortIP : Network -> IPNet -> IP.
Variable dbCreateError : World -> option string.
Variable ovnCreateLoadBalancerError : World -> option string.
Variable ovnCreateRouteError : World -> option string.
Variable notifyError : World -> option string.
Variable forwardBGPSetupPrefixes : Network -> World -> World * result unit.
Variable loadBalancerBGPSetupPrefixes : Network -> World -> World * result unit.

(** The refresh of the BGP prefixes writes to the BGP speaker, not to
    the cluster database. *)
Hypothesis forwardBGP_keeps_db : forall n w,
  dbForwards (fst (forwardBGPSetupPrefixes n w)) = dbForwards w.
Hypothesis loadBalancerBGP_keeps_db : forall n w,
  dbLoadBalancers (fst (loadBalancerBGPSetupPrefixes n w)) = dbLoadBalancers w.

Definition forwardCreate :=
  ForwardCreate ParseIP ParseIPToNet forwardValidate checkListenAddress
    routerIntPortIP dbCreateError ovnCreateLoadBalancerError
    ovnCreateRouteError notifyError forwardBGPSetupPrefixes.

Definition loadBalancerCreate :=
  LoadBalancerCreate ParseIP ParseIPToNet loadBalancerValidate
    checkListenAddress getHealthCheck routerIntPortIP dbCreateError
    ovnCreateLoadBalancerError ovnCreateRouteError notifyError
    loadBalancerBGPSetupPrefixes.







End Txn.

(** *** Examples *)

Definition notifyFails (w : World) : option string := Some "member unreachable".

(** The demo setting, with a notifier that may fail. *)
Definition demoForwardCreate (notifyError : World -> option string) :=
  forwardCreate demoParseIP demoParseIPToNet (fun _ _ _ => Ok [pmSingle])
    (fun _ _ _ => Ok tt) (fun _ _ => ipv4_16 10 0 0 1) noError noError noError
    notifyError noRefresh.

Definition demoLoadBalancerCreate (notifyError : World -> option string) :=
  loadBalancerCreate demoParseIP demoParseIPToNet
    (fun _ _ _ => Ok [mkLoadBalancerPortMap [80] "tcp"
                        [mkForwardTarget backend [8080]]])
    (fun _ _ _ => Ok tt) (fun _ _ => Ok None) (fun _ _ => ipv4_16 10 0 0 1)
    noError noError noError notifyError noRefresh.

(** The notification fails after the record, the OVN load balancer and
    the route have been written: all three are taken back. *)
Example ForwardCreate_notifier_fails :
  demoForwardCreate notifyFails uplinkedNet demoForward ClientTypeNormal
    emptyWorld
  = (emptyWorld, Err "member unreachable").
Proof. vm_compute. reflexivity. Qed.



End CreateTxn.

(** ** Deleting a forward *)

Module ForwardRemoval.
Import GoNet Net Forward CreateTxn.

(** [dbCluster.GetNetworkForward(ctx, tx, networkID, listenAddress)]. *)
Definition getNetworkForward (networkID : Z) (listenAddress : string)
    (rows : list (Row NetworkForwardsPost))
  : option (Row NetworkForwardsPost) :=
  List.find (fun r => Z.eqb (rowNetworkID r) networkID
                      && String.eqb (fwListenAddress (rowData r)) listenAddress)
            rows.

(** [dbCluster.DeleteNetworkForward(ctx, tx, networkID, forwardID)]. *)
Definition deleteNetworkForward (networkID forwardID : Z) (w : World) : World :=
  mkWorld
    (List.filter (fun r => negb (Z.eqb (rowNetworkID r) networkID
                                 && Z.eqb (rowID r) forwardID))
                 (dbForwards w))
    (dbLoadBalancers w) (ovnLoadBalancers w) (ovnRouterRoutes w) (notified w).

Section Delete.

Variable ParseIPToNet : string -> result IPNet.

(** The error of a lookup that finds no forward, and the failures of the
    database, of OVN and of the cluster notifier. *)
Variable errNotFound : string.
Variable dbGetError : World -> option string.
Variable ovnDeleteLoadBalancerError : World -> option string.
Variable ovnDeleteRouteError : World -> option string.
Variable dbDeleteError : World -> option string.
Variable notifyError : World -> option string.

Variable forwardBGPSetupPrefixes : Network -> World -> World * result unit.

(** The body of [if clientType == request.ClientTypeNormal]. *)
Definition forwardDeleteNormal (n : Network) (listenAddress : string)
    (w : World) : World * result unit :=
  match dbGetError w with
  | Some e => (w, Err e)
  | None =>
  match getNetworkForward (id n) listenAddress (dbForwards w) with
  | None => (w, Err errNotFound)
  | Some dbRecord =>
      let forwardID := rowID dbRecord in
      let forward := rowData dbRecord in
      match ovnDeleteLoadBalancerError w with
      | Some e => (w, Err ("Failed deleting OVN load balancer: " ++ e))
      | None =>
          let w1 :=
            deleteLoadBalancer
              (getLoadBalancerName n (fwListenAddress forward)) w in
          match ParseIPToNet (fwListenAddress forward) with
          | Err e => (w1, Err e)
          | Ok vip =>
              (* The outcome of deleting the route is ignored. *)
              let w2 :=
                match ovnDeleteRouteError w1 with
                | Some _ => w1
                | None => deleteRouterRoute (getRouterName n) vip w1
                end in
              match dbDeleteError w2 with
              | Some e => (w2, Err e)
              | None =>
                  let w3 := deleteNetworkForward (id n) forwardID w2 in
                  match notifyError w3 with
                  | Some e => (w3, Err e)
                  | None =>
                      (mkWorld (dbForwards w3) (dbLoadBalancers w3)
                         (ovnLoadBalancers w3) (ovnRouterRoutes w3)
                         (("DeleteNetworkForward " ++ fwListenAddress forward)%string
                          :: notified w3),
                       Ok tt)
                  end
              end
          end
      end
  end end.

Definition ForwardDelete (n : Network) (listenAddress : string)
    (clientType : ClientType) (w : World) : World * result unit :=
  let '(w1, r) :=
    match clientType with
    | ClientTypeNormal => forwardDeleteNormal n listenAddress w
    | _ => (w, Ok tt)
    end in
  match r with
  | Err e => (w1, Err e)
  | Ok _ =>
      let '(w2, refreshed) := forwardBGPSetupPrefixes n w1 in
      match refreshed with
      | Err e =>
          (w2, Err ("Failed applying BGP prefixes for address forwards: " ++ e))
      | Ok _ => (w2, Ok tt)
      end
  end.

(** The refresh of the BGP prefixes writes neither to the forwards
    table nor to OVN's load balancers. *)
Hypothesis forwardBGP_keeps : forall n w,
  dbForwards (fst (forwardBGPSetupPrefixes n w)) = dbForwards w
  /\ ovnLoadBalancers (fst (forwardBGPSetupPrefixes n w)) = ovnLoadBalancers w.

Definition named (lbName : string) (e : string * list OVNLoadBalancerVIP)
  : bool :=
  String.eqb (fst e) lbName.

Lemma ForwardDelete_success (n : Network) (listenAddress : string)
    (w w' : World) :
  ForwardDelete n listenAddress ClientTypeNormal w = (w', Ok tt) ->
  exists dbRecord,
    getNetworkForward (id n) listenAddress (dbForwards w) = Some dbRecord
    /\ rowNetworkID dbRecord = id n
    /\ fwListenAddress (rowData dbRecord) = listenAddress
    /\ dbForwards w'
       = List.filter (fun r => negb (Z.eqb (rowNetworkID r) (id n)
                                     && Z.eqb (rowID r) (rowID dbRecord)))
                     (dbForwards w)
    /\ ~ In dbRecord (dbForwards w')
    /\ ovnLoadBalancers w'
       = List.filter (fun e => negb (named (getLoadBalancerName n listenAddress) e))
                     (ovnLoadBalancers w).
Proof using forwardBGP_keeps.
  unfold ForwardDelete, forwardDeleteNormal.
  destruct (dbGetError w); [discriminate|].
  destruct (getNetworkForward (id n) listenAddress (dbForwards w))
    as [dbRecord|] eqn:Efind; [|discriminate].
  pose proof Efind as Hfound. unfold getNetworkForward in Hfound.
  apply find_some in Hfound as [Hin Hmatch].
  apply andb_true_iff in Hmatch as [Hid Haddr].
  apply Z.eqb_eq in Hid. apply String.eqb_eq in Haddr.
  destruct (ovnDeleteLoadBalancerError w); [discriminate|].
  destruct (ParseIPToNet _) as [vip|]; [|discriminate].
  match goal with
  | |- context [dbDeleteError ?w2] =>
      assert (Hw2 : dbForwards w2 = dbForwards w
                    /\ ovnLoadBalancers w2
                       = List.filter
                           (fun e => negb (named (getLoadBalancerName n listenAddress) e))
                           (ovnLoadBalancers w));
      [|destruct (dbDeleteError w2); [discriminate|];
        set (w3 := deleteNetworkForward (id n) (rowID dbRecord) w2);
        assert (Hw3 : dbForwards w3
                      = List.filter
                          (fun r => negb (Z.eqb (rowNetworkID r) (id n)
                                          && Z.eqb (rowID r) (rowID dbRecord)))
                          (dbForwards w)
                      /\ ovnLoadBalancers w3
                         = List.filter
                             (fun e => negb (named (getLoadBalancerName n listenAddress) e))
                             (ovnLoadBalancers w))
          by (subst w3; unfold deleteNetworkForward;
              cbn [dbForwards ovnLoadBalancers];
              destruct Hw2 as [-> ->]; now split)]
  end.
  { rewrite Haddr.
    destruct (ovnDeleteRouteError _); unfold deleteRouterRoute, deleteLoadBalancer;
      cbn [dbForwards ovnLoadBalancers]; now split. }
  destruct Hw3 as [Hdb Hovn].
  destruct (notifyError w3); [discriminate|].
  match goal with
  | |- context [forwardBGPSetupPrefixes n ?w4] =>
      destruct (forwardBGP_keeps n w4) as [Hk1 Hk2];
      destruct (forwardBGPSetupPrefixes n w4) as [w5 [[]|e]];
      [|discriminate]
  end.
  cbn [fst dbForwards ovnLoadBalancers] in Hk1, Hk2.
  intros [= <-]. exists dbRecord.
  rewrite Hk1, Hk2, Hdb, Hovn. repeat split; try assumption.
  intros Hc. apply List.filter_In in Hc as [_ Hc].
  rewrite Hid, !Z.eqb_refl in Hc. discriminate.
Qed.

(** A successful [ForwardDelete] for a normal client has found the
    forward, deleted its row and no other, and deleted its OVN load
    balancer and no other. *)
Theorem ForwardDelete_removes (n : Network) (listenAddress : string)
    (w w' : World) :
  ForwardDelete n listenAddress ClientTypeNormal w = (w', Ok tt) ->
  exists dbRecord,
    getNetworkForward (id n) listenAddress (dbForwards w) = Some dbRecord
    /\ rowNetworkID dbRecord = id n
    /\ fwListenAddress (rowData dbRecord) = listenAddress
    /\ dbForwards w'
       = List.filter (fun r => negb (Z.eqb (rowNetworkID r) (id n)
                                     && Z.eqb (rowID r) (rowID dbRecord)))
                     (dbForwards w)
    /\ ~ In dbRecord (dbForwards w')
    /\ ovnLoadBalancers w'
       = List.filter (fun e => negb (named (getLoadBalancerName n listenAddress) e))
                     (ovnLoadBalancers w).
Proof using forwardBGP_keeps.
  apply ForwardDelete_success.
Qed.

End Delete.

Section RoundTrip.

Variable ParseIP : string -> IP.
Variable ParseIPToNet : string -> result IPNet.
Variable forwardValidate :
  Network -> IP -> NetworkForwardsPost -> result (list forwardPortMap).
Variable checkListenAddress : Network -> World -> IPNet -> result unit.
Variable routerIntPortIP : Network -> IPNet -> IP.
Variable dbCreateError : World -> option string.
Variable ovnCreateLoadBalancerError : World -> option string.
Variable ovnCreateRouteError : World -> option string.
Variable createNotifyError : World -> option string.
Variable errNotFound : string.
Variable dbGetError : World -> option string.
Variable ovnDeleteLoadBalancerError : World -> option string.
Variable ovnDeleteRouteError : World -> option string.
Variable dbDeleteError : World -> option string.
Variable deleteNotifyError : World -> option string.
Variable forwardBGPSetupPrefixes : Network -> World -> World * result unit.

Hypothesis forwardBGP_keeps : forall n w,
  dbForwards (fst (forwardBGPSetupPrefixes n w)) = dbForwards w
  /\ ovnLoadBalancers (fst (forwardBGPSetupPrefixes n w)) = ovnLoadBalancers w.

Definition create :=
  forwardCreate ParseIP ParseIPToNet forwardValidate checkListenAddress
    routerIntPortIP dbCreateError ovnCreateLoadBalancerError
    ovnCreateRouteError createNotifyError forwardBGPSetupPrefixes.

Definition delete :=
  ForwardDelete ParseIPToNet errNotFound dbGetError ovnDeleteLoadBalancerError
    ovnDeleteRouteError dbDeleteError deleteNotifyError forwardBGPSetupPrefixes.



End RoundTrip.

(** *** Examples *)

Definition demoCreate :=
  create demoParseIP demoParseIPToNet (fun _ _ _ => Ok [pmSingle])
    (fun _ _ _ => Ok tt) (fun _ _ => ipv4_16 10 0 0 1) noError noError noError
    noError noRefresh.

Definition demoDelete :=
  delete demoParseIPToNet "Network forward not found" noError noError noError
    noError noError noRefresh.

(** The world with the demo forward. *)
Definition created : World :=
  fst (demoCreate uplinkedNet demoForward ClientTypeNormal emptyWorld).

Example ForwardDelete_demo :
  let '(w, r) := demoDelete uplinkedNet "192.0.2.1" ClientTypeNormal created in
  r = Ok tt /\ dbForwards w = [] /\ ovnLoadBalancers w = []
  /\ ovnRouterRoutes w = [].
Proof. vm_compute. repeat split. Qed.

Example ForwardDelete_unknown :
  demoDelete uplinkedNet "192.0.2.9" ClientTypeNormal created
  = (created, Err "Network forward not found").
Proof. vm_compute. reflexivity. Qed.

Lemma noRefresh_keeps : forall (n : Network) (w : World),
  dbForwards (fst (noRefresh n w)) = dbForwards w
  /\ ovnLoadBalancers (fst (noRefresh n w)) = ovnLoadBalancers w.
Proof. intros n w. split; reflexivity. Defined.

Lemma ForwardDelete_removes_witness :
  exists dbRecord,
    getNetworkForward 7 "192.0.2.1" (dbForwards created) = Some dbRecord
    /\ ~ In dbRecord
           (dbForwards
              (fst (demoDelete uplinkedNet "192.0.2.1" ClientTypeNormal created))).
Proof.
  destruct (ForwardDelete_removes demoParseIPToNet "Network forward not found"
              noError noError noError noError noError noRefresh
              noRefresh_keeps uplinkedNet "192.0.2.1" created
              (fst (demoDelete uplinkedNet "192.0.2.1" ClientTypeNormal created)))
    as (dbRecord & Hfind & _ & _ & _ & Hgone & _).
  - vm_compute. reflexivity.
  - exists dbRecord. split; [exact Hfind | exact Hgone].
Defined.


End ForwardRemoval.

(** ** Filling in a configuration *)

Module AutoConfig.

Section Fill.

(** [randomSubnetV4()] and [randomSubnetV6()]; each is called at most
    once. *)
Variable randomSubnetV4 : result string.
Variable randomSubnetV6 : result string.

(** [os.ReadFile("/proc/sys/net/ipv6/conf/default/disable_ipv6")]. *)
Variable readDisableIPv6 : result string.

(** [n.state != nil], and [n.Validate]. *)
Variable hasState : bool.
Variable Validate : gmap string string -> result unit.

Definition newline : string := String (Ascii.ascii_of_nat 10) EmptyString.

(** [populateAutoConfig]: the configuration is a Go map, written in
    place, so what was written before an error stays written. *)
Definition populateAutoConfig (config : gmap string string)
  : gmap string string * result unit :=
  let changedConfig := false in
  let v4 : gmap string string * bool * result unit :=
    if String.eqb (cfg config "ipv4.address") "auto" then
      match randomSubnetV4 with
      | Err e => (config, changedConfig, Err e)
      | Ok subnet =>
          let config := <["ipv4.address" := subnet]> config in
          let config :=
            if String.eqb (cfg config "ipv4.nat") ""
            then <["ipv4.nat" := "true"]> config else config in
          (config, true, Ok tt)
      end
    else (config, changedConfig, Ok tt) in
  match v4 with
  | (config, _, Err e) => (config, Err e)
  | (config, changedConfig, Ok _) =>
      let v6 : gmap string string * bool * result unit :=
        if String.eqb (cfg config "ipv6.address") "auto" then
          match randomSubnetV6 with
          | Err e => (config, changedConfig, Err e)
          | Ok subnet =>
              let config := <["ipv6.address" := subnet]> config in
              let config :=
                if String.eqb (cfg config "ipv6.nat") ""
                then <["ipv6.nat" := "true"]> config else config in
              (config, true, Ok tt)
          end
        else (config, changedConfig, Ok tt) in
      match v6 with
      | (config, _, Err e) => (config, Err e)
      | (config, changedConfig, Ok _) =>
          if changedConfig && hasState then (config, Validate config)
          else (config, Ok tt)
      end
  end.

(** [FillConfig]. *)
Definition FillConfig (config : gmap string string)
  : gmap string string * result unit :=
  let config :=
    if String.eqb (cfg config "ipv4.address") ""
    then <["ipv4.address" := "auto"]> config else config in
  let config :=
    if String.eqb (cfg config "ipv6.address") "" then
      match readDisableIPv6 with
      | Ok content =>
          if String.eqb content ("0" ++ newline)
          then <["ipv6.address" := "auto"]> config else config
      | Err _ => config
      end
    else config in
  let '(config, r) := populateAutoConfig config in
  (config, wrap "Failed generating auto config" r).

(** *** What is filled in *)

Ltac fill_step :=
  first
    [ progress cbn [fst snd wrap default from_option id andb] in *
    | rewrite lookup_insert_eq in *
    | rewrite lookup_insert_ne in * by congruence
    | match goal with
      | |- context [String.eqb ?a ?b] => destruct (String.eqb_spec a b)
      | |- context [match ?r with Ok _ => _ | Err _ => _ end] =>
          destruct r eqn:?
      | |- context [if ?b then _ else _] => destruct b eqn:?
      end ].

(** [FillConfig] fills in what is missing and nothing else: keys other
    than the two addresses and their NAT settings are left alone, an
    address given by the user is kept together with its NAT setting, a
    NAT setting given by the user is kept, and when it succeeds a missing
    or "auto" IPv4 address has become the generated subnet, with NAT
    switched on unless the user had set it. *)
Theorem FillConfig_fills_only_missing (config : gmap string string) :
  let config' := fst (FillConfig config) in
  (forall k, k <> "ipv4.address" -> k <> "ipv4.nat" ->
             k <> "ipv6.address" -> k <> "ipv6.nat" ->
             config' !! k = config !! k)
  /\ (cfg config "ipv4.address" <> "" -> cfg config "ipv4.address" <> "auto" ->
      config' !! "ipv4.address" = config !! "ipv4.address"
      /\ config' !! "ipv4.nat" = config !! "ipv4.nat")
  /\ (cfg config "ipv6.address" <> "" -> cfg config "ipv6.address" <> "auto" ->
      config' !! "ipv6.address" = config !! "ipv6.address"
      /\ config' !! "ipv6.nat" = config !! "ipv6.nat")
  /\ (cfg config "ipv4.nat" <> "" -> config' !! "ipv4.nat" = config !! "ipv4.nat")
  /\ (cfg config "ipv6.nat" <> "" -> config' !! "ipv6.nat" = config !! "ipv6.nat")
  /\ (snd (FillConfig config) = Ok tt ->
      cfg config "ipv4.address" = "" \/ cfg config "ipv4.address" = "auto" ->
      randomSubnetV4 = Ok (cfg config' "ipv4.address")
      /\ (cfg config "ipv4.nat" = "" -> cfg config' "ipv4.nat" = "true")).
Proof.
  cbv zeta. unfold FillConfig, populateAutoConfig, cfg.
  destruct readDisableIPv6 as [content|];
    [destruct (String.eqb content ("0" ++ newline))|];
    (destruct (String.eqb_spec (default "" (config !! "ipv4.address")) "");
     destruct (String.eqb_spec (default "" (config !! "ipv6.address")) ""));
    repeat split; intros; repeat fill_step;
    try congruence; try reflexivity; try (intuition congruence).
Qed.

End Fill.

(** *** Examples *)

Definition demoFill :=
  FillConfig (Ok "10.152.7.1/24") (Ok "fd42:7::1/64") (Ok ("0" ++ newline)%string)
    false (fun _ => Ok tt).

Example FillConfig_empty :
  demoFill ∅
  = (<["ipv6.nat" := "true"]>
       (<["ipv6.address" := "fd42:7::1/64"]>
          (<["ipv4.nat" := "true"]>
             (<["ipv4.address" := "10.152.7.1/24"]> ∅))),
     Ok tt).
Proof. vm_compute. reflexivity. Qed.

Example FillConfig_keeps_user_settings :
  demoFill (<["ipv4.address" := "192.0.2.1/24"]> (<["ipv6.nat" := "false"]> ∅))
  = (<["ipv6.address" := "fd42:7::1/64"]>
       (<["ipv4.address" := "192.0.2.1/24"]> (<["ipv6.nat" := "false"]> ∅)),
     Ok tt).
Proof. vm_compute. reflexivity. Qed.

(** The IPv6 generator fails after the IPv4 subnet has been written. *)
Example FillConfig_partial_on_failure :
  FillConfig (Ok "10.152.7.1/24") (Err "no free subnet") (Ok ("0" ++ newline)%string)
    false (fun _ => Ok tt) ∅
  = (<["ipv6.address" := "auto"]>
       (<["ipv4.nat" := "true"]> (<["ipv4.address" := "10.152.7.1/24"]> ∅)),
     Err "Failed generating auto config: no free subnet").
Proof. vm_compute. reflexivity. Qed.

End AutoConfig.
